(** * Quill: message correlation, classification merge and routing

    A shallow embedding of the core of the quill bot
    (packages [internal/domain], [internal/domain/common],
    [internal/domain/services], [internal/providers/chat/slack] and
    [internal/providers/llm/ollama]) together with the properties of its
    pipeline.

    Conventions of the embedding:
    - Go strings are byte strings: [string];
    - a [float64] is a primitive binary64 float, so comparisons follow
      IEEE 754 (every comparison with NaN is false);
    - a nilable pointer [*T] stored in a slice is an [option T];
    - a Go [map] is a [gmap]; reading a missing key yields the zero value;
    - a function returning [(T, error)] returns [error + T], a function
      returning only [error] returns [option error] ([None] is [nil]);
    - calls to collaborators (chat, document store, AI agent, clock) thread
      an explicit world and are recorded in a log. *)

From Stdlib Require Import String Ascii List ZArith Lia Bool.
From Stdlib Require Import DecimalString DecimalNat Floats.
From stdpp Require Import gmap strings list.

Set Warnings "-abstract-large-number".

Open Scope string_scope.
Open Scope list_scope.

(** ** Errors *)

(** Error values.  [Errorf ctx e] is [fmt.Errorf("ctx: %w", e)]; [ErrorNew]
    is an error made from a plain text; [ErrExternal] is an error value
    handed back by a collaborator. *)
Inductive error : Type :=
| ErrInvalidSender
| ErrNoContent
| ErrNoType
| ErrInvalidConfidenceScore
| ErrInvalidAnalysisResult
| ErrEmptyContent
| ErrExternal (what : string)
| ErrorNew (text : string)
| Errorf (context : string) (cause : error).

(** ** Package [common] *)

Module Common.

(** [type ID struct { value string }] *)
Record ID : Type := MkID { value : string }.

Definition String (id : ID) : string := value id.

Definition Equals (id other : ID) : bool :=
  if decide (value id = value other) then true else false.

(** [ulid.MustNew(ulid.Timestamp(time.Now()), entropy)] is a library call
    on the clock and on the process-wide monotonic entropy source.  The
    model keeps what the callers rely on: the k-th identifier issued by
    the process is determined by k and differs from all the others.  Its
    text is rendered as the numeral of k. *)
Definition ulid (k : nat) : string :=
  NilEmpty.string_of_uint (Nat.to_uint k).

(** [GenerateID]: the argument is the number of identifiers issued so
    far; the result carries the updated count. *)
Definition GenerateID (issued : nat) : ID * nat :=
  (MkID (ulid issued), S issued).

End Common.

(** ** Package [domain] *)

Module Domain.

(** *** message_type.go *)

Definition MessageType : Type := string.

Definition MessageTypeIdea : MessageType := "idea".
Definition MessageTypeDecision : MessageType := "decision".
Definition MessageTypeStatus : MessageType := "status".
Definition MessageTypeUnknown : MessageType := "unknown".

Definition validMessageTypes : gmap string bool :=
  <[MessageTypeIdea := true]>
    (<[MessageTypeDecision := true]>
       (<[MessageTypeStatus := true]>
          (<[MessageTypeUnknown := true]> ∅))).

Definition MessageType_IsValid (mt : MessageType) : bool :=
  default false (validMessageTypes !! mt).

(** *** message_category.go *)

Definition Category : Type := string.

Definition CategoryOperations : Category := "operations".
Definition CategoryDevelopment : Category := "development".
Definition CategoryProduct : Category := "product".
Definition CategoryQualityAssurance : Category := "quality_assurance".
Definition CategoryDataAnalysis : Category := "data_analysis".
Definition CategoryOther : Category := "other".
Definition CategoryUnknown : Category := "unknown".

Definition validCategories : gmap string bool :=
  <[CategoryOperations := true]>
    (<[CategoryDevelopment := true]>
       (<[CategoryProduct := true]>
          (<[CategoryQualityAssurance := true]>
             (<[CategoryDataAnalysis := true]>
                (<[CategoryOther := true]>
                   (<[CategoryUnknown := true]> ∅)))))).

Definition Category_IsValid (c : Category) : bool :=
  default false (validCategories !! c).

(** *** reference.go *)

Definition ReferenceType : Type := string.

Record Reference : Type := MkReference {
  refType : ReferenceType;
  refValue : string
}.

(** *** message_content.go *)

Definition MaxContentLength : nat := 10000.

Record MessageContent : Type := MkMessageContent { text : string }.

(** [strings.TrimSpace] on the ASCII white space of Go
    ([\t], [\n], [\v], [\f], [\r] and the blank).  On a string whose bytes
    are all below 128 this is what the library function computes. *)
Definition asciiSpace (a : ascii) : bool :=
  let n := nat_of_ascii a in
  (Nat.leb 9 n && Nat.leb n 13) || Nat.eqb n 32.

Fixpoint trimLeft (s : string) : string :=
  match s with
  | String a s' => if asciiSpace a then trimLeft s' else s
  | EmptyString => EmptyString
  end.

Fixpoint trimRight (s : string) : string :=
  match s with
  | String a s' =>
      match trimRight s' with
      | EmptyString => if asciiSpace a then EmptyString
                       else String a EmptyString
      | t => String a t
      end
  | EmptyString => EmptyString
  end.

Definition asciiTrimSpace (s : string) : string := trimRight (trimLeft s).

Section Content.

(** [strings.TrimSpace] of the Go library, which also knows the white
    space of Unicode. *)
Variable TrimSpace : string -> string.

Definition NewMessageContent (input : string) : error + MessageContent :=
  let text := TrimSpace input in
  if decide (text = "") then inl ErrEmptyContent
  else
    let text :=
      if Nat.ltb MaxContentLength (String.length text)
      then String.substring 0 MaxContentLength text
      else text in
    inr (MkMessageContent text).

End Content.

(** *** message_analysis_result.go *)

Record MessageAnalysisResult : Type := MkMessageAnalysisResult {
  ar_messageType : MessageType;
  ar_category : Category;
  ar_references : list (option Reference);
  ar_confidenceScore : float;
  ar_suggestedTags : list string
}.

Definition NewMessageAnalysisResult
    (msgType : MessageType) (category : Category)
    (references : list (option Reference))
    (confidence : float) (tags : list string)
  : error + MessageAnalysisResult :=
  if (confidence <? 0)%float || (1 <? confidence)%float
  then inl ErrInvalidConfidenceScore
  else if negb (MessageType_IsValid msgType)
          || negb (Category_IsValid category)
  then inl ErrInvalidAnalysisResult
  else inr (MkMessageAnalysisResult msgType category references
                                    confidence tags).

(** The constant [0.8] of the source, as the [float64] it denotes. *)
Definition highConfidence : float := 0x1.999999999999ap-1%float.

Definition IsHighConfidence (r : MessageAnalysisResult) : bool :=
  (highConfidence <=? ar_confidenceScore r)%float.

Definition HasSuggestedTags (r : MessageAnalysisResult) : bool :=
  Nat.ltb 0 (length (ar_suggestedTags r)).

(** *** message.go *)

Definition Time : Type := nat.

Record Message : Type := MkMessage {
  id : Common.ID;
  threadID : Common.ID;
  sender : string;
  content : MessageContent;
  messageType : MessageType;
  category : Category;
  references : list (option Reference);
  timestamp : Time
}.

(** [NewMessage]; [content] is [None] for a nil pointer, [issued] is the
    identifier count and [now] the reading of [time.Now()]. *)
Definition NewMessage (issued : nat) (now : Time)
    (threadID : Common.ID) (sender : string)
    (content : option MessageContent) (messageType : MessageType)
    (category : Category) (references : list (option Reference))
  : (error + Message) * nat :=
  if decide (sender = "") then (inl ErrInvalidSender, issued)
  else match content with
       | None => (inl ErrNoContent, issued)
       | Some c =>
           if negb (MessageType_IsValid messageType)
           then (inl ErrNoType, issued)
           else
             let '(mid, issued') := Common.GenerateID issued in
             (inr (MkMessage mid threadID sender c messageType category
                             references now), issued')
       end.

Definition AddReference (m : Message) (ref : option Reference) : Message :=
  match ref with
  | Some _ =>
      MkMessage (id m) (threadID m) (sender m) (content m) (messageType m)
                (category m) (references m ++ [ref]) (timestamp m)
  | None => m
  end.

Definition HasReferences (m : Message) : bool :=
  Nat.ltb 0 (length (references m)).

Definition UpdateCategory (m : Message) (c : Category) : Message :=
  if Category_IsValid c
  then MkMessage (id m) (threadID m) (sender m) (content m) (messageType m)
                 c (references m) (timestamp m)
  else m.

End Domain.

(** ** Package [ports]: the collaborators *)

Module Ports.
Import Domain.

(** The metadata map built by [CreateDocumentation]: the keys ["type"],
    ["category"], ["created_at"] and ["references"]. *)
Record Metadata : Type := MkMetadata {
  md_type : string;
  md_category : string;
  md_created_at : Time;
  md_references : list (option Reference)
}.

(** Each method takes the state [W] of the outside world and returns the
    new one with its result. *)
Class AiAgentProvider (W : Type) : Type := {
  AnalyzeMessage : W -> string -> W * (error + MessageAnalysisResult);
  GenerateDocumentation : W -> string -> Metadata -> W * (error + string);
  DetectReferences : W -> string -> W * (error + list (option Reference))
}.

Class DocumentStoreProvider (W : Type) : Type := {
  StoreDocument : W -> string -> string -> Metadata -> W * option error
}.

Class ChatAccessProvider (W : Type) : Type := {
  ReplyToMessage : W -> string -> string -> W * option error
}.

(** What the services take from the Go library: the clock,
    [Time.UTC().Format("20060102-150405")] and [filepath.Join]. *)
Class Runtime (W : Type) : Type := {
  time_Now : W -> W * Time;
  time_Format : Time -> string;
  filepath_Join : list string -> string
}.

End Ports.

(** ** Package [services] *)

Module Services.
Import Domain Ports.

(** A [context.Context] argument: nil or not. *)
Inductive Ctx : Type := NilCtx | LiveCtx.

(** The calls that leave the process, with what they returned. *)
Inductive Event : Type :=
| CallAnalyzeMessage (content : string)
    (result : error + MessageAnalysisResult)
| CallDetectReferences (content : string)
    (result : error + list (option Reference))
| CallGenerateDocumentation (message : string) (metadata : Metadata)
    (result : error + string)
| CallStoreDocument (path content : string) (metadata : Metadata)
    (result : option error)
| CallReplyToMessage (messageID content : string)
    (result : option error).

(** How a call of the service ends: it returns its error value, or the
    goroutine panics. *)
Inductive outcome : Type :=
| Returned (err : option error)
| Panicked (why : string).

Inductive handler : Type :=
| ideaHandler
| decisionHandler
| statusHandler
| unknownHandler.

(** [%d] of a length. *)
Definition itoa (n : nat) : string :=
  NilEmpty.string_of_uint (Nat.to_uint n).

Definition newline : string := String (ascii_of_nat 10) EmptyString.

Definition linkedSuffix (n : nat) : string :=
  newline +:+ "🔗 Linked to " +:+ itoa n +:+ " related items".

Definition ideaReply : string := "📝 Captured idea in category: ".
Definition decisionReply : string := "✅ Recorded decision in category: ".
Definition statusReply : string := "📊 Logged status update in category: ".
Definition suggestionHeader : string :=
  "💡 I noticed this might be relevant. Consider adding these tags:"
    +:+ newline.

(** The loop of [HandleWithAnalysis]:
    [suggestion += fmt.Sprintf("- #%s\n", tag)]. *)
Definition addTags (suggestion : string) (tags : list string) : string :=
  fold_left (fun acc tag => acc +:+ ("- #" +:+ tag +:+ newline))
            tags suggestion.

(** [NewBotService]: the handler table. *)
Definition handlers : gmap string handler :=
  <[MessageTypeIdea := ideaHandler]>
    (<[MessageTypeDecision := decisionHandler]>
       (<[MessageTypeStatus := statusHandler]>
          (<[MessageTypeUnknown := unknownHandler]> ∅))).

(** The type assertion [handler.(SuggestionsHandler)]: only
    [unknownHandler] has a [HandleWithAnalysis] method. *)
Definition isSuggestionsHandler (h : handler) : bool :=
  match h with
  | unknownHandler => true
  | _ => false
  end.

Section Pipeline.
Context {W : Type}.
Context {ai : AiAgentProvider W} {docs : DocumentStoreProvider W}.
Context {chat : ChatAccessProvider W} {rt : Runtime W}.

(** The world and the calls made so far, oldest first. *)
Record State : Type := MkState { world : W; log : list Event }.

Definition M (A : Type) : Type := State -> A * State.

Definition ret {A : Type} (a : A) : M A := fun s => (a, s).

Definition bind {A B : Type} (m : M A) (k : A -> M B) : M B :=
  fun s => let '(a, s') := m s in k a s'.

Notation "'let*' x ':=' m 'in' k" := (bind m (fun x => k))
  (at level 10, x name, m at level 100, k at level 200).

(** A call to a collaborator, recorded with its result. *)
Definition call {A : Type} (f : W -> W * A) (ev : A -> Event) : M A :=
  fun s => let '(w, a) := f (world s) in
           (a, MkState w (log s ++ [ev a])).

Definition now : M Time :=
  fun s => let '(w, t) := time_Now (world s) in (t, MkState w (log s)).

(** *** documentation_service.go *)

Definition generatePath (msgType : MessageType) (category : Category)
  : M string :=
  let* t := now in
  let timestamp := time_Format t in
  let filename := msgType +:+ "-" +:+ timestamp +:+ ".md" in
  ret (filepath_Join ["docs"; category; filename]).

Definition CreateDocumentation (ctx : Ctx) (msgType : MessageType)
    (category : Category) (content : string)
    (references : list (option Reference)) : M (option error) :=
  match ctx with
  | NilCtx => ret (Some (ErrorNew "context cannot be nil"))
  | LiveCtx =>
      let* created := now in
      let metadata := MkMetadata msgType category created references in
      let* r := call (fun w => GenerateDocumentation w content metadata)
                (CallGenerateDocumentation content metadata) in
      match r with
      | inl err =>
          ret (Some (Errorf "failed to generate documentation" err))
      | inr doc =>
          let* path := generatePath msgType category in
          let* e := call (fun w => StoreDocument w path doc metadata)
                    (CallStoreDocument path doc metadata) in
          match e with
          | Some err =>
              ret (Some (Errorf "failed to store documentation" err))
          | None => ret None
          end
      end
  end.

(** *** bot_service.go: the handlers *)

Definition createDocumentation (ctx : Ctx) (msg : Message)
  : M (option error) :=
  CreateDocumentation ctx (messageType msg) (category msg)
                      (text (content msg)) (references msg).

Definition replyWithReferences (template : string) (msg : Message)
  : string :=
  let reply := template +:+ category msg in
  if HasReferences msg
  then reply +:+ linkedSuffix (length (references msg))
  else reply.

Definition sendReply (msg : Message) (reply : string) : M (option error) :=
  call (fun w => ReplyToMessage w (Common.String (id msg)) reply)
       (CallReplyToMessage (Common.String (id msg)) reply).

Definition Handle (h : handler) (ctx : Ctx) (msg : Message)
  : M (option error) :=
  match h with
  | ideaHandler =>
      let* e := createDocumentation ctx msg in
      match e with
      | Some err =>
          ret (Some (Errorf "failed to create idea documentation" err))
      | None => sendReply msg (replyWithReferences ideaReply msg)
      end
  | decisionHandler =>
      let* e := createDocumentation ctx msg in
      match e with
      | Some err =>
          ret (Some (Errorf "failed to create decision documentation"
                            err))
      | None => sendReply msg (replyWithReferences decisionReply msg)
      end
  | statusHandler =>
      let* e := createDocumentation ctx msg in
      match e with
      | Some err =>
          ret (Some (Errorf "failed to create status documentation" err))
      | None => sendReply msg (replyWithReferences statusReply msg)
      end
  | unknownHandler => ret None
  end.

(** [unknownHandler.HandleWithAnalysis] *)
Definition HandleWithAnalysis (ctx : Ctx) (msg : Message)
    (analysis : MessageAnalysisResult) : M (option error) :=
  if negb (IsHighConfidence analysis) || negb (HasSuggestedTags analysis)
  then ret None
  else sendReply msg (addTags suggestionHeader
                              (ar_suggestedTags analysis)).

(** *** bot_service.go: the pipeline *)

Definition analyzeMessage (msg : Message)
  : M (error + MessageAnalysisResult) :=
  let* r := call (fun w => AnalyzeMessage w (text (content msg)))
            (CallAnalyzeMessage (text (content msg))) in
  match r with
  | inl err => ret (inl (Errorf "AI analysis failed" err))
  | inr result => ret (inr result)
  end.

Definition updateMessageWithAnalysis (msg : Message)
    (analysis : MessageAnalysisResult) : Message :=
  fold_left AddReference (ar_references analysis)
            (UpdateCategory msg (ar_category analysis)).

(** The message is changed in place, so the changed message is returned
    next to the error. *)
Definition detectAndAddReferences (msg : Message)
  : M (option error * Message) :=
  let* r := call (fun w => DetectReferences w (text (content msg)))
            (CallDetectReferences (text (content msg))) in
  match r with
  | inl err =>
      ret (Some (Errorf "failed to detect references" err), msg)
  | inr refs => ret (None, fold_left AddReference refs msg)
  end.

(** Lines 181-185 of [ProcessMessage]: the handler is looked up under
    the type of the analysis; a missing key gives the nil interface,
    on which the call of [Handle] panics. *)
Definition route (ctx : Ctx) (msg : Message)
    (analysis : MessageAnalysisResult) : M outcome :=
  match handlers !! ar_messageType analysis with
  | None => ret (Panicked "nil handler")
  | Some h =>
      if isSuggestionsHandler h
      then let* e := HandleWithAnalysis ctx msg analysis in
           ret (Returned e)
      else let* e := Handle h ctx msg in
           ret (Returned e)
  end.

(** [ProcessMessage]; [msg] is [None] for a nil pointer.  The second
    component is the message as the call leaves it. *)
Definition ProcessMessage (ctx : Ctx) (msg : option Message)
  : M (outcome * option Message) :=
  match ctx, msg with
  | NilCtx, _ =>
      ret (Returned (Some (ErrorNew "context cannot be nil")), msg)
  | LiveCtx, None =>
      ret (Returned (Some (ErrorNew "message cannot be nil")), msg)
  | LiveCtx, Some m =>
      let* r := analyzeMessage m in
      match r with
      | inl err =>
          ret (Returned (Some (Errorf "failed to analyze message" err)),
               Some m)
      | inr analysis =>
          let m1 := updateMessageWithAnalysis m analysis in
          if negb (HasReferences m1)
          then
            let* d := detectAndAddReferences m1 in
            match d with
            | (Some err, m2) => ret (Returned (Some err), Some m2)
            | (None, m2) =>
                let* o := route ctx m2 analysis in ret (o, Some m2)
            end
          else let* o := route ctx m1 analysis in ret (o, Some m1)
      end
  end.

End Pipeline.

Arguments State : clear implicits.
Arguments M : clear implicits.

End Services.

(** ** Package [slack]: the thread map of the client *)

Module Slack.
Import Domain.

(** The fields of [slack.MessageEvent] that [processMessageEvent] reads. *)
Record MessageEvent : Type := MkMessageEvent {
  BotID : string;
  User : string;
  Text : string;
  Timestamp : string;
  ThreadTimestamp : string
}.

(** What the goroutines calling [processMessageEvent] share: the fields
    [threadMap], [threadLock] and [messageCh] of [Client], and the count
    of identifiers issued by [common.GenerateID].  The lock is the number
    of read locks held and whether the write lock is held.  The channel is
    the sequence of messages sent on it, oldest first. *)
Record Client : Type := MkClient {
  threadMap : gmap string Common.ID;
  readers : nat;
  writer : bool;
  issued : nat;
  messageCh : list Message
}.

(** [NewClient]: the empty map, the free lock, the empty channel. *)
Definition NewClient (issued : nat) : Client :=
  MkClient ∅ 0 false issued [].

(** How a call of [processMessageEvent] returns. *)
Inductive result : Type :=
| Skipped                                       (* line 157 *)
| UserInfoFailed (err : error)                  (* line 164 *)
| ParentRegistered (threadID : Common.ID)       (* line 181 *)
| ContentRejected (threadID : Common.ID) (err : error)   (* line 196 *)
| MessageRejected (threadID : Common.ID) (err : error)   (* line 215 *)
| Sent (msg : Message).                         (* line 219 *)

(** Where a goroutine stands in [processMessageEvent]; each constructor
    is one access to the shared state. *)
Inductive pc : Type :=
| AtStart                                       (* lines 156-165 *)
| AtRLock (name : string)                       (* line 169 *)
| AtLookup (name : string)                      (* lines 170-176, 185 *)
| AtRUnlock (name : string) (threadID : Common.ID)   (* lines 177, 186 *)
| AtLock (name : string) (threadID : Common.ID)      (* lines 178, 187 *)
| AtInsert (name : string) (threadID : Common.ID)    (* lines 179, 188 *)
| AtUnlock (name : string) (threadID : Common.ID)    (* lines 180, 189 *)
| AtEmit (name : string) (threadID : Common.ID)      (* lines 192-219 *)
| Done (r : result).

(** [msg.ThreadTimestamp != ""] *)
Definition inThread (ev : MessageEvent) : bool :=
  if decide (ThreadTimestamp ev = "") then false else true.

Section Process.

(** [strings.TrimSpace], [c.api.GetUserInfo] (user to name),
    the constant [domain.MessageTypeInformation], which no file of the
    package declares, and the clock read by [NewMessage], as a function
    of the count of identifiers issued. *)
Variable TrimSpace : string -> string.
Variable GetUserInfo : string -> error + string.
Variable MessageTypeInformation : MessageType.
Variable time_Now : nat -> Time.

(** One step of a goroutine; [None] when it has returned or waits for
    the lock.  [RLock] is granted when no writer holds the lock, [Lock]
    when nobody does. *)
Definition step (c : Client) (ev : MessageEvent) (p : pc)
  : option (Client * pc) :=
  match p with
  | AtStart =>
      if (if decide (BotID ev = "") then false else true)
         || (if decide (User ev = "") then true else false)
      then Some (c, Done Skipped)
      else match GetUserInfo (User ev) with
           | inl err => Some (c, Done (UserInfoFailed err))
           | inr name => Some (c, AtRLock name)
           end
  | AtRLock name =>
      if writer c then None
      else Some (MkClient (threadMap c) (S (readers c)) (writer c)
                          (issued c) (messageCh c),
                 AtLookup name)
  | AtLookup name =>
      if inThread ev
      then match threadMap c !! ThreadTimestamp ev with
           | Some tid => Some (c, AtEmit name tid)
           | None =>
               let '(tid, n) := Common.GenerateID (issued c) in
               Some (MkClient (threadMap c) (readers c) (writer c) n
                              (messageCh c),
                     AtRUnlock name tid)
           end
      else
        let '(tid, n) := Common.GenerateID (issued c) in
        Some (MkClient (threadMap c) (readers c) (writer c) n
                       (messageCh c),
              AtRUnlock name tid)
  | AtRUnlock name tid =>
      Some (MkClient (threadMap c) (pred (readers c)) (writer c)
                     (issued c) (messageCh c),
            AtLock name tid)
  | AtLock name tid =>
      if writer c || Nat.ltb 0 (readers c) then None
      else Some (MkClient (threadMap c) (readers c) true (issued c)
                          (messageCh c),
                 AtInsert name tid)
  | AtInsert name tid =>
      let key := if inThread ev then ThreadTimestamp ev
                 else Timestamp ev in
      Some (MkClient (<[key := tid]> (threadMap c)) (readers c)
                     (writer c) (issued c) (messageCh c),
            AtUnlock name tid)
  | AtUnlock name tid =>
      let c' := MkClient (threadMap c) (readers c) false (issued c)
                         (messageCh c) in
      if inThread ev then Some (c', Done (ParentRegistered tid))
      else Some (c', AtEmit name tid)
  | AtEmit name tid =>
      match NewMessageContent TrimSpace (Text ev) with
      | inl err => Some (c, Done (ContentRejected tid err))
      | inr messageContent =>
          match NewMessage (issued c) (time_Now (issued c)) tid name
                           (Some messageContent) MessageTypeInformation
                           CategoryOther [] with
          | (inl err, n) =>
              Some (MkClient (threadMap c) (readers c) (writer c) n
                             (messageCh c),
                    Done (MessageRejected tid err))
          | (inr domainMsg, n) =>
              Some (MkClient (threadMap c) (readers c) (writer c) n
                             (messageCh c ++ [domainMsg]),
                    Done (Sent domainMsg))
          end
      end
  | Done _ => None
  end.

(** A goroutine run on its own for at most [fuel] steps. *)
Fixpoint exec (fuel : nat) (c : Client) (ev : MessageEvent) (p : pc)
  : Client * pc :=
  match fuel with
  | O => (c, p)
  | S fuel' =>
      match step c ev p with
      | Some (c', p') => exec fuel' c' ev p'
      | None => (c, p)
      end
  end.

(** [processMessageEvent] called with no other goroutine in the
    function: the longest path has eight steps. *)
Definition processMessageEvent (c : Client) (ev : MessageEvent)
  : Client * pc :=
  exec 8 c ev AtStart.

(** Several goroutines in [processMessageEvent], one per event. *)
Record System : Type := MkSystem {
  client : Client;
  goroutines : list (MessageEvent * pc)
}.

Definition spawn (c : Client) (evs : list MessageEvent) : System :=
  MkSystem c (map (fun ev => (ev, AtStart)) evs).

(** The scheduler lets goroutine [i] take its next step; nothing
    happens when it cannot take one. *)
Definition sched_step (s : System) (i : nat) : System :=
  match goroutines s !! i with
  | Some (ev, p) =>
      match step (client s) ev p with
      | Some (c', p') =>
          MkSystem c' (<[i := (ev, p')]> (goroutines s))
      | None => s
      end
  | None => s
  end.

(** An interleaving is the list of the goroutines scheduled, in order. *)
Definition run (schedule : list nat) (s : System) : System :=
  fold_left sched_step schedule s.

End Process.

(** The ThreadId a goroutine has resolved its event to, once it has. *)
Definition resolved (p : pc) : option Common.ID :=
  match p with
  | AtEmit _ tid => Some tid
  | Done (ContentRejected tid _) => Some tid
  | Done (MessageRejected tid _) => Some tid
  | Done (Sent msg) => Some (threadID msg)
  | _ => None
  end.

(** The messages a call has put on the channel. *)
Definition emitted (before after : Client) : list Message :=
  drop (length (messageCh before)) (messageCh after).

End Slack.

(** ** What the properties speak about *)

Module Observe.
Import Domain Ports Services.

(** A confidence score inside the closed interval from 0 to 1. *)
Definition inUnitInterval (c : float) : bool :=
  (0 <=? c)%float && (c <=? 1)%float.

(** [sub] occurs in [s]. *)
Definition contains (s sub : string) : Prop :=
  exists pre post : string, s = pre +:+ sub +:+ post.




(** Calls of [ReplyToMessage], and those the chat accepted. *)
Definition isReply (e : Event) : bool :=
  match e with
  | CallReplyToMessage _ _ _ => true
  | _ => false
  end.

Definition isReplySent (e : Event) : bool :=
  match e with
  | CallReplyToMessage _ _ None => true
  | _ => false
  end.

(** Calls of [StoreDocument], and those the store accepted. *)
Definition isStore (e : Event) : bool :=
  match e with
  | CallStoreDocument _ _ _ _ => true
  | _ => false
  end.

Definition isStored (e : Event) : bool :=
  match e with
  | CallStoreDocument _ _ _ None => true
  | _ => false
  end.

Definition isGenerate (e : Event) : bool :=
  match e with
  | CallGenerateDocumentation _ _ _ => true
  | _ => false
  end.

Definition isDetect (e : Event) : bool :=
  match e with
  | CallDetectReferences _ _ => true
  | _ => false
  end.

(** A failed analysis or a failed generation among the calls. *)
Definition failedOracle (e : Event) : bool :=
  match e with
  | CallAnalyzeMessage _ (inl _) => true
  | CallGenerateDocumentation _ _ (inl _) => true
  | _ => false
  end.

Definition count (p : Event -> bool) (l : list Event) : nat :=
  length (List.filter p l).

(** The non-nil pointers of a slice, which is what [AddReference] keeps. *)
Definition nonNil (refs : list (option Reference)) : list (option Reference) :=
  List.filter (fun r => match r with Some _ => true | None => false end) refs.

(** The calls a handler can make, with the error it returns: nothing at
    all, a failed generation, a generation and a failed store, a
    generation, a store and a reply, or the reply of the tag suggestion
    alone. *)
Inductive handlerTrace : option error -> list Event -> Prop :=
| HandlerSilent : handlerTrace None []
| HandlerNoContext (e : error) : handlerTrace (Some e) []
| HandlerGenerationFailed (c : string) (md : Metadata) (err e : error) :
    handlerTrace (Some e) [CallGenerateDocumentation c md (inl err)]
| HandlerStoreFailed (c : string) (md : Metadata) (doc path : string)
    (err e : error) :
    handlerTrace (Some e)
      [CallGenerateDocumentation c md (inr doc);
       CallStoreDocument path doc md (Some err)]
| HandlerReplied (c : string) (md : Metadata) (doc path : string)
    (target reply : string) (r : option error) :
    handlerTrace r
      [CallGenerateDocumentation c md (inr doc);
       CallStoreDocument path doc md None;
       CallReplyToMessage target reply r]
| HandlerSuggested (target reply : string) (r : option error) :
    handlerTrace r [CallReplyToMessage target reply r].

Section Outcomes.
Context {W : Type} {rt : Runtime W}.

(** How [CreateDocumentation] can end: the error it returns and the state
    it leaves.  A document that was stored went under the path made of
    the category, the type and the time read by [generatePath]. *)
Inductive documented (ctx : Ctx) (t : MessageType) (c : Category)
    (content : string) (refs : list (option Reference)) (s : State W)
  : option error -> State W -> Prop :=
| NoContext :
    ctx = NilCtx ->
    documented ctx t c content refs s
               (Some (ErrorNew "context cannot be nil")) s
| GenerationFailed (md : Metadata) (err : error) (w : W) :
    documented ctx t c content refs s
      (Some (Errorf "failed to generate documentation" err))
      (MkState w (log s ++ [CallGenerateDocumentation content md (inl err)]))
| StoreFailed (md : Metadata) (doc path : string) (err : error) (w : W) :
    documented ctx t c content refs s
      (Some (Errorf "failed to store documentation" err))
      (MkState w (log s ++ [CallGenerateDocumentation content md (inr doc);
                            CallStoreDocument path doc md (Some err)]))
| Stored (created generated : Time) (doc : string) (w : W) :
    documented ctx t c content refs s None
      (MkState w
         (log s ++
          [CallGenerateDocumentation content
             (MkMetadata t c created refs) (inr doc);
           CallStoreDocument
             (filepath_Join
                ["docs"; c; t +:+ "-" +:+ time_Format generated +:+ ".md"])
             doc (MkMetadata t c created refs) None])).

End Outcomes.

(** The calls of the routing step. *)
Inductive routeTrace : outcome -> list Event -> Prop :=
| RoutePanicked (why : string) : routeTrace (Panicked why) []
| RouteHandled (r : option error) (evs : list Event) :
    handlerTrace r evs -> routeTrace (Returned r) evs.

(** The calls of [ProcessMessage]. *)
Inductive pipelineTrace : outcome -> list Event -> Prop :=
| PipelineRejected (e : error) : pipelineTrace (Returned (Some e)) []
| PipelineAnalysisFailed (c : string) (err e : error) :
    pipelineTrace (Returned (Some e)) [CallAnalyzeMessage c (inl err)]
| PipelineDetectionFailed (c c' : string) (a : MessageAnalysisResult)
    (err e : error) :
    pipelineTrace (Returned (Some e))
      [CallAnalyzeMessage c (inr a); CallDetectReferences c' (inl err)]
| PipelineDetected (c c' : string) (a : MessageAnalysisResult)
    (refs : list (option Reference)) (o : outcome) (evs : list Event) :
    routeTrace o evs ->
    pipelineTrace o
      (CallAnalyzeMessage c (inr a)
         :: CallDetectReferences c' (inr refs) :: evs)
| PipelineRouted (c : string) (a : MessageAnalysisResult) (o : outcome)
    (evs : list Event) :
    routeTrace o evs ->
    pipelineTrace o (CallAnalyzeMessage c (inr a) :: evs).

End Observe.

(** ** A world that answers from a script *)

Module Scenario.
Import Domain Ports Services.

(** What each collaborator answers, and the clock. *)
Record Script : Type := MkScript {
  analysis : error + MessageAnalysisResult;
  detected : error + list (option Reference);
  document : error + string;
  storeResult : option error;
  replyResult : option error;
  clock : Time
}.

#[export] Instance scriptedAgent : AiAgentProvider Script := {|
  AnalyzeMessage w _ := (w, analysis w);
  GenerateDocumentation w _ _ := (w, document w);
  DetectReferences w _ := (w, detected w)
|}.

#[export] Instance scriptedStore : DocumentStoreProvider Script := {|
  StoreDocument w _ _ _ := (w, storeResult w)
|}.

#[export] Instance scriptedChat : ChatAccessProvider Script := {|
  ReplyToMessage w _ _ := (w, replyResult w)
|}.

(** The clock advances by one at each reading; a time is printed as its
    numeral and a path is its parts joined by slashes. *)
#[export] Instance scriptedRuntime : Runtime Script := {|
  time_Now w :=
    (MkScript (analysis w) (detected w) (document w) (storeResult w)
              (replyResult w) (S (clock w)),
     clock w);
  time_Format t := itoa t;
  filepath_Join parts := String.concat "/" parts
|}.

(** [strings.Repeat] of a one-byte string. *)
Fixpoint repeatByte (a : ascii) (n : nat) : string :=
  match n with
  | O => EmptyString
  | S n' => String a (repeatByte a n')
  end.

Definition someMessage (refs : list (option Reference)) : Message :=
  MkMessage (Common.MkID "01M") (Common.MkID "01T") "ana"
            (MkMessageContent "Let's switch to blue-green deploys")
            MessageTypeDecision CategoryOther refs 0.

Definition analysisOf (t : MessageType) (confidence : float)
    (tags : list string) : MessageAnalysisResult :=
  MkMessageAnalysisResult t CategoryOperations [] confidence tags.

(** The confidences 0.9 and 0.5 as [float64]. *)
Definition confident : float := 0x1.ccccccccccccdp-1%float.
Definition doubtful : float := 0x1p-1%float.

(** Every collaborator succeeds. *)
Definition allFine (a : MessageAnalysisResult) : Script :=
  MkScript (inr a) (inr []) (inr "# doc") None None 7.

(** The chat refuses the reply. *)
Definition chatDown (a : MessageAnalysisResult) : Script :=
  MkScript (inr a) (inr []) (inr "# doc") None
           (Some (ErrExternal "chat down")) 7.

Definition start (w : Script) : State Script := MkState w [].

End Scenario.

(** ** What the properties of the thread map speak about *)

Module Threads.
Import Domain Slack.

(** The ThreadId a goroutine has allocated for its own event: the one it
    carries from the allocation to the end of the registration, and, for an
    event that is not in a thread, the one it has resolved the event to. *)
Definition owned (g : MessageEvent * pc) : option Common.ID :=
  match snd g with
  | AtRUnlock _ tid => Some tid
  | AtLock _ tid => Some tid
  | AtInsert _ tid => Some tid
  | AtUnlock _ tid => Some tid
  | Done (ParentRegistered tid) => Some tid
  | p => if inThread (fst g) then None else resolved p
  end.

(** Every identifier owned by a goroutine has been issued, and no two
    goroutines own the same one. *)
Definition fresh (issued : nat) (gs : list (MessageEvent * pc)) : Prop :=
  (forall (i : nat) (g : MessageEvent * pc) (tid : Common.ID),
      gs !! i = Some g -> owned g = Some tid ->
      exists k : nat, k < issued /\ tid = Common.MkID (Common.ulid k))
  /\ (forall (i j : nat) (gi gj : MessageEvent * pc) (tid : Common.ID),
         gs !! i = Some gi -> gs !! j = Some gj ->
         owned gi = Some tid -> owned gj = Some tid -> i = j).

(** The steps a goroutine can still take. *)
Definition rank (p : pc) : nat :=
  match p with
  | AtStart => 8
  | AtRLock _ => 7
  | AtLookup _ => 6
  | AtRUnlock _ _ => 5
  | AtLock _ _ => 4
  | AtInsert _ _ => 3
  | AtUnlock _ _ => 2
  | AtEmit _ _ => 1
  | Done _ => 0
  end.

(** *** Concrete events *)

(** A message of user [user] with timestamp [ts], in the thread
    [thread_ts] (empty for a message that is in no thread). *)
Definition event (user ts thread_ts : string) : MessageEvent :=
  MkMessageEvent "" user "Let's switch to blue-green deploys" ts thread_ts.

(** [GetUserInfo] answers with the user as the name; the legacy type is
    ["information"]; the clock reads the count of identifiers. *)
Definition userInfo (user : string) : error + string := inr user.
Definition information : MessageType := "information".
Definition ticks (issued : nat) : Time := issued.

Definition process (c : Client) (ev : MessageEvent) : Client * pc :=
  processMessageEvent asciiTrimSpace userInfo information ticks c ev.

Definition interleave (schedule : list nat) (c : Client)
    (evs : list MessageEvent) : System :=
  run asciiTrimSpace userInfo information ticks schedule (spawn c evs).

End Threads.

(** ** The Go library on byte strings *)

Module Library.

(** The first [":"] of a string, with what stands before and after it. *)
Fixpoint cutColon (s : string) : option (string * string) :=
  match s with
  | EmptyString => None
  | String a s' =>
      if Ascii.eqb a ":"%char then Some (EmptyString, s')
      else match cutColon s' with
           | Some (before, after) => Some (String a before, after)
           | None => None
           end
  end.

(** [strings.SplitN(s, ":", 2)] *)
Definition SplitN_colon_2 (s : string) : list string :=
  match cutColon s with
  | Some (before, after) => [before; after]
  | None => [s]
  end.

(** A string of bytes below 128. *)
Fixpoint isASCII (s : string) : bool :=
  match s with
  | EmptyString => true
  | String a s' => Nat.ltb (nat_of_ascii a) 128 && isASCII s'
  end.

(** [strings.ToLower] on such a string: the letters A to Z are mapped to
    a to z, byte by byte. *)
Definition asciiToLower (a : ascii) : ascii :=
  let n := nat_of_ascii a in
  if Nat.leb 65 n && Nat.leb n 90 then ascii_of_nat (n + 32) else a.

Fixpoint asciiLower (s : string) : string :=
  match s with
  | String a s' => String (asciiToLower a) (asciiLower s')
  | EmptyString => EmptyString
  end.

End Library.

(** ** Package [domain]: the other value objects *)

Module Values.
Import Domain Library.

Definition ErrInvalidCategory : error := ErrorNew "invalid category".
Definition ErrInvalidMessageType : error := ErrorNew "invalid message type".

(** *** reference.go *)

Definition ReferenceTypeMessage : ReferenceType := "message".
Definition ReferenceTypeDocument : ReferenceType := "document".
Definition ReferenceTypeUnknown : ReferenceType := "unknown".

Definition validReferenceTypes : gmap string bool :=
  <[ReferenceTypeMessage := true]>
    (<[ReferenceTypeDocument := true]>
       (<[ReferenceTypeUnknown := true]> ∅)).

Definition ReferenceType_IsValid (rt : ReferenceType) : bool :=
  default false (validReferenceTypes !! rt).

(** The errors of the package: [ErrEmptyReferenceValue], and
    [fmt.Errorf("%w: detail", ErrInvalidReference)]. *)
Inductive referenceError : Type :=
| ErrInvalidReference (detail : string)
| ErrEmptyReferenceValue.

(** [Reference.String]: [fmt.Sprintf("%s:%s", r.refType, r.value)] *)
Definition Reference_String (r : Reference) : string :=
  refType r +:+ ":" +:+ refValue r.

Definition Reference_Equals (r other : Reference) : bool :=
  (if decide (refType r = refType other) then true else false)
  && (if decide (refValue r = refValue other) then true else false).

Section Normalised.

(** [strings.TrimSpace] and [strings.ToLower] of the Go library. *)
Variable TrimSpace : string -> string.
Variable ToLower : string -> string.

(** *** message_category.go and message_type.go: the constructors *)

Definition NewCategory (c : string) : Category * option error :=
  let category := ToLower (TrimSpace c) in
  if negb (Category_IsValid category)
  then (CategoryUnknown, Some ErrInvalidCategory)
  else (category, None).

Definition NewMessageType (t : string) : MessageType * option error :=
  let mt := ToLower (TrimSpace t) in
  if negb (MessageType_IsValid mt)
  then (MessageTypeUnknown, Some ErrInvalidMessageType)
  else (mt, None).

(** *** reference.go: the constructors *)

Definition NewReference (refType : ReferenceType) (value : string)
  : referenceError + Reference :=
  if negb (ReferenceType_IsValid refType)
  then inl (ErrInvalidReference "invalid reference type")
  else if decide (TrimSpace value = "")
  then inl ErrEmptyReferenceValue
  else inr (MkReference refType (TrimSpace value)).

Definition NewMessageReference (messageID : string)
  : referenceError + Reference :=
  NewReference ReferenceTypeMessage messageID.

Definition NewDocumentReference (documentPath : string)
  : referenceError + Reference :=
  NewReference ReferenceTypeDocument documentPath.

Definition ParseReference (ref : string) : referenceError + Reference :=
  match SplitN_colon_2 ref with
  | [t; v] =>
      let refType := ToLower (TrimSpace t) in
      if negb (ReferenceType_IsValid refType)
      then inl (ErrInvalidReference "invalid reference type")
      else NewReference refType v
  | _ => inl (ErrInvalidReference "invalid format")
  end.

End Normalised.

End Values.

(** ** What the further properties speak about *)

Module Outline.
Import Domain Ports Services Observe.

(** The place of a call in the pipeline: analysis, detection of
    references, generation, store, reply. *)
Definition stage (e : Event) : nat :=
  match e with
  | CallAnalyzeMessage _ _ => 0
  | CallDetectReferences _ _ => 1
  | CallGenerateDocumentation _ _ _ => 2
  | CallStoreDocument _ _ _ _ => 3
  | CallReplyToMessage _ _ _ => 4
  end.

(** The stages of a list of calls go up strictly. *)
Fixpoint ascending (stages : list nat) : bool :=
  match stages with
  | a :: (b :: _) as rest => Nat.ltb a b && ascending rest
  | _ => true
  end.

Definition isAnalyze (e : Event) : bool :=
  match e with
  | CallAnalyzeMessage _ _ => true
  | _ => false
  end.

(** The reply template and the error context of each handler that
    documents. *)
Definition replyTemplate (h : handler) : string :=
  match h with
  | ideaHandler => ideaReply
  | decisionHandler => decisionReply
  | statusHandler => statusReply
  | unknownHandler => ""
  end.

Definition failureContext (h : handler) : string :=
  match h with
  | ideaHandler => "failed to create idea documentation"
  | decisionHandler => "failed to create decision documentation"
  | statusHandler => "failed to create status documentation"
  | unknownHandler => ""
  end.

(** The fields of a message that the pipeline has no way to change. *)
Definition sameIdentity (m m' : Message) : Prop :=
  id m' = id m /\ threadID m' = threadID m /\ sender m' = sender m
  /\ content m' = content m /\ messageType m' = messageType m
  /\ timestamp m' = timestamp m.

End Outline.

(** ** What the further properties of the thread map speak about *)

Module Correlation.
Import Domain Slack.

(** An event that is no bot message, from a user whose name
    [GetUserInfo] gives. *)
Definition accepted (GetUserInfo : string -> error + string)
    (ev : MessageEvent) (name : string) : Prop :=
  BotID ev = "" /\ User ev <> "" /\ GetUserInfo (User ev) = inr name.

(** The lock is held by nobody. *)
Definition lockFree (c : Client) : Prop :=
  writer c = false /\ readers c = 0.

(** The second client has every key of the first in its map, every
    message of the first at the front of its channel, and at least as many
    identifiers issued. *)
Definition extends (c c' : Client) : Prop :=
  (forall key : string,
      is_Some (threadMap c !! key) -> is_Some (threadMap c' !! key))
  /\ (exists more : list Message, messageCh c' = messageCh c ++ more)
  /\ issued c <= issued c'.

End Correlation.

(** ** Package [ollama]: the provider behind the AI agent *)

Module Ollama.
Import Domain Library Values Services.

(** [domain.Analysis], the value that the answer of the model is decoded
    into. *)
Record Analysis : Type := MkAnalysis {
  an_Type : MessageType;
  an_Category : Category;
  an_ConfidenceScore : float;
  an_SuggestedTags : list string
}.

(** [ollama.Message], one message of a chat completion. *)
Record ChatMessage : Type := MkChatMessage {
  Role : string;
  Content : string
}.

(** The anonymous struct that [DetectReferences] decodes into. *)
Record referenceData : Type := MkReferenceData {
  rd_Type : string;
  rd_Value : string
}.

(** [strings.HasPrefix] and [strings.TrimPrefix] *)
Definition HasPrefix (s prefix : string) : bool := String.prefix prefix s.

Definition TrimPrefix (s prefix : string) : string :=
  if HasPrefix s prefix
  then String.substring (String.length prefix)
                        (String.length s - String.length prefix) s
  else s.

(** [strings.Split(s, sep)] for a separator of one byte. *)
Fixpoint Split (sep : ascii) (s : string) : list string :=
  match s with
  | EmptyString => [EmptyString]
  | String a s' =>
      if Ascii.eqb a sep then EmptyString :: Split sep s'
      else match Split sep s' with
           | first :: rest => String a first :: rest
           | [] => [String a EmptyString]
           end
  end.

(** [strings.Contains(s, ":")] *)
Definition Contains_colon (s : string) : bool :=
  match cutColon s with
  | Some _ => true
  | None => false
  end.

(** The confidence [0.5] that the text fallback starts from. *)
Definition defaultConfidence : float := 0x1p-1%float.

Section Provider.

(** [strings.TrimSpace] and [strings.ToLower]; the request to the model
    ([Client.GenerateChatCompletion], an HTTP call); [json.Unmarshal] into
    an [Analysis] and into the reference data ([None] when it fails);
    [fmt.Sscanf(s, "%f", &x)] ([None] when nothing is stored in [x]); the
    two system prompts. *)
Variable TrimSpace : string -> string.
Variable ToLower : string -> string.
Variable GenerateChatCompletion : list ChatMessage -> error + string.
Variable Unmarshal_Analysis : string -> option Analysis.
Variable Unmarshal_References : string -> option (list referenceData).
Variable Sscanf_f : string -> option float.
Variable analyzeMessageSystemPrompt : string.
Variable detectReferencesSystemPrompt : string.

(** One turn of the loop of [parseAnalysisFromText]. *)
Definition parseAnalysisLine (analysis : Analysis) (line : string)
  : Analysis :=
  let line := TrimSpace line in
  if HasPrefix (ToLower line) "type:" then
    let typeStr := TrimSpace (TrimPrefix (ToLower line) "type:") in
    MkAnalysis typeStr (an_Category analysis) (an_ConfidenceScore analysis)
               (an_SuggestedTags analysis)
  else if HasPrefix (ToLower line) "category:" then
    let catStr := TrimSpace (TrimPrefix (ToLower line) "category:") in
    MkAnalysis (an_Type analysis) catStr (an_ConfidenceScore analysis)
               (an_SuggestedTags analysis)
  else if HasPrefix (ToLower line) "confidence:" then
    let scoreStr := TrimSpace (TrimPrefix (ToLower line) "confidence:") in
    match Sscanf_f scoreStr with
    | Some score =>
        MkAnalysis (an_Type analysis) (an_Category analysis) score
                   (an_SuggestedTags analysis)
    | None => analysis
    end
  else if HasPrefix (ToLower line) "tags:" then
    let tagsStr := TrimSpace (TrimPrefix (ToLower line) "tags:") in
    let tags := Split ","%char tagsStr in
    MkAnalysis (an_Type analysis) (an_Category analysis)
               (an_ConfidenceScore analysis)
               (fold_left (fun acc tag =>
                             let tag := TrimSpace tag in
                             if decide (tag = "") then acc else acc ++ [tag])
                          tags (an_SuggestedTags analysis))
  else analysis.

Definition parseAnalysisFromText (text : string) : error + Analysis :=
  let analysis :=
    MkAnalysis MessageTypeUnknown CategoryUnknown defaultConfidence [] in
  let lines := Split "010"%char text in
  inr (fold_left parseAnalysisLine lines analysis).

Definition AnalyzeMessage (ctx : Ctx) (content : string)
  : error + MessageAnalysisResult :=
  match ctx with
  | NilCtx => inl (ErrorNew "context cannot be nil")
  | LiveCtx =>
      if decide (TrimSpace content = "")
      then inl (ErrorNew "content cannot be empty")
      else
        let messages := [MkChatMessage "system" analyzeMessageSystemPrompt;
                         MkChatMessage "user" content] in
        match GenerateChatCompletion messages with
        | inl err => inl (Errorf "failed to generate chat completion" err)
        | inr response =>
            let parsed :=
              match Unmarshal_Analysis response with
              | Some analysis => inr analysis
              | None =>
                  match parseAnalysisFromText response with
                  | inl err => inl (Errorf "failed to parse analysis" err)
                  | inr analysis => inr analysis
                  end
              end in
            match parsed with
            | inl err => inl err
            | inr analysis =>
                let msgType :=
                  match NewMessageType TrimSpace ToLower (an_Type analysis)
                  with
                  | (_, Some _) => MessageTypeUnknown
                  | (msgType, None) => msgType
                  end in
                let category :=
                  match NewCategory TrimSpace ToLower (an_Category analysis)
                  with
                  | (_, Some _) => CategoryUnknown
                  | (category, None) => category
                  end in
                match NewMessageAnalysisResult
                        msgType category [] (an_ConfidenceScore analysis)
                        (an_SuggestedTags analysis) with
                | inl err =>
                    inl (Errorf "failed to create message analysis result"
                                err)
                | inr result => inr result
                end
            end
        end
  end.

(** One turn of the loop of [DetectReferences] over the decoded data. *)
Definition convertReference (references : list (option Reference))
    (refData : referenceData) : list (option Reference) :=
  let refType := ToLower (rd_Type refData) in
  if negb (ReferenceType_IsValid refType) then references
  else match NewReference TrimSpace refType (rd_Value refData) with
       | inl _ => references
       | inr ref => references ++ [Some ref]
       end.

(** One turn of the loop of [parseReferencesFromText]. *)
Definition parseReferenceLine (references : list (option Reference))
    (line : string) : list (option Reference) :=
  let line := TrimSpace line in
  if Contains_colon line then
    match SplitN_colon_2 line with
    | [t; v] =>
        let typeStr := TrimSpace (ToLower t) in
        let valueStr := TrimSpace v in
        let add (refType : ReferenceType) :=
          match NewReference TrimSpace refType valueStr with
          | inl _ => references
          | inr ref => references ++ [Some ref]
          end in
        if decide (typeStr = "message") then add ReferenceTypeMessage
        else if decide (typeStr = "document") then add ReferenceTypeDocument
        else references
    | _ => references
    end
  else references.

Definition parseReferencesFromText (text : string)
  : error + list (option Reference) :=
  inr (fold_left parseReferenceLine (Split "010"%char text) []).

Definition DetectReferences (ctx : Ctx) (content : string)
  : error + list (option Reference) :=
  match ctx with
  | NilCtx => inl (ErrorNew "context cannot be nil")
  | LiveCtx =>
      if decide (TrimSpace content = "")
      then inl (ErrorNew "content cannot be empty")
      else
        let messages := [MkChatMessage "system" detectReferencesSystemPrompt;
                         MkChatMessage "user" content] in
        match GenerateChatCompletion messages with
        | inl err => inl (Errorf "failed to generate chat completion" err)
        | inr response =>
            match Unmarshal_References response with
            | None => parseReferencesFromText response
            | Some referencesData =>
                inr (fold_left convertReference referencesData [])
            end
        end
  end.

End Provider.

End Ollama.

(** ** The event loop of the Slack client *)

Module EventLoop.
Import Domain Slack.

(** [make(chan *domain.Message, 100)] in [NewClient]: a send on the
    channel waits when 100 messages are in it. *)
Definition channelCapacity : nat := 100.

Section Loop.
Variable TrimSpace : string -> string.
Variable GetUserInfo : string -> error + string.
Variable MessageTypeInformation : MessageType.
Variable time_Now : nat -> Time.

(** [handleEvents], on the message events it receives: each event is
    handed to [processMessageEvent] in the goroutine of the loop, and the
    next event is taken when that call has returned.  The result is the
    client and the point that each call has reached; the loop stays in a
    call that waits for the lock. *)
Fixpoint handleEvents (c : Client) (events : list MessageEvent)
  : Client * list pc :=
  match events with
  | [] => (c, [])
  | ev :: rest =>
      match processMessageEvent TrimSpace GetUserInfo MessageTypeInformation
                                time_Now c ev with
      | (c', Done r) =>
          let '(c'', points) := handleEvents c' rest in
          (c'', Done r :: points)
      | (c', p) => (c', [p])
      end
  end.

End Loop.

End EventLoop.

(** ** Concrete cases for the further properties *)

Module Cases.
Import Domain Services Slack Scenario Threads Ollama.

(** References as an analysis gives them: a nil pointer and a message. *)
Definition linked : list (option Reference) :=
  [None; Some (MkReference "message" "01A")].

(** The first message of the thread ["T1"], a reply to it, and a message
    in no thread. *)
Definition root : MessageEvent := event "U1" "T1" "".
Definition reply : MessageEvent := event "U2" "T2" "T1".
Definition next : MessageEvent := event "U3" "T3" "".


(** A client that has seen the thread ["T1"]. *)
Definition seen : Client :=
  MkClient {["T1" := Common.MkID "0"]} 0 false 1 [].

(** A text of [MaxContentLength] + 1 bytes, the last but one a blank. *)
Definition longText : string :=
  repeatByte "a" (pred MaxContentLength) +:+ " b".

(** A model that answers every request with [answer]; an answer that is
    no JSON; a scanner that reads the text ["nan"] as NaN and nothing
    else. *)
Definition completion (answer : string) (messages : list ChatMessage)
  : error + string := inr answer.

Definition noJSON {A : Type} (response : string) : option A := None.

Definition scan (s : string) : option float :=
  if decide (s = "nan") then Some nan else None.

Definition nanAnswer : string :=
  "Type: decision" +:+ newline +:+ "Confidence: NaN".

Definition vagueAnswer : string :=
  "I cannot tell." +:+ newline +:+ "Please say more.".

End Cases.

(** * Properties *)

(** ** Value objects *)

Module DomainFacts.
Import Domain Services Observe.

Lemma Category_IsValid_iff (c : Category) :
  Category_IsValid c = true <->
  c ∈ [CategoryOperations; CategoryDevelopment; CategoryProduct;
       CategoryQualityAssurance; CategoryDataAnalysis; CategoryOther;
       CategoryUnknown].
Proof.
  unfold Category_IsValid, validCategories.
  repeat (rewrite lookup_insert; case_decide;
          [subst; simpl; split;
           [intros _; rewrite !elem_of_cons; tauto | reflexivity] | ]).
  rewrite lookup_empty. simpl. split; [discriminate | ].
  intros Hin. rewrite !elem_of_cons, elem_of_nil in Hin. intuition congruence.
Qed.

Lemma MessageType_IsValid_iff (mt : MessageType) :
  MessageType_IsValid mt = true <->
  mt ∈ [MessageTypeIdea; MessageTypeDecision; MessageTypeStatus;
        MessageTypeUnknown].
Proof.
  unfold MessageType_IsValid, validMessageTypes.
  repeat (rewrite lookup_insert; case_decide;
          [subst; simpl; split;
           [intros _; rewrite !elem_of_cons; tauto | reflexivity] | ]).
  rewrite lookup_empty. simpl. split; [discriminate | ].
  intros Hin. rewrite !elem_of_cons, elem_of_nil in Hin. intuition congruence.
Qed.

Lemma AddReference_category (m : Message) (r : option Reference) :
  category (AddReference m r) = category m.
Proof. destruct r; reflexivity. Qed.

Lemma AddReference_references (m : Message) (r : option Reference) :
  references (AddReference m r) = references m ++ nonNil [r].
Proof. destruct r; simpl; [reflexivity | now rewrite app_nil_r]. Qed.

Lemma fold_AddReference_category (refs : list (option Reference)) :
  forall m : Message, category (fold_left AddReference refs m) = category m.
Proof.
  induction refs as [|r refs IH]; intros m; simpl; [reflexivity | ].
  rewrite IH. apply AddReference_category.
Qed.

Lemma fold_AddReference_references (refs : list (option Reference)) :
  forall m : Message,
    references (fold_left AddReference refs m) = references m ++ nonNil refs.
Proof.
  induction refs as [|r refs IH]; intros m; simpl.
  - now rewrite app_nil_r.
  - rewrite IH, AddReference_references.
    destruct r; simpl; [now rewrite <- app_assoc | now rewrite app_nil_r].
Qed.

(** C3. The analysis merge sets the category of the message to the category
    of the analysis when that category is a recognized value, and leaves the
    category of the message as it was when it is not; the merge returns no
    error in either case. *)
Theorem merge_category (msg : Message) (analysis : MessageAnalysisResult) :
  category (updateMessageWithAnalysis msg analysis) =
  if Category_IsValid (ar_category analysis)
  then ar_category analysis
  else category msg.
Proof.
  unfold updateMessageWithAnalysis.
  rewrite fold_AddReference_category. unfold UpdateCategory.
  destruct (Category_IsValid (ar_category analysis)); reflexivity.
Qed.

(** *** Comparisons of binary64 floats *)

Lemma SFcompare_antisym (x y : spec_float) :
  SFcompare y x = option_map CompOpp (SFcompare x y).
Proof.
  destruct x as [sx|sx| |sx mx ex], y as [sy|sy| |sy my ey]; simpl;
    try reflexivity; try (destruct sx; reflexivity);
    try (destruct sy; reflexivity);
    try (destruct sx, sy; reflexivity).
  destruct sx, sy; simpl; try reflexivity;
    rewrite (Z.compare_antisym ex ey); destruct (ex ?= ey)%Z; simpl;
    try reflexivity;
    (pose proof (Pos.compare_cont_antisym mx my Eq) as H; simpl in H;
     rewrite <- H; destruct (Pos.compare_cont Eq mx my); reflexivity).
Qed.

Lemma ltb_leb_false (x y : float) :
  (x <? y)%float = true -> (y <=? x)%float = false.
Proof.
  rewrite ltb_spec, leb_spec. unfold SFltb, SFleb.
  rewrite (SFcompare_antisym (Prim2SF x) (Prim2SF y)).
  destruct (SFcompare (Prim2SF x) (Prim2SF y)) as [[]|]; simpl; congruence.
Qed.

Lemma ordered_ltb_leb (x y : float) :
  PrimFloat.is_nan x = false -> PrimFloat.is_nan y = false ->
  (x <? y)%float = negb (y <=? x)%float.
Proof.
  unfold PrimFloat.is_nan.
  rewrite !FloatAxioms.eqb_spec, ltb_spec, leb_spec.
  unfold SFeqb, SFltb, SFleb.
  rewrite (SFcompare_antisym (Prim2SF x) (Prim2SF y)).
  destruct (Prim2SF x) as [sx|sx| |sx mx ex],
           (Prim2SF y) as [sy|sy| |sy my ey];
    simpl; try discriminate; intros _ _;
    try reflexivity; try (destruct sx; reflexivity);
    try (destruct sy; reflexivity);
    try (destruct sx, sy; reflexivity).
  destruct sx, sy; simpl; try reflexivity;
    destruct (ex ?= ey)%Z; simpl; try reflexivity;
    destruct (Pos.compare_cont Eq mx my); reflexivity.
Qed.

(** For a confidence that is a number, the test of the constructor is the
    test of the interval. *)
Lemma outside_unit_interval (c : float) :
  PrimFloat.is_nan c = false ->
  (c <? 0)%float || (1 <? c)%float = negb (inUnitInterval c).
Proof.
  intros Hc. unfold inUnitInterval.
  rewrite (ordered_ltb_leb c 0 Hc eq_refl), (ordered_ltb_leb 1 c eq_refl Hc).
  now rewrite negb_andb.
Qed.

(** *** Analysis results *)

(** A confidence that is a number is rejected exactly when it lies outside
    the interval, whatever the other arguments are. *)
Lemma NewMessageAnalysisResult_number
    (msgType : MessageType) (category : Category)
    (references : list (option Reference)) (confidence : float)
    (tags : list string) :
  PrimFloat.is_nan confidence = false ->
  MessageType_IsValid msgType = true ->
  Category_IsValid category = true ->
  NewMessageAnalysisResult msgType category references confidence tags =
  if inUnitInterval confidence
  then inr (MkMessageAnalysisResult msgType category references confidence
                                    tags)
  else inl ErrInvalidConfidenceScore.
Proof.
  intros Hc Ht Hk. unfold NewMessageAnalysisResult.
  rewrite (outside_unit_interval confidence Hc), Ht, Hk.
  destruct (inUnitInterval confidence); reflexivity.
Qed.

(** The confidence 1.5 with the type idea and the category other. *)
Lemma NewMessageAnalysisResult_number_witness :
  (PrimFloat.is_nan 0x1.8p+0%float = false
   /\ MessageType_IsValid MessageTypeIdea = true
   /\ Category_IsValid CategoryOther = true)
  /\ NewMessageAnalysisResult MessageTypeIdea CategoryOther [] 0x1.8p+0%float
                              []
     = if inUnitInterval 0x1.8p+0%float
       then inr (MkMessageAnalysisResult MessageTypeIdea CategoryOther []
                                         0x1.8p+0%float [])
       else inl ErrInvalidConfidenceScore.
Proof.
  split; [repeat split | ].
  exact (NewMessageAnalysisResult_number MessageTypeIdea CategoryOther []
           0x1.8p+0%float [] eq_refl eq_refl eq_refl).
Defined.

(** The bounds 0 and 1 are accepted. *)
Lemma NewMessageAnalysisResult_bounds
    (references : list (option Reference)) (tags : list string) :
  NewMessageAnalysisResult MessageTypeIdea CategoryOperations references
                           0%float tags
  = inr (MkMessageAnalysisResult MessageTypeIdea CategoryOperations
                                 references 0%float tags)
  /\ NewMessageAnalysisResult MessageTypeIdea CategoryOperations references
                              1%float tags
     = inr (MkMessageAnalysisResult MessageTypeIdea CategoryOperations
                                    references 1%float tags).
Proof. split; reflexivity. Qed.

(** C7. The confidence NaN does not lie in the closed interval from 0 to 1,
    and the constructor, given a valid type and a valid category, accepts
    it: both of its comparisons are false on NaN. *)
Theorem NewMessageAnalysisResult_nan :
  inUnitInterval nan = false
  /\ MessageType_IsValid MessageTypeUnknown = true
  /\ Category_IsValid CategoryUnknown = true
  /\ NewMessageAnalysisResult MessageTypeUnknown CategoryUnknown [] nan []
     = inr (MkMessageAnalysisResult MessageTypeUnknown CategoryUnknown []
                                    nan []).
Proof. repeat split; reflexivity. Qed.

(** *** Message content *)

Lemma substring_length (n : nat) :
  forall s : string,
    String.length (String.substring 0 n s) = Nat.min n (String.length s).
Proof.
  induction n as [|n IH]; intros [|a s]; simpl; try reflexivity.
  now rewrite IH.
Qed.

Lemma substring_all (n : nat) :
  forall s : string, String.length s <= n -> String.substring 0 n s = s.
Proof.
  induction n as [|n IH]; intros [|a s]; simpl; intros Hn;
    try reflexivity; try lia.
  rewrite IH; [reflexivity | lia].
Qed.

Lemma length_nonempty (s : string) : s <> "" -> 1 <= String.length s.
Proof. destruct s; simpl; [congruence | lia]. Qed.

(** C10. Construction trims the input with [TrimSpace] first; it fails
    (with [ErrEmptyContent]) exactly when the trimmed text is empty;
    otherwise it succeeds with the first [MaxContentLength] = 10000 bytes
    of the trimmed text, which is the whole trimmed text when that has at
    most 10000 bytes; the constructed text has between 1 and 10000
    bytes. *)
Theorem NewMessageContent_spec (TrimSpace : string -> string)
    (input : string) :
  MaxContentLength = 10000
  /\ match NewMessageContent TrimSpace input with
     | inl err => err = ErrEmptyContent /\ TrimSpace input = ""
     | inr c =>
         TrimSpace input <> ""
         /\ text c = String.substring 0 MaxContentLength (TrimSpace input)
         /\ (String.length (TrimSpace input) <= MaxContentLength ->
             text c = TrimSpace input)
         /\ (MaxContentLength < String.length (TrimSpace input) ->
             String.length (text c) = MaxContentLength)
         /\ 1 <= String.length (text c) <= MaxContentLength
     end.
Proof.
  split; [reflexivity | ].
  assert (Hcap : 1 <= MaxContentLength)
    by (apply Nat.leb_le; vm_compute; reflexivity).
  unfold NewMessageContent. revert Hcap. generalize MaxContentLength as cap.
  intros cap Hcap. set (t := TrimSpace input).
  destruct (decide (t = "")) as [Ht | Ht]; [split; [reflexivity | exact Ht] | ].
  pose proof (length_nonempty t Ht) as Hlen.
  destruct (Nat.ltb_spec cap (String.length t)) as [Hlt | Hge]; simpl.
  - rewrite substring_length.
    split; [exact Ht | ]. split; [reflexivity | ].
    split; [intros Hle; lia | ]. split; [intros _; lia | lia].
  - split; [exact Ht | ]. split; [now rewrite substring_all | ].
    split; [reflexivity | ]. split; [intros Hlt; lia | lia].
Qed.

(** The cases of the test of the package: surrounding white space goes,
    white space alone is refused, and a text of 10100 bytes is cut to
    10000. *)
Example NewMessageContent_examples :
  NewMessageContent asciiTrimSpace "  valid message  "
  = inr (MkMessageContent "valid message")
  /\ NewMessageContent asciiTrimSpace "   " = inl ErrEmptyContent
  /\ NewMessageContent asciiTrimSpace "" = inl ErrEmptyContent
  /\ NewMessageContent asciiTrimSpace
       (Scenario.repeatByte "a" (MaxContentLength + 100))
     = inr (MkMessageContent (Scenario.repeatByte "a" MaxContentLength)).
Proof. repeat split; vm_compute; reflexivity. Qed.

End DomainFacts.

(** ** The pipeline *)

Module ServicesFacts.
Import Domain Ports Services Observe.

(** *** Strings *)

Lemma append_cons (x : ascii) (a b : string) :
  String x a +:+ b = String x (a +:+ b).
Proof. reflexivity. Qed.

Lemma append_assoc (a b c : string) : (a +:+ b) +:+ c = a +:+ (b +:+ c).
Proof.
  induction a as [|x a IH]; [reflexivity | ].
  rewrite !append_cons. now rewrite IH.
Qed.

Lemma append_empty_r (a : string) : a +:+ "" = a.
Proof.
  induction a as [|x a IH]; [reflexivity | ].
  rewrite append_cons. now rewrite IH.
Qed.


Lemma addTags_append (tags : list string) :
  forall acc : string, exists post : string, addTags acc tags = acc +:+ post.
Proof.
  induction tags as [|t tags IH]; intros acc.
  - exists "". simpl. now rewrite append_empty_r.
  - destruct (IH (acc +:+ ("- #" +:+ t +:+ newline))) as [post Hpost].
    exists (("- #" +:+ t +:+ newline) +:+ post).
    change (addTags acc (t :: tags))
      with (addTags (acc +:+ ("- #" +:+ t +:+ newline)) tags).
    rewrite Hpost. now rewrite append_assoc.
Qed.

Lemma addTags_contains (tags : list string) :
  forall (acc tag : string), tag ∈ tags -> contains (addTags acc tags) tag.
Proof.
  induction tags as [|t tags IH]; intros acc tag Hin.
  - now apply elem_of_nil in Hin.
  - change (addTags acc (t :: tags))
      with (addTags (acc +:+ ("- #" +:+ t +:+ newline)) tags).
    apply elem_of_cons in Hin as [-> | Hin].
    + destruct (addTags_append tags (acc +:+ ("- #" +:+ t +:+ newline)))
        as [post Hpost].
      exists (acc +:+ "- #"), (newline +:+ post).
      rewrite Hpost. now rewrite !append_assoc.
    + apply (IH _ tag Hin).
Qed.

(** *** Counting calls *)

Lemma count_app (p : Event -> bool) (l1 l2 : list Event) :
  count p (l1 ++ l2) = count p l1 + count p l2.
Proof. unfold count. now rewrite List.filter_app, length_app. Qed.

Section Facts.
Context {W : Type}.
Context {ai : AiAgentProvider W} {docs : DocumentStoreProvider W}.
Context {chat : ChatAccessProvider W} {rt : Runtime W}.

Lemma sendReply_log (msg : Message) (reply : string) (s : State W) :
  exists (r : option error) (w : W),
    sendReply msg reply s
    = (r, MkState w (log s ++ [CallReplyToMessage (Common.String (id msg))
                                                  reply r])).
Proof.
  unfold sendReply, call.
  destruct (ReplyToMessage (world s) (Common.String (id msg)) reply)
    as [w r].
  now exists r, w.
Qed.

Lemma CreateDocumentation_documented (ctx : Ctx) (t : MessageType)
    (c : Category) (content : string) (refs : list (option Reference))
    (s : State W) :
  documented ctx t c content refs s
    (fst (CreateDocumentation ctx t c content refs s))
    (snd (CreateDocumentation ctx t c content refs s)).
Proof.
  destruct ctx; simpl; [now constructor | ].
  unfold generatePath; unfold bind, now, call, ret; simpl.
  destruct (time_Now (world s)) as [w1 created]; simpl.
  match goal with
  | |- context [GenerateDocumentation ?a ?b ?m] =>
      destruct (GenerateDocumentation a b m) as [w2 [err | doc]]; simpl
  end.
  - apply GenerationFailed.
  - destruct (time_Now w2) as [w3 generated]; simpl.
    match goal with
    | |- context [StoreDocument ?a ?b ?d ?m] =>
        destruct (StoreDocument a b d m) as [w4 [err | ]]; simpl
    end; rewrite <- app_assoc; simpl.
    + apply StoreFailed.
    + apply Stored.
Qed.

(** A handler that documents: the documentation, then the reply. *)
Lemma documenting_handler (failure template : string) (ctx : Ctx)
    (msg : Message) (s : State W) (e : option error) (s' : State W) :
  bind (createDocumentation ctx msg)
       (fun e => match e with
                 | Some err => ret (Some (Errorf failure err))
                 | None => sendReply msg (replyWithReferences template msg)
                 end) s = (e, s') ->
  (exists err : error,
      e = Some (Errorf failure err)
      /\ documented ctx (messageType msg) (category msg)
                    (text (content msg)) (references msg) s (Some err) s')
  \/ (exists (s1 : State W) (w : W),
         documented ctx (messageType msg) (category msg)
                    (text (content msg)) (references msg) s None s1
         /\ s' = MkState w
                   (log s1 ++
                    [CallReplyToMessage (Common.String (id msg))
                       (replyWithReferences template msg) e])).
Proof.
  unfold bind, createDocumentation.
  pose proof (CreateDocumentation_documented ctx (messageType msg)
                (category msg) (text (content msg)) (references msg) s)
    as Hdoc.
  destruct (CreateDocumentation ctx (messageType msg) (category msg)
              (text (content msg)) (references msg) s) as [[err | ] s1];
    simpl in Hdoc.
  - unfold ret. intros [= <- <-]. left. now exists err.
  - destruct (sendReply_log msg (replyWithReferences template msg) s1)
      as (r & w & Hr).
    rewrite Hr. intros [= <- <-]. right. now exists s1, w.
Qed.

Lemma documented_trace (ctx : Ctx) (t : MessageType) (c : Category)
    (content : string) (refs : list (option Reference)) (s s' : State W)
    (err e : error) :
  documented ctx t c content refs s (Some err) s' ->
  exists evs : list Event,
    log s' = log s ++ evs /\ handlerTrace (Some e) evs.
Proof.
  inversion 1; subst.
  - exists []. rewrite app_nil_r. split; [reflexivity | constructor].
  - eexists. split; [reflexivity | constructor].
  - eexists. split; [reflexivity | constructor].
Qed.

Lemma Handle_trace (h : handler) (ctx : Ctx) (msg : Message)
    (s : State W) :
  exists evs : list Event,
    log (snd (Handle h ctx msg s)) = log s ++ evs
    /\ handlerTrace (fst (Handle h ctx msg s)) evs.
Proof.
  destruct h; simpl;
    try (match goal with
         | |- context [bind ?m ?k s] =>
             destruct (bind m k s) as [e s'] eqn:Hrun
         end;
         apply documenting_handler in Hrun
           as [(err & -> & Hdoc) | (s1 & w & Hdoc & ->)]; simpl;
         [ exact (documented_trace _ _ _ _ _ _ _ _ _ Hdoc)
         | inversion Hdoc; subst; simpl; rewrite <- app_assoc; simpl;
           eexists; split; [reflexivity | constructor] ]).
  exists []. rewrite app_nil_r. split; [reflexivity | constructor].
Qed.

Lemma HandleWithAnalysis_trace (ctx : Ctx) (msg : Message)
    (analysis : MessageAnalysisResult) (s : State W) :
  exists evs : list Event,
    log (snd (HandleWithAnalysis ctx msg analysis s)) = log s ++ evs
    /\ handlerTrace (fst (HandleWithAnalysis ctx msg analysis s)) evs.
Proof.
  unfold HandleWithAnalysis.
  destruct (negb (IsHighConfidence analysis)
            || negb (HasSuggestedTags analysis)).
  - exists []. simpl. rewrite app_nil_r. split; [reflexivity | constructor].
  - destruct (sendReply_log msg (addTags suggestionHeader
                                         (ar_suggestedTags analysis)) s)
      as (r & w & ->).
    simpl. eexists. split; [reflexivity | constructor].
Qed.

Lemma route_trace (ctx : Ctx) (msg : Message)
    (analysis : MessageAnalysisResult) (s : State W) :
  exists evs : list Event,
    log (snd (route ctx msg analysis s)) = log s ++ evs
    /\ routeTrace (fst (route ctx msg analysis s)) evs.
Proof.
  unfold route.
  destruct (handlers !! ar_messageType analysis) as [h | ].
  - destruct (isSuggestionsHandler h); unfold bind, ret.
    + destruct (HandleWithAnalysis_trace ctx msg analysis s)
        as (evs & Hlog & Htr).
      destruct (HandleWithAnalysis ctx msg analysis s) as [e s'].
      exists evs. split; [exact Hlog | now constructor].
    + destruct (Handle_trace h ctx msg s) as (evs & Hlog & Htr).
      destruct (Handle h ctx msg s) as [e s'].
      exists evs. split; [exact Hlog | now constructor].
  - exists []. simpl. rewrite app_nil_r. split; [reflexivity | constructor].
Qed.

Lemma ProcessMessage_trace (ctx : Ctx) (msg : option Message)
    (s : State W) :
  exists evs : list Event,
    log (snd (ProcessMessage ctx msg s)) = log s ++ evs
    /\ pipelineTrace (fst (fst (ProcessMessage ctx msg s))) evs.
Proof.
  destruct ctx, msg as [m | ]; simpl;
    try (exists []; rewrite app_nil_r; split; [reflexivity | constructor]).
  unfold analyzeMessage; unfold bind, call, ret.
  destruct (AnalyzeMessage (world s) (text (content m)))
    as [w1 [err | analysis]]; simpl.
  - eexists. split; [reflexivity | constructor].
  - destruct (HasReferences (updateMessageWithAnalysis m analysis)); simpl.
    + match goal with
      | |- context [route ?c ?m ?a ?st] =>
          destruct (route_trace c m a st) as (evs & Hlog & Htr);
          destruct (route c m a st) as [o s']
      end.
      simpl in *. rewrite Hlog, <- app_assoc. simpl.
      eexists. split; [reflexivity | now constructor].
    + unfold detectAndAddReferences; unfold bind, call, ret.
      match goal with
      | |- context [DetectReferences ?a ?b] =>
          destruct (DetectReferences a b) as [w2 [err | refs]]; simpl
      end.
      * rewrite <- app_assoc. simpl.
        eexists. split; [reflexivity | constructor].
      * match goal with
        | |- context [route ?c ?m ?a ?st] =>
            destruct (route_trace c m a st) as (evs & Hlog & Htr);
            destruct (route c m a st) as [o s']
        end.
        simpl in *. rewrite Hlog, <- !app_assoc. simpl.
        eexists. split; [reflexivity | now constructor].
Qed.

(** *** What the traces allow *)

Lemma handlerTrace_error (err : error) (evs : list Event) :
  handlerTrace (Some err) evs ->
  count isReplySent evs = 0
  /\ (count isStored evs = 0
      \/ exists (pre : list Event) (target reply : string),
          evs = pre ++ [CallReplyToMessage target reply (Some err)]).
Proof.
  inversion 1; subst; split; try reflexivity; try (left; reflexivity).
  right. now eexists [_; _], _, _.
Qed.

Lemma handlerTrace_no_detect (r : option error) (evs : list Event) :
  handlerTrace r evs -> count isDetect evs = 0.
Proof. inversion 1; reflexivity. Qed.

Lemma routeTrace_no_detect (o : outcome) (evs : list Event) :
  routeTrace o evs -> count isDetect evs = 0.
Proof.
  inversion 1; subst; [reflexivity | ].
  now apply (handlerTrace_no_detect r).
Qed.

Lemma routeTrace_error (err : error) (evs : list Event) :
  routeTrace (Returned (Some err)) evs ->
  count isReplySent evs = 0
  /\ (count isStored evs = 0
      \/ exists (pre : list Event) (target reply : string),
          evs = pre ++ [CallReplyToMessage target reply (Some err)]).
Proof. inversion 1; subst. now apply handlerTrace_error. Qed.

Lemma pipelineTrace_error (err : error) (evs : list Event) :
  pipelineTrace (Returned (Some err)) evs ->
  count isReplySent evs = 0
  /\ (count isStored evs = 0
      \/ exists (pre : list Event) (target reply : string),
          evs = pre ++ [CallReplyToMessage target reply (Some err)]).
Proof.
  inversion 1 as [ | | | c c' a refs o evs' Hr | c a o evs' Hr ]; subst;
    try (split; [reflexivity | left; reflexivity]).
  - apply routeTrace_error in Hr as [Hsent [Hst | (pre & t & r & ->)]].
    + split; [exact Hsent | left; exact Hst].
    + split; [exact Hsent | right].
      now exists (CallAnalyzeMessage c (inr a)
                    :: CallDetectReferences c' (inr refs) :: pre), t, r.
  - apply routeTrace_error in Hr as [Hsent [Hst | (pre & t & r & ->)]].
    + split; [exact Hsent | left; exact Hst].
    + split; [exact Hsent | right].
      now exists (CallAnalyzeMessage c (inr a) :: pre), t, r.
Qed.

Lemma handlerTrace_failure (r : option error) (evs : list Event) :
  handlerTrace r evs ->
  0 < count failedOracle evs ->
  (exists err : error, r = Some err)
  /\ count isStore evs = 0 /\ count isReply evs = 0.
Proof.
  inversion 1; subst; cbn; intros Hf; try lia.
  split; [now eexists | split; reflexivity].
Qed.

Lemma routeTrace_failure (o : outcome) (evs : list Event) :
  routeTrace o evs ->
  0 < count failedOracle evs ->
  (exists err : error, o = Returned (Some err))
  /\ count isStore evs = 0 /\ count isReply evs = 0.
Proof.
  inversion 1 as [ | r evs' Hh ]; subst; cbn; intros Hf; [lia | ].
  destruct (handlerTrace_failure r evs Hh Hf) as ((err & ->) & Hs & Hr).
  split; [now eexists | split; assumption].
Qed.

Lemma pipelineTrace_failure (o : outcome) (evs : list Event) :
  pipelineTrace o evs ->
  0 < count failedOracle evs ->
  (exists err : error, o = Returned (Some err))
  /\ count isStore evs = 0 /\ count isReply evs = 0.
Proof.
  inversion 1 as [ | | | c c' a refs o' evs' Hr | c a o' evs' Hr ]; subst;
    cbn; intros Hf; try lia;
    try (split; [now eexists | split; reflexivity]);
    exact (routeTrace_failure o evs' Hr Hf).
Qed.

(** *** The unknown type *)

(** C4. For a message routed with type unknown: when the confidence is at
    least 0.8 and the list of suggested tags is not empty, the routing makes
    exactly one call, a reply to the message whose text contains each
    suggested tag; otherwise it makes no call at all and returns no error.
    In neither case is documentation generated or stored. *)
Theorem route_unknown (ctx : Ctx) (msg : Message)
    (analysis : MessageAnalysisResult) (s : State W) :
  ar_messageType analysis = MessageTypeUnknown ->
  if (highConfidence <=? ar_confidenceScore analysis)%float
     && negb (bool_decide (ar_suggestedTags analysis = []))
  then exists (reply : string) (r : option error) (w : W),
      route ctx msg analysis s
      = (Returned r,
         MkState w (log s ++ [CallReplyToMessage (Common.String (id msg))
                                                 reply r]))
      /\ forall tag : string,
          tag ∈ ar_suggestedTags analysis -> contains reply tag
  else route ctx msg analysis s = (Returned None, s).
Proof.
  intros Ht. unfold route. rewrite Ht.
  change (handlers !! MessageTypeUnknown) with (Some unknownHandler).
  simpl. unfold bind, HandleWithAnalysis, IsHighConfidence, HasSuggestedTags.
  destruct (highConfidence <=? ar_confidenceScore analysis)%float; simpl;
    [ | reflexivity].
  destruct (ar_suggestedTags analysis) as [|t tags] eqn:Etags;
    [reflexivity | ].
  rewrite bool_decide_eq_false_2 by discriminate.
  change (0 <? length (t :: tags))%nat with true. cbv beta iota delta [negb].
  destruct (sendReply_log msg (addTags suggestionHeader (t :: tags)) s)
    as (r & w & Hr).
  rewrite Hr. exists (addTags suggestionHeader (t :: tags)), r, w.
  split; [reflexivity | ].
  intros tag Hin. exact (addTags_contains (t :: tags) _ tag Hin).
Qed.

(** C5, as the code has it.  The handler of the unknown type discards the
    suggested tags of an analysis whose confidence is below 0.8: it makes no
    call and returns no error.  It surfaces them when the confidence is at
    least 0.8 and there is a tag: it sends one reply that contains every
    suggested tag. *)
Theorem suggestion_policy (ctx : Ctx) (msg : Message)
    (analysis : MessageAnalysisResult) (s : State W) :
  ((ar_confidenceScore analysis <? highConfidence)%float = true ->
   HandleWithAnalysis ctx msg analysis s = (None, s))
  /\ ((highConfidence <=? ar_confidenceScore analysis)%float = true ->
      ar_suggestedTags analysis <> [] ->
      exists (reply : string) (r : option error) (w : W),
        HandleWithAnalysis ctx msg analysis s
        = (r, MkState w (log s ++ [CallReplyToMessage
                                     (Common.String (id msg)) reply r]))
        /\ forall tag : string,
            tag ∈ ar_suggestedTags analysis -> contains reply tag).
Proof.
  unfold HandleWithAnalysis, IsHighConfidence, HasSuggestedTags. split.
  - intros Hlow. apply DomainFacts.ltb_leb_false in Hlow.
    now rewrite Hlow.
  - intros Hhigh Htags. rewrite Hhigh.
    destruct (ar_suggestedTags analysis) as [|t tags]; [congruence | ].
    simpl.
    destruct (sendReply_log msg (addTags suggestionHeader (t :: tags)) s)
      as (r & w & Hr).
    exists (addTags suggestionHeader (t :: tags)), r, w.
    split; [exact Hr | ].
    intros tag Hin. exact (addTags_contains (t :: tags) _ tag Hin).
Qed.

(** *** Reference detection *)

Lemma HasReferences_empty (m : Message) :
  HasReferences m = negb (bool_decide (references m = [])).
Proof.
  unfold HasReferences. destruct (references m) as [|r refs]; reflexivity.
Qed.

(** C6. After a successful analysis, [DetectReferences] is called exactly
    when the merged message has no reference.  What it finds is appended to
    the references (the nil pointers apart), those already there stay.  When
    the call fails, [ProcessMessage] returns the error and makes no further
    call. *)
Theorem reference_detection (m : Message) (s : State W) (w1 : W)
    (analysis : MessageAnalysisResult) :
  AnalyzeMessage (world s) (text (content m)) = (w1, inr analysis) ->
  let m1 := updateMessageWithAnalysis m analysis in
  let s1 := MkState w1 (log s ++ [CallAnalyzeMessage (text (content m))
                                                     (inr analysis)]) in
  let run := ProcessMessage LiveCtx (Some m) s in
  (if bool_decide (references m1 = [])
   then match DetectReferences w1 (text (content m1)) with
        | (w2, inl err) =>
            run = (Returned (Some (Errorf "failed to detect references"
                                          err)),
                   Some m1,
                   MkState w2 (log s1 ++ [CallDetectReferences
                                            (text (content m1)) (inl err)]))
        | (w2, inr refs) =>
            exists (m2 : Message) (evs : list Event),
              snd (fst run) = Some m2
              /\ references m2 = references m1 ++ nonNil refs
              /\ log (snd run)
                 = log s1 ++ CallDetectReferences (text (content m1))
                                                  (inr refs) :: evs
              /\ count isDetect evs = 0
        end
   else exists evs : list Event,
       snd (fst run) = Some m1
       /\ log (snd run) = log s1 ++ evs
       /\ count isDetect evs = 0)
  /\ forall (m0 : Message) (s0 : State W),
      exists extra : list (option Reference),
        references (snd (fst (detectAndAddReferences m0 s0)))
        = references m0 ++ extra.
Proof.
  intros Han m1 s1 run. split.
  - subst run. simpl. unfold analyzeMessage; unfold bind, call, ret.
    rewrite Han. simpl. fold m1. fold s1.
    rewrite HasReferences_empty, negb_involutive.
    destruct (bool_decide (references m1 = [])).
    + unfold detectAndAddReferences; unfold bind, call, ret. simpl.
      destruct (DetectReferences w1 (text (content m1)))
        as [w2 [err | refs]]; simpl; [reflexivity | ].
      match goal with
      | |- context [route ?c ?m ?a ?st] =>
          destruct (route_trace c m a st) as (evs & Hlog & Htr);
          destruct (route c m a st) as [o s']
      end.
      simpl in *. exists (fold_left AddReference refs m1), evs.
      split; [reflexivity | ].
      split; [apply DomainFacts.fold_AddReference_references | ].
      split; [now rewrite Hlog, <- app_assoc | ].
      exact (routeTrace_no_detect o evs Htr).
    + destruct (route_trace LiveCtx m1 analysis s1) as (evs & Hlog & Htr).
      destruct (route LiveCtx m1 analysis s1) as [o s'].
      simpl in *. exists evs.
      split; [reflexivity | ]. split; [exact Hlog | ].
      exact (routeTrace_no_detect o evs Htr).
  - intros m0 s0. unfold detectAndAddReferences; unfold bind, call, ret.
    destruct (DetectReferences (world s0) (text (content m0)))
      as [w2 [err | refs]]; simpl.
    + exists []. now rewrite app_nil_r.
    + exists (nonNil refs). apply DomainFacts.fold_AddReference_references.
Qed.

(** *** The decision handler *)



(** *** Failures *)

(** C9, as the code has it.  When [ProcessMessage] returns an error, no
    reply reached the chat; and no document was stored, unless the call
    that failed is the reply itself, which comes after the store: then the
    document stays stored.  When the analysis or the generation of the
    documentation fails, [ProcessMessage] returns an error and has called
    neither the store nor the chat. *)
Theorem failed_process (ctx : Ctx) (msg : option Message) (s : State W) :
  exists evs : list Event,
    log (snd (ProcessMessage ctx msg s)) = log s ++ evs
    /\ (forall err : error,
           fst (fst (ProcessMessage ctx msg s)) = Returned (Some err) ->
           count isReplySent evs = 0
           /\ (count isStored evs = 0
               \/ exists (pre : list Event) (target reply : string),
                   evs = pre ++ [CallReplyToMessage target reply
                                                    (Some err)]))
    /\ (0 < count failedOracle evs ->
        (exists err : error,
            fst (fst (ProcessMessage ctx msg s)) = Returned (Some err))
        /\ count isStore evs = 0 /\ count isReply evs = 0).
Proof.
  destruct (ProcessMessage_trace ctx msg s) as (evs & Hlog & Htr).
  exists evs. split; [exact Hlog | ]. split.
  - intros err Herr. rewrite Herr in Htr.
    now apply pipelineTrace_error.
  - now apply pipelineTrace_failure.
Qed.

End Facts.
End ServicesFacts.
(** ** The pipeline on the scripted world *)

Module ServicesScenarios.
Import Domain Ports Services Observe Scenario ServicesFacts.

(** An analysis of type unknown with confidence 0.9 and two tags. *)
Lemma route_unknown_witness :
  let a := analysisOf MessageTypeUnknown confident ["deploys"; "ops"] in
  let msg := someMessage [] in
  let s := start (allFine a) in
  ar_messageType a = MessageTypeUnknown
  /\ exists (reply : string) (r : option error) (w : Script),
      route LiveCtx msg a s
      = (Returned r,
         MkState w (log s ++ [CallReplyToMessage (Common.String (id msg))
                                                 reply r]))
      /\ forall tag : string, tag ∈ ar_suggestedTags a -> contains reply tag.
Proof.
  split; [reflexivity | ].
  exact (route_unknown LiveCtx (someMessage [])
           (analysisOf MessageTypeUnknown confident ["deploys"; "ops"])
           (start (allFine (analysisOf MessageTypeUnknown confident
                                       ["deploys"; "ops"])))
           eq_refl).
Defined.

(** C5, refuted.  With confidence 0.5, below the threshold, and type
    unknown, the suggested tag is dropped: nothing is sent.  With
    confidence 0.9 and type unknown the tag is sent to the user. *)
Lemma tags_surfaced_only_when_confident :
  let low := analysisOf MessageTypeUnknown doubtful ["deploys"] in
  let high := analysisOf MessageTypeUnknown confident ["deploys"] in
  let msg := someMessage [] in
  ((ar_confidenceScore low <? highConfidence)%float = true
   /\ ar_messageType low = MessageTypeUnknown
   /\ route LiveCtx msg low (start (allFine low))
      = (Returned None, start (allFine low)))
  /\ ((highConfidence <=? ar_confidenceScore high)%float = true
      /\ ar_messageType high = MessageTypeUnknown
      /\ log (snd (route LiveCtx msg high (start (allFine high))))
         = [CallReplyToMessage "01M"
              (suggestionHeader +:+ "- #deploys" +:+ newline) None]).
Proof. repeat split; vm_compute; reflexivity. Qed.

(** An analysis of type unknown with confidence 0.5 and one tag. *)
Lemma suggestion_policy_witness :
  let low := analysisOf MessageTypeUnknown doubtful ["deploys"] in
  let msg := someMessage [] in
  (ar_confidenceScore low <? highConfidence)%float = true
  /\ HandleWithAnalysis LiveCtx msg low (start (allFine low))
     = (None, start (allFine low)).
Proof.
  split; [reflexivity | ].
  exact (proj1 (suggestion_policy LiveCtx (someMessage [])
                  (analysisOf MessageTypeUnknown doubtful ["deploys"])
                  (start (allFine (analysisOf MessageTypeUnknown doubtful
                                              ["deploys"]))))
               eq_refl).
Defined.

(** A message without references, an analysis without references, and a
    detection that finds none. *)
Lemma reference_detection_witness :
  let a := analysisOf MessageTypeDecision confident [] in
  let m := someMessage [] in
  let s := start (allFine a) in
  let m1 := updateMessageWithAnalysis m a in
  let s1 := MkState (allFine a)
                    (log s ++ [CallAnalyzeMessage (text (content m))
                                                  (inr a)]) in
  let run := ProcessMessage LiveCtx (Some m) s in
  AnalyzeMessage (world s) (text (content m)) = (allFine a, inr a)
  /\ exists (m2 : Message) (evs : list Event),
      snd (fst run) = Some m2
      /\ references m2 = references m1 ++ nonNil []
      /\ log (snd run)
         = log s1 ++ CallDetectReferences (text (content m1)) (inr [])
                  :: evs
      /\ count isDetect evs = 0.
Proof.
  split; [reflexivity | ].
  exact (proj1 (reference_detection (someMessage [])
                  (start (allFine (analysisOf MessageTypeDecision confident
                                              [])))
                  (allFine (analysisOf MessageTypeDecision confident []))
                  (analysisOf MessageTypeDecision confident [])
                  eq_refl)).
Defined.



(** C9, refuted.  The analysis says idea, the documentation is generated
    and stored, and the chat refuses the reply: [ProcessMessage] returns
    the error of the chat, and the document has been stored. *)
Lemma reply_failure_keeps_document :
  let a := analysisOf MessageTypeIdea confident [] in
  let run := ProcessMessage LiveCtx (Some (someMessage []))
                            (start (chatDown a)) in
  fst (fst run) = Returned (Some (ErrExternal "chat down"))
  /\ count isStored (log (snd run)) = 1
  /\ List.filter isStore (log (snd run))
     = [CallStoreDocument "docs/operations/decision-8.md" "# doc"
          (MkMetadata MessageTypeDecision CategoryOperations 7 []) None].
Proof. repeat split; vm_compute; reflexivity. Qed.

(** The run in which the chat refuses the reply. *)
Lemma failed_process_witness :
  let a := analysisOf MessageTypeIdea confident [] in
  let s := start (chatDown a) in
  let run := ProcessMessage LiveCtx (Some (someMessage [])) s in
  fst (fst run) = Returned (Some (ErrExternal "chat down"))
  /\ exists evs : list Event,
      log (snd run) = log s ++ evs
      /\ (forall err : error,
             fst (fst run) = Returned (Some err) ->
             count isReplySent evs = 0
             /\ (count isStored evs = 0
                 \/ exists (pre : list Event) (target reply : string),
                     evs = pre ++ [CallReplyToMessage target reply
                                                      (Some err)]))
      /\ (0 < count failedOracle evs ->
          (exists err : error, fst (fst run) = Returned (Some err))
          /\ count isStore evs = 0 /\ count isReply evs = 0).
Proof.
  split; [reflexivity | ].
  exact (failed_process LiveCtx (Some (someMessage []))
           (start (chatDown (analysisOf MessageTypeIdea confident [])))).
Defined.

(** The scenario of the specification: the text is classified as a
    decision on operations with confidence 0.92 and no tag, the message has
    no reference and the detection finds none.  One document is stored,
    one reply is sent, with no count of references. *)
Example blue_green_deploys :
  let a := MkMessageAnalysisResult MessageTypeDecision CategoryOperations []
             0x1.d70a3d70a3d71p-1%float [] in
  let run := ProcessMessage LiveCtx (Some (someMessage []))
                            (start (allFine a)) in
  fst run = (Returned None,
             Some (MkMessage (Common.MkID "01M") (Common.MkID "01T") "ana"
                     (MkMessageContent "Let's switch to blue-green deploys")
                     MessageTypeDecision CategoryOperations [] 0))
  /\ log (snd run)
     = [CallAnalyzeMessage "Let's switch to blue-green deploys" (inr a);
        CallDetectReferences "Let's switch to blue-green deploys" (inr []);
        CallGenerateDocumentation "Let's switch to blue-green deploys"
          (MkMetadata MessageTypeDecision CategoryOperations 7 [])
          (inr "# doc");
        CallStoreDocument "docs/operations/decision-8.md" "# doc"
          (MkMetadata MessageTypeDecision CategoryOperations 7 []) None;
        CallReplyToMessage "01M"
          "✅ Recorded decision in category: operations" None].
Proof. split; vm_compute; reflexivity. Qed.

End ServicesScenarios.

(** ** The thread map *)

Module SlackFacts.
Import Domain Slack Threads.

Lemma ulid_inj (k k' : nat) : Common.ulid k = Common.ulid k' -> k = k'.
Proof.
  unfold Common.ulid. intros H.
  apply (f_equal NilEmpty.uint_of_string) in H.
  rewrite !NilEmpty.usu in H. injection H as H.
  apply (f_equal Nat.of_uint) in H.
  now rewrite !DecimalNat.Unsigned.of_to in H.
Qed.

Section Process.
Variable TrimSpace : string -> string.
Variable GetUserInfo : string -> error + string.
Variable MessageTypeInformation : MessageType.
Variable time_Now : nat -> Time.

Abbreviation step := (step TrimSpace GetUserInfo MessageTypeInformation time_Now).
Abbreviation exec := (exec TrimSpace GetUserInfo MessageTypeInformation time_Now).
Abbreviation sched_step :=
  (sched_step TrimSpace GetUserInfo MessageTypeInformation time_Now).
Abbreviation run := (run TrimSpace GetUserInfo MessageTypeInformation time_Now).
Abbreviation processMessageEvent :=
  (processMessageEvent TrimSpace GetUserInfo MessageTypeInformation time_Now).

(** *** A call on its own comes to its end or waits for the lock *)

Lemma step_rank (c c' : Client) (ev : MessageEvent) (p p' : pc) :
  step c ev p = Some (c', p') -> rank p' < rank p.
Proof.
  destruct p; simpl; intros H;
    repeat match type of H with
      | context [match ?x with _ => _ end] => destruct x
      end;
    inversion H; subst; simpl; lia.
Qed.

Lemma exec_stops (fuel : nat) :
  forall (c : Client) (ev : MessageEvent) (p : pc),
    rank p <= fuel ->
    step (fst (exec fuel c ev p)) ev (snd (exec fuel c ev p)) = None.
Proof.
  induction fuel as [|fuel IH]; intros c ev p Hrank.
  - destruct p; simpl in Hrank; try lia. reflexivity.
  - simpl. destruct (step c ev p) as [[c' p'] | ] eqn:Hstep.
    + apply IH. apply step_rank in Hstep. lia.
    + exact Hstep.
Qed.

Lemma exec_S (fuel : nat) (c : Client) (ev : MessageEvent) (p : pc) :
  exec (S fuel) c ev p
  = match step c ev p with
    | Some (c', p') => exec fuel c' ev p'
    | None => (c, p)
    end.
Proof. reflexivity. Qed.

Lemma processMessageEvent_stops (c : Client) (ev : MessageEvent) :
  step (fst (processMessageEvent c ev)) ev (snd (processMessageEvent c ev))
  = None.
Proof. apply exec_stops. simpl. lia. Qed.

(** *** What a step does to the identifier a goroutine owns *)

Lemma step_owned (c c' : Client) (ev : MessageEvent) (p p' : pc) :
  step c ev p = Some (c', p') ->
  issued c <= issued c'
  /\ (owned (ev, p') = owned (ev, p)
      \/ owned (ev, p') = None
      \/ (owned (ev, p') = Some (Common.MkID (Common.ulid (issued c)))
          /\ issued c < issued c')).
Proof.
  unfold owned.
  destruct p; simpl; intros H.
  - repeat match type of H with
      | context [match ?x with _ => _ end] => destruct x
      end; inversion H; subst; simpl; split; try lia;
      destruct (inThread ev); auto.
  - destruct (writer c); inversion H; subst; simpl. split; [lia | ].
    destruct (inThread ev); auto.
  - destruct (inThread ev) eqn:Hin.
    + destruct (threadMap c !! ThreadTimestamp ev);
        inversion H; subst; simpl; rewrite ?Hin; split; try lia; auto.
    + inversion H; subst; simpl. split; [lia | ]. right. right.
      split; [reflexivity | lia].
  - inversion H; subst; simpl. split; [lia | auto].
  - destruct (writer c || (0 <? readers c)%nat); inversion H; subst; simpl.
    split; [lia | auto].
  - inversion H; subst; simpl. split; [lia | auto].
  - destruct (inThread ev) eqn:Hin; inversion H; subst; simpl;
      rewrite ?Hin; split; try lia; auto.
  - destruct (NewMessageContent TrimSpace (Text ev)) as [err | mc].
    + inversion H; subst; simpl. split; [lia | auto].
    + unfold NewMessage in H.
      destruct (decide (name = "")).
      * inversion H; subst; simpl. split; [lia | auto].
      * destruct (negb (MessageType_IsValid MessageTypeInformation));
          simpl in H; inversion H; subst; simpl; split; try lia; auto.
  - discriminate H.
Qed.

Lemma fresh_spawn (c : Client) (evs : list MessageEvent) :
  fresh (issued c) (goroutines (spawn c evs)).
Proof.
  assert (Hnone : forall (i : nat) (g : MessageEvent * pc),
             goroutines (spawn c evs) !! i = Some g -> owned g = None).
  { intros i g Hg. simpl in Hg. rewrite list_lookup_fmap in Hg.
    destruct (evs !! i) as [ev | ]; simpl in Hg; [ | discriminate].
    injection Hg as <-. unfold owned. simpl. now destruct (inThread ev). }
  split.
  - intros i g tid Hg Ho. rewrite (Hnone i g Hg) in Ho. discriminate.
  - intros i j gi gj tid Hi _ Ho _. rewrite (Hnone i gi Hi) in Ho.
    discriminate.
Qed.

Lemma fresh_sched_step (s : System) (i : nat) :
  fresh (issued (client s)) (goroutines s) ->
  fresh (issued (client (sched_step s i))) (goroutines (sched_step s i)).
Proof.
  intros [Hissued Hapart]. unfold sched_step.
  destruct (goroutines s !! i) as [[ev p] | ] eqn:Hi; [ | now split].
  destruct (step (client s) ev p) as [[c' p'] | ] eqn:Hstep; [ | now split].
  destruct (step_owned _ _ _ _ _ Hstep) as [Hle Hown]. simpl.
  assert (Hlen : i < length (goroutines s))
    by (apply lookup_lt_is_Some; eauto).
  assert (Hat : forall (j : nat) (g : MessageEvent * pc),
             <[i := (ev, p')]> (goroutines s) !! j = Some g ->
             (j = i /\ g = (ev, p'))
             \/ (j <> i /\ goroutines s !! j = Some g)).
  { intros j g Hg. destruct (decide (j = i)) as [-> | Hne].
    - rewrite list_lookup_insert_eq in Hg by exact Hlen.
      injection Hg as <-. now left.
    - rewrite list_lookup_insert_ne in Hg by congruence. now right. }
  split.
  - intros j g tid Hg Ho.
    destruct (Hat j g Hg) as [[-> ->] | [Hne Hold]].
    + destruct Hown as [Hsame | [Hnone | [Hnew Hlt]]].
      * rewrite Hsame in Ho.
        destruct (Hissued i (ev, p) tid Hi Ho) as (k & Hk & ->).
        exists k. split; [lia | reflexivity].
      * congruence.
      * exists (issued (client s)). split; [exact Hlt | congruence].
    + destruct (Hissued j g tid Hold Ho) as (k & Hk & ->).
      exists k. split; [lia | reflexivity].
  - intros j j' gj gj' tid Hj Hj' Hoj Hoj'.
    destruct (Hat j gj Hj) as [[-> ->] | [Hne Hold]];
      destruct (Hat j' gj' Hj') as [[-> ->] | [Hne' Hold']];
      try reflexivity.
    + destruct Hown as [Hsame | [Hnone | [Hnew Hlt]]].
      * rewrite Hsame in Hoj.
        exact (Hapart i j' (ev, p) gj' tid Hi Hold' Hoj Hoj').
      * congruence.
      * destruct (Hissued j' gj' tid Hold' Hoj') as (k & Hk & ->).
        rewrite Hnew in Hoj. injection Hoj as Hoj.
        apply ulid_inj in Hoj. lia.
    + destruct Hown as [Hsame | [Hnone | [Hnew Hlt]]].
      * rewrite Hsame in Hoj'.
        exact (Hapart j i gj (ev, p) tid Hold Hi Hoj Hoj').
      * congruence.
      * destruct (Hissued j gj tid Hold Hoj) as (k & Hk & ->).
        rewrite Hnew in Hoj'. injection Hoj' as Hoj'.
        apply ulid_inj in Hoj'. lia.
    + exact (Hapart j j' gj gj' tid Hold Hold' Hoj Hoj').
Qed.

Lemma fresh_run (schedule : list nat) :
  forall s : System,
    fresh (issued (client s)) (goroutines s) ->
    fresh (issued (client (run schedule s))) (goroutines (run schedule s)).
Proof.
  induction schedule as [|i schedule IH]; intros s Hs; [exact Hs | ].
  simpl. apply IH. now apply fresh_sched_step.
Qed.

(** Several goroutines run [processMessageEvent] on a client, one per
    event, under any schedule of their steps, with a generator that gives
    an identifier of its own to every call.  Two events that are in no
    thread are never resolved to the same ThreadId, be their timestamps
    different or equal. *)
Theorem roots_resolve_apart (c : Client) (evs : list MessageEvent)
    (schedule : list nat) (i j : nat) (ei ej : MessageEvent) (pi pj : pc)
    (a b : Common.ID) :
  goroutines (run schedule (spawn c evs)) !! i = Some (ei, pi) ->
  goroutines (run schedule (spawn c evs)) !! j = Some (ej, pj) ->
  i <> j ->
  ThreadTimestamp ei = "" -> ThreadTimestamp ej = "" ->
  resolved pi = Some a -> resolved pj = Some b ->
  a <> b.
Proof.
  intros Hi Hj Hne Hri Hrj Ha Hb Hab. subst b.
  destruct (fresh_run schedule (spawn c evs) (fresh_spawn c evs))
    as [_ Hapart].
  apply Hne. apply (Hapart i j (ei, pi) (ej, pj) a Hi Hj).
  - unfold owned, inThread. simpl. rewrite Hri. simpl.
    destruct pi as [ | | | | | | | | []]; simpl in Ha |- *;
      try discriminate; exact Ha.
  - unfold owned, inThread. simpl. rewrite Hrj. simpl.
    destruct pj as [ | | | | | | | | []]; simpl in Hb |- *;
      try discriminate; exact Hb.
Qed.

(** A reply whose parent is not in the map: the call registers the parent
    under a new identifier and returns; it puts nothing on the channel. *)
Lemma orphan_reply_dropped (c : Client) (ev : MessageEvent) (name : string) :
  BotID ev = "" -> User ev <> "" -> GetUserInfo (User ev) = inr name ->
  ThreadTimestamp ev <> "" ->
  threadMap c !! ThreadTimestamp ev = None ->
  writer c = false -> readers c = 0 ->
  processMessageEvent c ev
  = (MkClient (<[ThreadTimestamp ev := Common.MkID (Common.ulid (issued c))]>
                 (threadMap c))
              0 false (S (issued c)) (messageCh c),
     Done (ParentRegistered (Common.MkID (Common.ulid (issued c))))).
Proof.
  intros Hbot Huser Hinfo Hts Hmap Hw Hr.
  destruct c as [tm rd wr iss ch]. simpl in Hmap, Hw, Hr. subst wr rd.
  assert (Hin : inThread ev = true)
    by (unfold inThread; now destruct (decide (ThreadTimestamp ev = ""))).
  unfold Slack.processMessageEvent.
  rewrite exec_S. cbn [Slack.step]. rewrite Hbot, Hinfo.
  destruct (decide (User ev = "")); [contradiction | ].
  destruct (decide ("" = "")); [ | congruence].
  cbn [orb]. cbv beta iota.
  do 2 (rewrite exec_S;
        cbn [Slack.step writer readers threadMap issued messageCh];
        rewrite ?Hin, ?Hmap).
  unfold Common.GenerateID. cbv beta iota zeta.
  do 4 (rewrite exec_S;
        cbn [Slack.step writer readers threadMap issued messageCh
                        Nat.pred Nat.ltb Nat.leb orb];
        rewrite ?Hin).
  rewrite exec_S. reflexivity.
Qed.

End Process.

End SlackFacts.

(** ** The thread map on concrete events *)

Module SlackScenarios.
Import Domain Slack Threads SlackFacts.

(** Two events with the same conversation marker ["T1"] and no parent,
    handled one after the other on a new client: the first is
    resolved to the identifier 0, the second to the identifier 1, and the
    map keeps the second. *)
Lemma same_marker_two_threads :
  let e := event "U1" "T1" "" in
  let s := interleave (replicate 8 0 ++ replicate 8 1) (NewClient 0) [e; e] in
  (resolved <$> (snd <$> goroutines s)
   = [Some (Common.MkID "0"); Some (Common.MkID "1")])
  /\ threadMap (client s) !! "T1" = Some (Common.MkID "1").
Proof. split; vm_compute; reflexivity. Qed.

(** The two goroutines both look the map up before either writes to it. *)
Lemma roots_resolve_apart_witness :
  let e := event "U1" "T1" "" in
  let sched := [0; 1; 0; 1; 0; 1; 0; 1; 0; 0; 0; 0; 1; 1; 1; 1] in
  let s := interleave sched (NewClient 0) [e; e] in
  (goroutines s !! 0
   = Some (e, Done (MessageRejected (Common.MkID "0") ErrNoType))
   /\ goroutines s !! 1
      = Some (e, Done (MessageRejected (Common.MkID "1") ErrNoType))
   /\ ThreadTimestamp e = "")
  /\ Common.MkID "0" <> Common.MkID "1".
Proof.
  split; [repeat split; vm_compute; reflexivity | ].
  exact (roots_resolve_apart asciiTrimSpace userInfo information ticks
           (NewClient 0) [event "U1" "T1" ""; event "U1" "T1" ""]
           [0; 1; 0; 1; 0; 1; 0; 1; 0; 0; 0; 0; 1; 1; 1; 1] 0 1
           (event "U1" "T1" "") (event "U1" "T1" "")
           (Done (MessageRejected (Common.MkID "0") ErrNoType))
           (Done (MessageRejected (Common.MkID "1") ErrNoType))
           (Common.MkID "0") (Common.MkID "1")
           eq_refl eq_refl (fun H : 0 = 1 => O_S 0 H)
           eq_refl eq_refl eq_refl eq_refl).
Defined.

(** C2.  A reply to the parent ["T1"], which the new client has not seen:
    the parent is registered under a new identifier, the call returns at
    line 181, the event is resolved to no ThreadId and the channel stays
    empty, whatever the library functions, the legacy type and the clock
    are. *)
Theorem orphan_reply_not_emitted (TrimSpace : string -> string)
    (MessageTypeInformation : MessageType) (time_Now : nat -> Time) :
  let ev := event "U1" "T2" "T1" in
  let after := processMessageEvent TrimSpace userInfo MessageTypeInformation
                                   time_Now (NewClient 0) ev in
  after = (MkClient {["T1" := Common.MkID "0"]} 0 false 1 [],
           Done (ParentRegistered (Common.MkID "0")))
  /\ resolved (snd after) = None
  /\ emitted (NewClient 0) (fst after) = [].
Proof.
  cbv zeta.
  rewrite (orphan_reply_dropped TrimSpace userInfo MessageTypeInformation
             time_Now (NewClient 0) (event "U1" "T2" "T1") "U1")
    by (reflexivity || discriminate).
  repeat split.
Qed.

(** The first message of a thread, then a reply to it, then a message in
    no thread.  The reply finds its parent and keeps the read lock; the
    third call waits for the write lock, which it cannot get. *)
Example read_lock_leak :
  let c1 := fst (process (NewClient 0) (event "U1" "T1" "")) in
  let c2 := fst (process c1 (event "U2" "T2" "T1")) in
  let third := process c2 (event "U1" "T3" "") in
  readers c1 = 0 /\ readers c2 = 1
  /\ snd third = AtLock "U1" (Common.MkID "1")
  /\ step asciiTrimSpace userInfo information ticks (fst third)
          (event "U1" "T3" "") (snd third) = None.
Proof. repeat split; vm_compute; reflexivity. Qed.

(** With a legacy type that [NewMessage] accepts, the two messages of the
    same marker reach the channel in two threads. *)
Example same_marker_two_messages :
  let e := event "U1" "T1" "" in
  let s := run asciiTrimSpace userInfo MessageTypeUnknown ticks
               (replicate 8 0 ++ replicate 8 1)
               (spawn (NewClient 0) [e; e]) in
  (Common.String <$> (threadID <$> messageCh (client s))) = ["0"; "2"].
Proof. vm_compute. reflexivity. Qed.

(** The first message of the thread ["T1"] and a reply to it run together:
    both pass the read of the map before either writes.  The message is
    resolved to the identifier 0, the reply then registers ["T1"] under the
    identifier 1, and a later reply to ["T1"] is resolved to 1: the thread
    is split. *)
Example root_and_reply_race :
  let root := event "U1" "T1" "" in
  let reply := event "U2" "T2" "T1" in
  let later := event "U3" "T3" "T1" in
  let sched := [0; 0; 0; 1; 1; 1; 0; 1; 0; 0; 0; 1; 1; 1; 0; 2; 2; 2; 2] in
  let s := interleave sched (NewClient 0) [root; reply; later] in
  (resolved <$> (snd <$> goroutines s)
   = [Some (Common.MkID "0"); None; Some (Common.MkID "1")])
  /\ threadMap (client s) !! "T1" = Some (Common.MkID "1").
Proof. split; vm_compute; reflexivity. Qed.

End SlackScenarios.

(** ** The pipeline as a whole *)

Module PipelineFacts.
Import Domain Ports Services Observe Outline.

Lemma NewMessageAnalysisResult_inr (t : MessageType) (c : Category)
    (refs : list (option Reference)) (conf : float) (tags : list string)
    (a : MessageAnalysisResult) :
  NewMessageAnalysisResult t c refs conf tags = inr a ->
  a = MkMessageAnalysisResult t c refs conf tags
  /\ MessageType_IsValid t = true /\ Category_IsValid c = true.
Proof.
  unfold NewMessageAnalysisResult.
  destruct ((conf <? 0)%float || (1 <? conf)%float); [discriminate | ].
  destruct (MessageType_IsValid t); [ | discriminate].
  destruct (Category_IsValid c); [ | discriminate].
  simpl. intros [= <-]. repeat split.
Qed.

(** The handler table has a handler for the valid message types and for no
    other. *)
Lemma handlers_valid (t : MessageType) :
  is_Some (handlers !! t) <-> MessageType_IsValid t = true.
Proof.
  unfold handlers, MessageType_IsValid, validMessageTypes.
  rewrite !lookup_insert, !lookup_empty.
  repeat (case_decide;
          [simpl; split; [intros _; reflexivity | intros _; eauto] | ]).
  simpl. split; [intros [h [=]] | discriminate].
Qed.

Lemma sameIdentity_refl (m : Message) : sameIdentity m m.
Proof. repeat split. Qed.

Lemma sameIdentity_trans (m1 m2 m3 : Message) :
  sameIdentity m1 m2 -> sameIdentity m2 m3 -> sameIdentity m1 m3.
Proof.
  unfold sameIdentity. intros (? & ? & ? & ? & ? & ?) (? & ? & ? & ? & ? & ?).
  repeat split; congruence.
Qed.

Lemma AddReference_identity (m : Message) (r : option Reference) :
  sameIdentity m (AddReference m r).
Proof. destruct r; repeat split. Qed.

Lemma fold_AddReference_identity (refs : list (option Reference)) :
  forall m : Message, sameIdentity m (fold_left AddReference refs m).
Proof.
  induction refs as [|r refs IH]; intros m; simpl.
  - apply sameIdentity_refl.
  - eapply sameIdentity_trans; [apply (AddReference_identity m r) | apply IH].
Qed.

Lemma UpdateCategory_identity (m : Message) (c : Category) :
  sameIdentity m (UpdateCategory m c).
Proof. unfold UpdateCategory. destruct (Category_IsValid c); repeat split. Qed.

Lemma updateMessageWithAnalysis_identity (m : Message)
    (a : MessageAnalysisResult) :
  sameIdentity m (updateMessageWithAnalysis m a).
Proof.
  unfold updateMessageWithAnalysis.
  eapply sameIdentity_trans;
    [apply UpdateCategory_identity | apply fold_AddReference_identity].
Qed.

Lemma nonNil_Forall (refs : list (option Reference)) :
  Forall is_Some (nonNil refs).
Proof.
  induction refs as [|[r | ] refs IH]; simpl; [constructor | | exact IH].
  constructor; [now exists r | exact IH].
Qed.

Lemma updateMessageWithAnalysis_references (m : Message)
    (a : MessageAnalysisResult) :
  references (updateMessageWithAnalysis m a)
  = references m ++ nonNil (ar_references a).
Proof.
  unfold updateMessageWithAnalysis.
  rewrite DomainFacts.fold_AddReference_references.
  unfold UpdateCategory. now destruct (Category_IsValid (ar_category a)).
Qed.

(** An analysis made by the constructor is merged in full: the message
    takes its category, which is a valid one, and its references that are
    not nil, after those the message had. *)
Theorem constructed_analysis_merge (t : MessageType) (c : Category)
    (refs : list (option Reference)) (conf : float) (tags : list string)
    (a : MessageAnalysisResult) (m : Message) :
  NewMessageAnalysisResult t c refs conf tags = inr a ->
  category (updateMessageWithAnalysis m a) = c
  /\ Category_IsValid (category (updateMessageWithAnalysis m a)) = true
  /\ references (updateMessageWithAnalysis m a)
     = references m ++ nonNil refs.
Proof.
  intros Ha. apply NewMessageAnalysisResult_inr in Ha as (-> & _ & Hc).
  assert (Hcat : category (updateMessageWithAnalysis m
                             (MkMessageAnalysisResult t c refs conf tags))
                 = c).
  { unfold updateMessageWithAnalysis.
    rewrite DomainFacts.fold_AddReference_category.
    unfold UpdateCategory. simpl. now rewrite Hc. }
  rewrite Hcat.
  repeat split; [exact Hc | apply updateMessageWithAnalysis_references].
Qed.

(** *** The order of the calls *)

Lemma handlerTrace_ascending (r : option error) (evs : list Event) :
  handlerTrace r evs ->
  ascending (stage <$> evs) = true
  /\ Forall (fun e => 2 <= stage e) evs
  /\ count isGenerate evs <= 1 /\ count isStore evs <= 1
  /\ count isReply evs <= 1.
Proof.
  inversion 1; subst; cbn; repeat split; repeat constructor; lia.
Qed.

Lemma ascending_cons (a : nat) (l : list nat) :
  Forall (fun b => a < b) l -> ascending l = true ->
  ascending (a :: l) = true.
Proof.
  destruct l as [|b l]; [reflexivity | ].
  intros Hall Hasc. apply Forall_cons in Hall as [Hab _].
  change (Nat.ltb a b && ascending (b :: l) = true).
  rewrite Hasc, andb_true_r. now apply Nat.ltb_lt.
Qed.

Lemma stages_above (n : nat) (evs : list Event) :
  Forall (fun e => S n <= stage e) evs ->
  Forall (fun b => n < b) (stage <$> evs).
Proof.
  induction 1 as [|e evs He _ IH]; simpl; constructor; [lia | exact IH].
Qed.

Lemma routeTrace_stages (o : outcome) (evs : list Event) :
  routeTrace o evs ->
  ascending (stage <$> evs) = true
  /\ Forall (fun e => 2 <= stage e) evs
  /\ count isGenerate evs <= 1 /\ count isStore evs <= 1
  /\ count isReply evs <= 1.
Proof.
  inversion 1 as [ | r evs' Hh ]; subst;
    [cbn; repeat split; try constructor; lia
    | exact (handlerTrace_ascending r evs Hh)].
Qed.

Lemma no_analysis_above (evs : list Event) :
  Forall (fun e => 2 <= stage e) evs -> count isAnalyze evs = 0.
Proof.
  induction 1 as [|e evs He _ IH]; [reflexivity | ].
  destruct e; simpl in He; try lia; exact IH.
Qed.

Section Facts.
Context {W : Type}.
Context {ai : AiAgentProvider W} {docs : DocumentStoreProvider W}.
Context {chat : ChatAccessProvider W} {rt : Runtime W}.

(** The calls of one [ProcessMessage] come in the order analysis,
    detection of references, generation, store, reply, each of them at
    most once, and no call is made before the analysis. *)
Theorem pipeline_order (ctx : Ctx) (msg : option Message) (s : State W) :
  exists evs : list Event,
    log (snd (ProcessMessage ctx msg s)) = log s ++ evs
    /\ ascending (stage <$> evs) = true
    /\ (evs = [] \/ exists (c : string) (r : error + MessageAnalysisResult)
                           (rest : list Event),
           evs = CallAnalyzeMessage c r :: rest)
    /\ count isAnalyze evs <= 1 /\ count isDetect evs <= 1
    /\ count isGenerate evs <= 1 /\ count isStore evs <= 1
    /\ count isReply evs <= 1.
Proof.
  destruct (ServicesFacts.ProcessMessage_trace ctx msg s)
    as (evs & Hlog & Htr).
  exists evs. split; [exact Hlog | ].
  inversion Htr as [ | | | c c' a refs o evs' Hr | c a o evs' Hr ]; subst;
    try (cbn; repeat split; eauto; lia).
  - destruct (routeTrace_stages _ evs' Hr)
      as (Hasc & Hge & Hg & Hst & Hrp).
    assert (Hd : count isDetect evs' = 0)
      by exact (ServicesFacts.routeTrace_no_detect _ evs' Hr).
    assert (Ha : count isAnalyze evs' = 0)
      by exact (no_analysis_above evs' Hge).
    split.
    { change (ascending (0 :: 1 :: (stage <$> evs')) = true).
      apply ascending_cons.
      - constructor; [lia | ].
        eapply Forall_impl; [apply (stages_above 1 evs' Hge) | ].
        simpl. intros b Hb. lia.
      - apply ascending_cons; [apply (stages_above 1 evs' Hge) | exact Hasc]. }
    split; [right; eauto | ].
    change (count isAnalyze (CallAnalyzeMessage c (inr a)
                               :: CallDetectReferences c' (inr refs) :: evs'))
      with (S (count isAnalyze evs')).
    change (count isDetect (CallAnalyzeMessage c (inr a)
                              :: CallDetectReferences c' (inr refs) :: evs'))
      with (S (count isDetect evs')).
    change (count isGenerate (CallAnalyzeMessage c (inr a)
                                :: CallDetectReferences c' (inr refs) :: evs'))
      with (count isGenerate evs').
    change (count isStore (CallAnalyzeMessage c (inr a)
                             :: CallDetectReferences c' (inr refs) :: evs'))
      with (count isStore evs').
    change (count isReply (CallAnalyzeMessage c (inr a)
                             :: CallDetectReferences c' (inr refs) :: evs'))
      with (count isReply evs').
    repeat split; lia.
  - destruct (routeTrace_stages _ evs' Hr)
      as (Hasc & Hge & Hg & Hst & Hrp).
    assert (Hd : count isDetect evs' = 0)
      by exact (ServicesFacts.routeTrace_no_detect _ evs' Hr).
    assert (Ha : count isAnalyze evs' = 0)
      by exact (no_analysis_above evs' Hge).
    split.
    { change (ascending (0 :: (stage <$> evs')) = true).
      apply ascending_cons; [ | exact Hasc].
      eapply Forall_impl; [apply (stages_above 1 evs' Hge) | ].
      simpl. intros b Hb. lia. }
    split; [right; eauto | ].
    change (count isAnalyze (CallAnalyzeMessage c (inr a) :: evs'))
      with (S (count isAnalyze evs')).
    change (count isDetect (CallAnalyzeMessage c (inr a) :: evs'))
      with (count isDetect evs').
    change (count isGenerate (CallAnalyzeMessage c (inr a) :: evs'))
      with (count isGenerate evs').
    change (count isStore (CallAnalyzeMessage c (inr a) :: evs'))
      with (count isStore evs').
    change (count isReply (CallAnalyzeMessage c (inr a) :: evs'))
      with (count isReply evs').
    repeat split; lia.
Qed.

(** The routing returns, rather than panics on a nil handler, exactly when
    the type of the analysis is a valid message type; an analysis made by
    the constructor has such a type. *)
Theorem route_returns (ctx : Ctx) (msg : Message)
    (analysis : MessageAnalysisResult) (s : State W) :
  ((exists e : option error, fst (route ctx msg analysis s) = Returned e)
   <-> MessageType_IsValid (ar_messageType analysis) = true)
  /\ (MessageType_IsValid (ar_messageType analysis) = false ->
      route ctx msg analysis s = (Panicked "nil handler", s))
  /\ forall (t : MessageType) (c : Category)
            (refs : list (option Reference)) (conf : float)
            (tags : list string),
      NewMessageAnalysisResult t c refs conf tags = inr analysis ->
      exists e : option error, fst (route ctx msg analysis s) = Returned e.
Proof.
  assert (Hiff : (exists e : option error,
                     fst (route ctx msg analysis s) = Returned e)
                 <-> MessageType_IsValid (ar_messageType analysis) = true).
  { rewrite <- handlers_valid. unfold route.
    destruct (handlers !! ar_messageType analysis) as [h | ]; simpl.
    - split; [intros _; eauto | intros _].
      destruct (isSuggestionsHandler h); unfold bind, ret.
      + destruct (HandleWithAnalysis ctx msg analysis s) as [e s']. eauto.
      + destruct (Handle h ctx msg s) as [e s']. eauto.
    - split; [intros [e [=]] | intros [h [=]]]. }
  split; [exact Hiff | ]. split.
  - intros Hinv. unfold route.
    destruct (handlers !! ar_messageType analysis) as [h | ] eqn:Hh;
      [ | reflexivity].
    assert (Hv : MessageType_IsValid (ar_messageType analysis) = true)
      by (apply handlers_valid; eauto).
    congruence.
  - intros t c refs conf tags Ha.
    apply NewMessageAnalysisResult_inr in Ha as (-> & Ht & _).
    apply Hiff. exact Ht.
Qed.

(** What [Handle] does, case by case: nothing for the handler of the
    unknown type; for a handler that documents, the refusal of a nil
    context, a failed generation, a failed store, or the generation, the
    store and the reply, whose result is the result of the handler.  The
    metadata and the file name carry the type of the message itself. *)
Theorem handler_outcomes (h : handler) (ctx : Ctx) (msg : Message)
    (s : State W) :
  (h = unknownHandler /\ Handle h ctx msg s = (None, s))
  \/ (ctx = NilCtx
   /\ Handle h ctx msg s
      = (Some (Errorf (failureContext h)
                      (ErrorNew "context cannot be nil")), s))
  \/ (exists (md : Metadata) (err : error) (w : W),
         Handle h ctx msg s
         = (Some (Errorf (failureContext h)
                         (Errorf "failed to generate documentation" err)),
            MkState w (log s ++ [CallGenerateDocumentation
                                   (text (content msg)) md (inl err)])))
  \/ (exists (md : Metadata) (doc path : string) (err : error) (w : W),
         Handle h ctx msg s
         = (Some (Errorf (failureContext h)
                         (Errorf "failed to store documentation" err)),
            MkState w (log s ++ [CallGenerateDocumentation
                                   (text (content msg)) md (inr doc);
                                 CallStoreDocument path doc md (Some err)])))
  \/ (exists (created generated : Time) (doc : string) (r : option error)
             (w : W),
         let md := MkMetadata (messageType msg) (category msg) created
                              (references msg) in
         let path :=
           filepath_Join ["docs"; category msg;
                          messageType msg +:+ "-"
                            +:+ time_Format generated +:+ ".md"] in
         Handle h ctx msg s
         = (r, MkState w
                 (log s ++ [CallGenerateDocumentation (text (content msg))
                              md (inr doc);
                            CallStoreDocument path doc md None;
                            CallReplyToMessage (Common.String (id msg))
                              (replyWithReferences (replyTemplate h) msg)
                              r]))).
Proof.
  assert (Hcases : h = unknownHandler \/ h <> unknownHandler)
    by (destruct h; auto; right; discriminate).
  destruct Hcases as [-> | Hh]; [left; split; reflexivity | right].
  assert (Hrun : Handle h ctx msg s
                 = bind (createDocumentation ctx msg)
                     (fun e => match e with
                               | Some err =>
                                   ret (Some (Errorf (failureContext h) err))
                               | None =>
                                   sendReply msg
                                     (replyWithReferences (replyTemplate h)
                                                          msg)
                               end) s)
    by (destruct h; [reflexivity | reflexivity | reflexivity | congruence]).
  destruct (Handle h ctx msg s) as [e s'] eqn:Hrun'. symmetry in Hrun.
  apply ServicesFacts.documenting_handler in Hrun
    as [(err & -> & Hdoc) | (s1 & w & Hdoc & ->)].
  - inversion Hdoc as [ Hctx | md err' w | md doc path err' w | ]; subst.
    + left. split; reflexivity.
    + right. left. now exists md, err', w.
    + right. right. left. now exists md, doc, path, err', w.
  - inversion Hdoc as [ | | | created generated doc w1 ]; subst s1.
    right. right. right. exists created, generated, doc, e, w.
    cbv zeta. simpl. now rewrite <- app_assoc.
Qed.

(** [ProcessMessage] leaves the identifier, the thread, the sender, the
    content, the type and the time of the message as they are: the type of
    the analysis never becomes the type of the message.  The references
    the message had stay in front, what is added is no nil pointer, and the
    category stays or becomes a valid category. *)
Theorem ProcessMessage_identity (ctx : Ctx) (m : Message) (s : State W) :
  exists m' : Message,
    snd (fst (ProcessMessage ctx (Some m) s)) = Some m'
    /\ sameIdentity m m'
    /\ (exists extra : list (option Reference),
           references m' = references m ++ extra /\ Forall is_Some extra)
    /\ (category m' = category m \/ Category_IsValid (category m') = true).
Proof.
  assert (Hmerge : forall a : MessageAnalysisResult,
             let m1 := updateMessageWithAnalysis m a in
             sameIdentity m m1
             /\ (exists extra : list (option Reference),
                    references m1 = references m ++ extra
                    /\ Forall is_Some extra)
             /\ (category m1 = category m
                 \/ Category_IsValid (category m1) = true)).
  { intros a m1. split; [apply updateMessageWithAnalysis_identity | ]. split.
    - exists (nonNil (ar_references a)).
      split; [apply updateMessageWithAnalysis_references
             | apply nonNil_Forall].
    - subst m1. unfold updateMessageWithAnalysis.
      rewrite DomainFacts.fold_AddReference_category. unfold UpdateCategory.
      destruct (Category_IsValid (ar_category a)) eqn:Hc; simpl; auto. }
  destruct ctx; simpl.
  - exists m. split; [reflexivity | ]. split; [apply sameIdentity_refl | ].
    split; [ | now left]. exists []. now rewrite app_nil_r.
  - unfold analyzeMessage; unfold bind, call, ret.
    destruct (AnalyzeMessage (world s) (text (content m)))
      as [w1 [err | a]]; simpl.
    + exists m. split; [reflexivity | ]. split; [apply sameIdentity_refl | ].
      split; [ | now left]. exists []. now rewrite app_nil_r.
    + destruct (Hmerge a) as (Hid & (extra & Hrefs & Hextra) & Hcat).
      destruct (HasReferences (updateMessageWithAnalysis m a)); simpl.
      * match goal with
        | |- context [route ?c ?x ?y ?st] => destruct (route c x y st)
        end.
        simpl. exists (updateMessageWithAnalysis m a).
        split; [reflexivity | ]. split; [exact Hid | ].
        split; [now exists extra | exact Hcat].
      * unfold detectAndAddReferences; unfold bind, call, ret.
        match goal with
        | |- context [DetectReferences ?x ?y] =>
            destruct (DetectReferences x y) as [w2 [err | refs]]; simpl
        end.
        -- exists (updateMessageWithAnalysis m a).
           split; [reflexivity | ]. split; [exact Hid | ].
           split; [now exists extra | exact Hcat].
        -- match goal with
           | |- context [route ?c ?x ?y ?st] => destruct (route c x y st)
           end.
           simpl.
           exists (fold_left AddReference refs
                             (updateMessageWithAnalysis m a)).
           split; [reflexivity | ]. split.
           { eapply sameIdentity_trans;
               [exact Hid | apply fold_AddReference_identity]. }
           split.
           { exists (extra ++ nonNil refs).
             rewrite DomainFacts.fold_AddReference_references, Hrefs.
             split; [now rewrite app_assoc | ].
             apply Forall_app. split; [exact Hextra | apply nonNil_Forall]. }
           rewrite DomainFacts.fold_AddReference_category. exact Hcat.
Qed.

End Facts.
End PipelineFacts.

(** ** The thread map in use *)

Module CorrelatorFacts.
Import Domain Slack Threads Correlation.

Section Process.
Variable TrimSpace : string -> string.
Variable GetUserInfo : string -> error + string.
Variable MessageTypeInformation : MessageType.
Variable time_Now : nat -> Time.

Abbreviation step := (step TrimSpace GetUserInfo MessageTypeInformation time_Now).
Abbreviation exec := (exec TrimSpace GetUserInfo MessageTypeInformation time_Now).
Abbreviation sched_step :=
  (sched_step TrimSpace GetUserInfo MessageTypeInformation time_Now).
Abbreviation run := (run TrimSpace GetUserInfo MessageTypeInformation time_Now).
Abbreviation processMessageEvent :=
  (processMessageEvent TrimSpace GetUserInfo MessageTypeInformation time_Now).

Abbreviation accepted := (accepted GetUserInfo).

Ltac tick :=
  rewrite SlackFacts.exec_S;
  cbn [Slack.step writer readers threadMap issued messageCh
         Nat.pred Nat.ltb Nat.leb orb].

Lemma start_step (c : Client) (ev : MessageEvent) (name : string) :
  accepted ev name -> step c ev AtStart = Some (c, AtRLock name).
Proof.
  intros (Hbot & Huser & Hinfo). cbn [Slack.step]. rewrite Hbot, Hinfo.
  destruct (decide (User ev = "")); [contradiction | ].
  now destruct (decide ("" = "")).
Qed.

Lemma emit_step (c : Client) (ev : MessageEvent) (name : string)
    (tid : Common.ID) :
  exists (c' : Client) (r : result),
    step c ev (AtEmit name tid) = Some (c', Done r)
    /\ resolved (Done r) = Some tid
    /\ threadMap c' = threadMap c /\ readers c' = readers c
    /\ writer c' = writer c.
Proof.
  cbn [Slack.step].
  destruct (NewMessageContent TrimSpace (Text ev)) as [err | mc].
  - eexists _, _. split; [reflexivity | ]. now repeat split.
  - unfold NewMessage. destruct (decide (name = "")).
    + eexists _, _. split; [reflexivity | ]. now repeat split.
    + destruct (negb (MessageType_IsValid MessageTypeInformation)); simpl;
        eexists _, _; (split; [reflexivity | ]); now repeat split.
Qed.

(** A message in no thread, on a client whose lock is free. *)
Lemma root_path (c : Client) (ev : MessageEvent) (name : string) :
  accepted ev name -> ThreadTimestamp ev = "" ->
  writer c = false -> readers c = 0 ->
  exists (c' : Client) (r : result),
    processMessageEvent c ev = (c', Done r)
    /\ resolved (Done r) = Some (Common.MkID (Common.ulid (issued c)))
    /\ threadMap c'
       = <[Timestamp ev := Common.MkID (Common.ulid (issued c))]>
           (threadMap c)
    /\ readers c' = 0 /\ writer c' = false.
Proof.
  intros Hadm Hts Hw Hr.
  destruct c as [tm rd wr iss ch]. simpl in Hw, Hr. subst wr rd.
  assert (Hin : inThread ev = false)
    by (unfold inThread; now destruct (decide (ThreadTimestamp ev = ""))).
  unfold Slack.processMessageEvent.
  rewrite SlackFacts.exec_S, (start_step _ ev name Hadm).
  do 2 (tick; rewrite ?Hin).
  unfold Common.GenerateID. cbv beta iota zeta.
  do 4 (tick; rewrite ?Hin).
  rewrite SlackFacts.exec_S.
  match goal with
  | |- context [Slack.step _ _ _ _ ?c0 ev (AtEmit name ?t)] =>
      destruct (emit_step c0 ev name t) as (c' & r & -> & Hres & Hm & Hrd & Hwr)
  end.
  exists c', r. simpl in Hm, Hrd, Hwr. now repeat split.
Qed.

(** A reply whose parent is in the map: the read lock is taken and kept. *)
Lemma found_path (c : Client) (ev : MessageEvent) (name : string)
    (tid : Common.ID) :
  accepted ev name -> ThreadTimestamp ev <> "" ->
  threadMap c !! ThreadTimestamp ev = Some tid ->
  writer c = false ->
  exists (c' : Client) (r : result),
    processMessageEvent c ev = (c', Done r)
    /\ resolved (Done r) = Some tid
    /\ threadMap c' = threadMap c
    /\ readers c' = S (readers c) /\ writer c' = false.
Proof.
  intros Hadm Hts Hmap Hw.
  destruct c as [tm rd wr iss ch]. simpl in Hmap, Hw. subst wr.
  assert (Hin : inThread ev = true)
    by (unfold inThread; now destruct (decide (ThreadTimestamp ev = ""))).
  unfold Slack.processMessageEvent.
  rewrite SlackFacts.exec_S, (start_step _ ev name Hadm).
  do 2 (tick; rewrite ?Hin, ?Hmap).
  rewrite SlackFacts.exec_S.
  match goal with
  | |- context [Slack.step _ _ _ _ ?c0 ev (AtEmit name ?t)] =>
      destruct (emit_step c0 ev name t) as (c' & r & -> & Hres & Hm & Hrd & Hwr)
  end.
  exists c', r. simpl in Hm, Hrd, Hwr.
  split; [reflexivity | now repeat split].
Qed.

(** An event that needs the write lock while a read lock is held. *)
Lemma blocked_path (c : Client) (ev : MessageEvent) (name : string) :
  accepted ev name ->
  ThreadTimestamp ev = "" \/ threadMap c !! ThreadTimestamp ev = None ->
  writer c = false -> 0 < readers c ->
  processMessageEvent c ev
  = (MkClient (threadMap c) (readers c) false (S (issued c)) (messageCh c),
     AtLock name (Common.MkID (Common.ulid (issued c)))).
Proof.
  intros Hadm Hnew Hw Hr.
  destruct c as [tm rd wr iss ch]. simpl in Hnew, Hw, Hr. subst wr.
  destruct rd as [|rd]; [lia | ].
  unfold Slack.processMessageEvent.
  rewrite SlackFacts.exec_S, (start_step _ ev name Hadm).
  tick. tick.
  assert (Hlookup :
            (if inThread ev
             then match tm !! ThreadTimestamp ev with
                  | Some tid =>
                      Some (MkClient tm (S (S rd)) false iss ch,
                            AtEmit name tid)
                  | None =>
                      let '(tid, n) := Common.GenerateID iss in
                      Some (MkClient tm (S (S rd)) false n ch,
                            AtRUnlock name tid)
                  end
             else let '(tid, n) := Common.GenerateID iss in
                  Some (MkClient tm (S (S rd)) false n ch,
                        AtRUnlock name tid))
            = Some (MkClient tm (S (S rd)) false (S iss) ch,
                    AtRUnlock name (Common.MkID (Common.ulid iss)))).
  { unfold inThread.
    destruct (decide (ThreadTimestamp ev = "")) as [Hroot | Hreply];
      [reflexivity | ].
    destruct Hnew as [Hroot | Hnone]; [contradiction | ].
    now rewrite Hnone. }
  rewrite Hlookup. tick. tick. reflexivity.
Qed.

(** The steps of a call on a client whose lock is free: no step waits for
    the lock. *)
Lemma lock_free_call (c : Client) (ev : MessageEvent) :
  lockFree c ->
  exists (c' : Client) (r : result),
    processMessageEvent c ev = (c', Done r)
    /\ writer c' = false
    /\ (readers c' = 0
        \/ (readers c' = 1
            /\ exists tid : Common.ID,
                ThreadTimestamp ev <> ""
                /\ threadMap c !! ThreadTimestamp ev = Some tid
                /\ resolved (Done r) = Some tid)).
Proof.
  intros [Hw Hr].
  destruct (decide (BotID ev = "")) as [Hbot | Hbot].
  2: { exists c, Skipped. unfold Slack.processMessageEvent.
       rewrite SlackFacts.exec_S. cbn [Slack.step].
       destruct (decide (BotID ev = "")); [contradiction | ].
       split; [reflexivity | auto]. }
  destruct (decide (User ev = "")) as [Huser | Huser].
  { exists c, Skipped. unfold Slack.processMessageEvent.
    rewrite SlackFacts.exec_S. cbn [Slack.step].
    destruct (decide (BotID ev = "")); [ | contradiction].
    destruct (decide (User ev = "")); [ | contradiction].
    split; [reflexivity | auto]. }
  destruct (GetUserInfo (User ev)) as [err | name] eqn:Hinfo.
  { exists c, (UserInfoFailed err). unfold Slack.processMessageEvent.
    rewrite SlackFacts.exec_S. cbn [Slack.step].
    destruct (decide (BotID ev = "")); [ | contradiction].
    destruct (decide (User ev = "")); [contradiction | ].
    rewrite Hinfo. split; [reflexivity | auto]. }
  assert (Hacc : accepted ev name) by (repeat split; assumption).
  destruct (decide (ThreadTimestamp ev = "")) as [Hroot | Hreply].
  - destruct (root_path c ev name Hacc Hroot Hw Hr)
      as (c' & r & Hrun & _ & _ & Hrd & Hwr).
    exists c', r. auto.
  - destruct (threadMap c !! ThreadTimestamp ev) as [tid | ] eqn:Hmap.
    + destruct (found_path c ev name tid Hacc Hreply Hmap Hw)
        as (c' & r & Hrun & Hres & _ & Hrd & Hwr).
      exists c', r. split; [exact Hrun | ]. split; [exact Hwr | ].
      right. split; [lia | ]. now exists tid.
    + destruct Hacc as (Hb & Hu & Hi). eexists _, _.
      split; [apply (SlackFacts.orphan_reply_dropped _ _ _ _ c ev name);
              assumption | ].
      simpl. auto.
Qed.

(** A message is sent in the last step of a call only. *)
Lemma step_sends (c c' : Client) (ev : MessageEvent) (p p' : pc) :
  step c ev p = Some (c', p') ->
  messageCh c' = messageCh c
  \/ exists (m : Message) (r : result),
      messageCh c' = messageCh c ++ [m] /\ p' = Done r.
Proof.
  destruct p; cbn [Slack.step]; intros H.
  - repeat match type of H with
      | context [match ?x with _ => _ end] => destruct x
      end; inversion H; subst; now left.
  - destruct (writer c); inversion H; subst. now left.
  - unfold Common.GenerateID in H.
    destruct (inThread ev);
      [destruct (threadMap c !! ThreadTimestamp ev) | ];
      inversion H; subst; now left.
  - inversion H; subst. now left.
  - destruct (writer c || (0 <? readers c)%nat); inversion H; subst.
    now left.
  - inversion H; subst. now left.
  - destruct (inThread ev); inversion H; subst; now left.
  - destruct (NewMessageContent TrimSpace (Text ev)) as [err | mc].
    + inversion H; subst. now left.
    + unfold NewMessage, Common.GenerateID in H.
      destruct (decide (name = "")).
      * inversion H; subst. now left.
      * destruct (negb (MessageType_IsValid MessageTypeInformation));
          simpl in H; inversion H; subst; [now left | right; eauto].
  - discriminate H.
Qed.

Lemma exec_sends (fuel : nat) :
  forall (c : Client) (ev : MessageEvent) (p : pc),
    length (messageCh (fst (exec fuel c ev p)))
    <= S (length (messageCh c)).
Proof.
  induction fuel as [|fuel IH]; intros c ev p; [simpl; lia | ].
  rewrite SlackFacts.exec_S.
  destruct (step c ev p) as [[c' p'] | ] eqn:Hstep; [ | simpl; lia].
  apply step_sends in Hstep as [Hsame | (m & r & Hsent & ->)].
  - rewrite <- Hsame. apply IH.
  - destruct fuel; simpl; rewrite Hsent, length_app; simpl; lia.
Qed.

(** On a client whose lock is free and whose channel has room for one
    message more, a call of [processMessageEvent] comes to its end, and the
    channel holds no more than its capacity.  The call leaves the lock
    free, unless the event is a reply whose parent is in the map: then the
    event is resolved to the identifier of the parent and one read lock
    stays held. *)
Theorem free_lock_returns (c : Client) (ev : MessageEvent) :
  lockFree c ->
  length (messageCh c) < EventLoop.channelCapacity ->
  exists (c' : Client) (r : result),
    processMessageEvent c ev = (c', Done r)
    /\ length (messageCh c') <= EventLoop.channelCapacity
    /\ writer c' = false
    /\ (readers c' = 0
        \/ (readers c' = 1
            /\ exists tid : Common.ID,
                ThreadTimestamp ev <> ""
                /\ threadMap c !! ThreadTimestamp ev = Some tid
                /\ resolved (Done r) = Some tid)).
Proof.
  intros Hfree Hroom.
  destruct (lock_free_call c ev Hfree) as (c' & r & Hrun & Hlock).
  exists c', r. split; [exact Hrun | ]. split; [ | exact Hlock].
  pose proof (exec_sends 8 c ev AtStart) as Hsent.
  fold (processMessageEvent c ev) in Hsent. rewrite Hrun in Hsent.
  simpl in Hsent. lia.
Qed.

(** The first message of a thread and then a reply to it, one call after
    the other on a client whose lock is free: both are resolved to the same
    ThreadId, the one generated for the first message. *)
Theorem root_then_reply (c : Client) (root reply : MessageEvent)
    (name name' : string) :
  lockFree c ->
  accepted root name -> accepted reply name' ->
  ThreadTimestamp root = "" -> Timestamp root <> "" ->
  ThreadTimestamp reply = Timestamp root ->
  let first := processMessageEvent c root in
  let second := processMessageEvent (fst first) reply in
  resolved (snd first) = Some (Common.MkID (Common.ulid (issued c)))
  /\ resolved (snd second) = Some (Common.MkID (Common.ulid (issued c)))
  /\ threadMap (fst second) !! Timestamp root
     = Some (Common.MkID (Common.ulid (issued c))).
Proof.
  intros [Hw Hr] Hroot Hreply Hts Hne Hparent first second.
  destruct (root_path c root name Hroot Hts Hw Hr)
    as (c1 & r1 & Hrun1 & Hres1 & Hmap1 & Hrd1 & Hwr1).
  subst first second. rewrite Hrun1. simpl fst. simpl snd.
  assert (Hfound : threadMap c1 !! ThreadTimestamp reply
                   = Some (Common.MkID (Common.ulid (issued c))))
    by (rewrite Hparent, Hmap1; apply lookup_insert_eq).
  destruct (found_path c1 reply name' _ Hreply
              ltac:(rewrite Hparent; exact Hne) Hfound Hwr1)
    as (c2 & r2 & Hrun2 & Hres2 & Hmap2 & _ & _).
  rewrite Hrun2. simpl fst. simpl snd.
  split; [exact Hres1 | ]. split; [exact Hres2 | ].
  rewrite Hmap2, <- Hparent. exact Hfound.
Qed.

(** After a reply whose parent is in the map, one read lock stays held;
    the next call for a message in no thread, or for a reply whose parent
    is not in the map, then stops at [threadLock.Lock()], which is not
    granted: the event is not resolved and the map and the channel stay as
    they are. *)
Theorem read_lock_leaks (c : Client) (reply next : MessageEvent)
    (name name' : string) (tid : Common.ID) :
  lockFree c ->
  accepted reply name -> ThreadTimestamp reply <> "" ->
  threadMap c !! ThreadTimestamp reply = Some tid ->
  accepted next name' ->
  ThreadTimestamp next = "" \/ threadMap c !! ThreadTimestamp next = None ->
  let c1 := fst (processMessageEvent c reply) in
  let blocked := processMessageEvent c1 next in
  readers c1 = 1
  /\ (exists tid' : Common.ID, snd blocked = AtLock name' tid')
  /\ step (fst blocked) next (snd blocked) = None
  /\ resolved (snd blocked) = None
  /\ threadMap (fst blocked) = threadMap c
  /\ messageCh (fst blocked) = messageCh c1.
Proof.
  intros [Hw Hr] Hreply Hts Hmap Hnext Hnew c1 blocked.
  destruct (found_path c reply name tid Hreply Hts Hmap Hw)
    as (c' & r & Hrun & _ & Hmap' & Hrd & Hwr).
  subst blocked c1. rewrite Hrun. simpl fst.
  rewrite (blocked_path c' next name' Hnext
             ltac:(rewrite Hmap'; exact Hnew) Hwr ltac:(lia)).
  simpl fst. simpl snd.
  split; [lia | ]. split; [eauto | ].
  split; [cbn [Slack.step writer readers]; rewrite Hrd, Hr; reflexivity | ].
  split; [reflexivity | ]. split; [exact Hmap' | reflexivity].
Qed.

(** *** What no step undoes *)

Lemma extends_refl (c : Client) : extends c c.
Proof.
  split; [auto | split; [exists []; now rewrite app_nil_r | lia]].
Qed.

Lemma extends_trans (c1 c2 c3 : Client) :
  extends c1 c2 -> extends c2 c3 -> extends c1 c3.
Proof.
  intros (Hk & (m & Hm) & Hi) (Hk' & (m' & Hm') & Hi').
  split; [auto | ]. split; [ | lia].
  exists (m ++ m'). now rewrite Hm', Hm, app_assoc.
Qed.

Lemma step_extends (c c' : Client) (ev : MessageEvent) (p p' : pc) :
  step c ev p = Some (c', p') -> extends c c'.
Proof.
  assert (Hsame : forall (rd : nat) (wr : bool) (n : nat),
             issued c <= n ->
             extends c (MkClient (threadMap c) rd wr n (messageCh c))).
  { intros rd wr n Hn.
    split; [auto | split; [exists []; simpl; now rewrite app_nil_r | exact Hn]]. }
  destruct p; cbn [Slack.step]; intros H.
  - repeat match type of H with
      | context [match ?x with _ => _ end] => destruct x
      end; inversion H; subst; apply extends_refl.
  - destruct (writer c); inversion H; subst. apply Hsame. lia.
  - unfold Common.GenerateID in H.
    destruct (inThread ev);
      [destruct (threadMap c !! ThreadTimestamp ev) | ];
      inversion H; subst; try apply extends_refl; apply Hsame; lia.
  - inversion H; subst. apply Hsame. lia.
  - destruct (writer c || (0 <? readers c)%nat); inversion H; subst.
    apply Hsame. lia.
  - inversion H; subst. split; [ | split].
    + intros key Hkey. simpl.
      destruct (decide ((if inThread ev then ThreadTimestamp ev
                         else Timestamp ev) = key)) as [<- | Hne].
      * rewrite lookup_insert_eq. eauto.
      * now rewrite lookup_insert_ne.
    + exists []. simpl. now rewrite app_nil_r.
    + simpl. lia.
  - destruct (inThread ev); inversion H; subst; apply Hsame; lia.
  - destruct (NewMessageContent TrimSpace (Text ev)) as [err | mc].
    + inversion H; subst. apply extends_refl.
    + unfold NewMessage, Common.GenerateID in H.
      destruct (decide (name = "")).
      * inversion H; subst. apply Hsame. lia.
      * destruct (negb (MessageType_IsValid MessageTypeInformation));
          simpl in H; inversion H; subst; [apply Hsame; lia | ].
        split; [auto | split; [eexists; reflexivity | simpl; lia]].
  - discriminate H.
Qed.

Lemma sched_step_extends (s : System) (i : nat) :
  extends (client s) (client (sched_step s i)).
Proof.
  unfold Slack.sched_step.
  destruct (goroutines s !! i) as [[ev p] | ]; [ | apply extends_refl].
  destruct (step (client s) ev p) as [[c' p'] | ] eqn:Hstep;
    [ | apply extends_refl].
  exact (step_extends _ _ _ _ _ Hstep).
Qed.

(** Under any schedule the map loses no marker, the channel loses no
    message and the count of identifiers does not go down: nothing is ever
    taken out of the thread map. *)
Theorem client_grows (schedule : list nat) :
  forall s : System, extends (client s) (client (run schedule s)).
Proof.
  induction schedule as [|i schedule IH]; intros s; [apply extends_refl | ].
  simpl. eapply extends_trans; [apply (sched_step_extends s i) | apply IH].
Qed.

(** *** The legacy type *)

Lemma step_silent (c c' : Client) (ev : MessageEvent) (p p' : pc) :
  MessageType_IsValid MessageTypeInformation = false ->
  step c ev p = Some (c', p') -> messageCh c' = messageCh c.
Proof.
  intros Hinv. destruct p; cbn [Slack.step]; intros H.
  - repeat match type of H with
      | context [match ?x with _ => _ end] => destruct x
      end; inversion H; subst; reflexivity.
  - destruct (writer c); inversion H; subst. reflexivity.
  - unfold Common.GenerateID in H.
    destruct (inThread ev);
      [destruct (threadMap c !! ThreadTimestamp ev) | ];
      inversion H; subst; reflexivity.
  - inversion H; subst. reflexivity.
  - destruct (writer c || (0 <? readers c)%nat); inversion H; subst.
    reflexivity.
  - inversion H; subst. reflexivity.
  - destruct (inThread ev); inversion H; subst; reflexivity.
  - destruct (NewMessageContent TrimSpace (Text ev)) as [err | mc].
    + inversion H; subst. reflexivity.
    + unfold NewMessage in H. rewrite Hinv in H.
      destruct (decide (name = "")); simpl in H; inversion H; subst;
        reflexivity.
  - discriminate H.
Qed.

(** When the legacy type given to [NewMessage] is no valid message type,
    no message ever reaches the channel, whatever the events and the
    schedule are. *)
Theorem legacy_type_silences (schedule : list nat) (s : System) :
  MessageType_IsValid MessageTypeInformation = false ->
  messageCh (client (run schedule s)) = messageCh (client s).
Proof.
  intros Hinv. revert s.
  induction schedule as [|i schedule IH]; intros s; [reflexivity | ].
  simpl. rewrite IH. unfold Slack.sched_step.
  destruct (goroutines s !! i) as [[ev p] | ]; [ | reflexivity].
  destruct (step (client s) ev p) as [[c' p'] | ] eqn:Hstep; [ | reflexivity].
  exact (step_silent _ _ _ _ _ Hinv Hstep).
Qed.

(** *** The race between a message and a reply to it *)

Lemma run_cons (i : nat) (schedule : list nat) (s : System) :
  run (i :: schedule) s = run schedule (sched_step s i).
Proof. reflexivity. Qed.



(** *** What reaches the channel *)

Lemma content_bounds (input : string) (mc : MessageContent) :
  NewMessageContent TrimSpace input = inr mc ->
  1 <= String.length (text mc) <= MaxContentLength.
Proof.
  unfold NewMessageContent.
  destruct (decide (TrimSpace input = "")) as [ | Hne]; [discriminate | ].
  intros [= <-]. cbn [text].
  apply DomainFacts.length_nonempty in Hne.
  assert (Hcap : 1 <= MaxContentLength)
    by (apply Nat.leb_le; vm_compute; reflexivity).
  generalize dependent MaxContentLength. intros cap Hcap.
  destruct (Nat.ltb cap (String.length (TrimSpace input))) eqn:Hlen.
  - rewrite DomainFacts.substring_length. apply Nat.ltb_lt in Hlen. lia.
  - apply Nat.ltb_ge in Hlen. lia.
Qed.

Lemma step_channel (c c' : Client) (ev : MessageEvent) (p p' : pc) :
  step c ev p = Some (c', p') ->
  exists more : list Message,
    messageCh c' = messageCh c ++ more
    /\ Forall (fun m : Message =>
                 messageType m = MessageTypeInformation
                 /\ MessageType_IsValid (messageType m) = true
                 /\ category m = CategoryOther /\ references m = []
                 /\ sender m <> ""
                 /\ 1 <= String.length (text (content m)) <= MaxContentLength)
              more.
Proof.
  assert (Hnone : forall ch : list Message,
             exists more : list Message,
               ch = ch ++ more
               /\ Forall (fun m : Message =>
                            messageType m = MessageTypeInformation
                            /\ MessageType_IsValid (messageType m) = true
                            /\ category m = CategoryOther
                            /\ references m = []
                            /\ sender m <> ""
                            /\ 1 <= String.length (text (content m))
                               <= MaxContentLength) more)
    by (intros ch; exists []; split; [now rewrite app_nil_r | constructor]).
  destruct p; cbn [Slack.step]; intros H.
  - repeat match type of H with
      | context [match ?x with _ => _ end] => destruct x
      end; inversion H; subst; apply Hnone.
  - destruct (writer c); inversion H; subst. apply Hnone.
  - unfold Common.GenerateID in H.
    destruct (inThread ev);
      [destruct (threadMap c !! ThreadTimestamp ev) | ];
      inversion H; subst; apply Hnone.
  - inversion H; subst. apply Hnone.
  - destruct (writer c || (0 <? readers c)%nat); inversion H; subst.
    apply Hnone.
  - inversion H; subst. apply Hnone.
  - destruct (inThread ev); inversion H; subst; apply Hnone.
  - destruct (NewMessageContent TrimSpace (Text ev)) as [err | mc] eqn:Hmc.
    + inversion H; subst. apply Hnone.
    + apply content_bounds in Hmc. unfold NewMessage, Common.GenerateID in H.
      destruct (decide (name = "")) as [ | Hname].
      * inversion H; subst. apply Hnone.
      * destruct (MessageType_IsValid MessageTypeInformation) eqn:Hvalid;
          simpl in H; inversion H; subst; [ | apply Hnone].
        eexists. split; [reflexivity | ].
        constructor; [ | constructor]. cbn [messageType category references
                                             sender content].
        repeat split; try assumption; apply Hmc.
  - discriminate H.
Qed.

(** Under any schedule, every message that the goroutines put on the
    channel has the legacy type, which is then a valid type, the category
    other, no references, a sender that is not empty and a content of 1 to
    10000 bytes. *)
Theorem emitted_wellformed (schedule : list nat) :
  forall s : System,
    Forall (fun m : Message =>
              messageType m = MessageTypeInformation
              /\ MessageType_IsValid (messageType m) = true
              /\ category m = CategoryOther /\ references m = []
              /\ sender m <> ""
              /\ 1 <= String.length (text (content m)) <= MaxContentLength)
           (emitted (client s) (client (run schedule s))).
Proof.
  assert (Hrun : forall s : System,
             exists more : list Message,
               messageCh (client (run schedule s))
               = messageCh (client s) ++ more
               /\ Forall (fun m : Message =>
                            messageType m = MessageTypeInformation
                            /\ MessageType_IsValid (messageType m) = true
                            /\ category m = CategoryOther
                            /\ references m = []
                            /\ sender m <> ""
                            /\ 1 <= String.length (text (content m))
                               <= MaxContentLength) more).
  { induction schedule as [|i schedule IH]; intros s.
    - exists []. split; [simpl; now rewrite app_nil_r | constructor].
    - rewrite run_cons. destruct (IH (sched_step s i)) as (more & Hch & Hall).
      assert (Hone : exists one : list Message,
                 messageCh (client (sched_step s i))
                 = messageCh (client s) ++ one
                 /\ Forall (fun m : Message =>
                              messageType m = MessageTypeInformation
                              /\ MessageType_IsValid (messageType m) = true
                              /\ category m = CategoryOther
                              /\ references m = []
                              /\ sender m <> ""
                              /\ 1 <= String.length (text (content m))
                                 <= MaxContentLength) one).
      { unfold Slack.sched_step.
        destruct (goroutines s !! i) as [[ev p] | ];
          [ | exists []; split; [now rewrite app_nil_r | constructor]].
        destruct (step (client s) ev p) as [[c' p'] | ] eqn:Hstep;
          [ | exists []; split; [now rewrite app_nil_r | constructor]].
        exact (step_channel _ _ _ _ _ Hstep). }
      destruct Hone as (one & Hch1 & Hall1).
      exists (one ++ more). split.
      + now rewrite Hch, Hch1, app_assoc.
      + apply Forall_app. now split. }
  intros s. destruct (Hrun s) as (more & Hch & Hall).
  unfold emitted. rewrite Hch, drop_app_length. exact Hall.
Qed.

End Process.
End CorrelatorFacts.

(** ** The event loop *)

Module EventLoopFacts.
Import Domain Slack Threads Correlation EventLoop.

Section Process.
Variable TrimSpace : string -> string.
Variable GetUserInfo : string -> error + string.
Variable MessageTypeInformation : MessageType.
Variable time_Now : nat -> Time.

Abbreviation step := (step TrimSpace GetUserInfo MessageTypeInformation time_Now).
Abbreviation processMessageEvent :=
  (processMessageEvent TrimSpace GetUserInfo MessageTypeInformation time_Now).
Abbreviation handleEvents :=
  (handleEvents TrimSpace GetUserInfo MessageTypeInformation time_Now).
Abbreviation accepted := (accepted GetUserInfo).

(** The last step of a call: at most one message more on the channel, and
    no identifier taken back. *)
Lemma emit_bounds (c c' : Client) (ev : MessageEvent) (name : string)
    (tid : Common.ID) (p' : pc) :
  step c ev (AtEmit name tid) = Some (c', p') ->
  issued c <= issued c'
  /\ length (messageCh c') <= S (length (messageCh c)).
Proof.
  cbn [Slack.step].
  destruct (NewMessageContent TrimSpace (Text ev)) as [err | mc].
  - intros [= <- _]. lia.
  - unfold NewMessage, Common.GenerateID.
    destruct (decide (name = "")); [intros [= <- _]; simpl; lia | ].
    destruct (negb (MessageType_IsValid MessageTypeInformation)); simpl;
      intros [= <- _]; simpl; [lia | ].
    rewrite length_app. simpl. lia.
Qed.

(** One call for a message in no thread, on a client whose lock is free:
    the call returns, the event is resolved to the identifier generated in
    the call, its timestamp is in the map under that identifier, and the
    lock is free again. *)
Lemma root_call (c : Client) (ev : MessageEvent) (name : string) :
  lockFree c -> accepted ev name -> ThreadTimestamp ev = "" ->
  exists (c' : Client) (r : result),
    processMessageEvent c ev = (c', Done r)
    /\ resolved (Done r) = Some (Common.MkID (Common.ulid (issued c)))
    /\ threadMap c'
       = <[Timestamp ev := Common.MkID (Common.ulid (issued c))]>
           (threadMap c)
    /\ lockFree c'
    /\ issued c < issued c'
    /\ length (messageCh c') <= S (length (messageCh c)).
Proof.
  intros [Hw Hr] Hacc Hts.
  destruct (CorrelatorFacts.root_path TrimSpace GetUserInfo
              MessageTypeInformation time_Now c ev name Hacc Hts Hw Hr)
    as (c' & r & Hrun & Hres & Hmap & Hrd & Hwr).
  exists c', r. split; [exact Hrun | ]. split; [exact Hres | ].
  split; [exact Hmap | ]. split; [now split | ].
  destruct c as [tm rd wr iss ch]. simpl in Hw, Hr. subst wr rd.
  assert (Hin : inThread ev = false)
    by (unfold inThread; now destruct (decide (ThreadTimestamp ev = ""))).
  revert Hrun. unfold Slack.processMessageEvent.
  rewrite SlackFacts.exec_S,
    (CorrelatorFacts.start_step TrimSpace GetUserInfo MessageTypeInformation
       time_Now _ ev name Hacc).
  do 6 (rewrite SlackFacts.exec_S;
        cbn [Slack.step writer readers threadMap issued messageCh
               Nat.pred Nat.ltb Nat.leb orb];
        rewrite ?Hin; unfold Common.GenerateID; cbv beta iota zeta).
  rewrite SlackFacts.exec_S.
  match goal with
  | |- context [Slack.step _ _ _ _ ?c0 ev (AtEmit name ?t)] =>
      destruct (Slack.step TrimSpace GetUserInfo MessageTypeInformation
                           time_Now c0 ev (AtEmit name t))
        as [[c1 p1] | ] eqn:Hstep
  end.
  - apply emit_bounds in Hstep as [Hi Hm]. simpl in Hi, Hm.
    simpl. intros [= <- _]. simpl. lia.
  - intros [= <- _].
Qed.

(** The calls of the loop for messages in no thread, with the number of
    the identifier that each call has generated. *)
Lemma roots_sequence (events : list MessageEvent) :
  forall c : Client,
    lockFree c ->
    Forall (fun ev : MessageEvent =>
              ThreadTimestamp ev = ""
              /\ exists name : string, accepted ev name) events ->
    exists (c' : Client) (results : list result) (ids : list nat),
      handleEvents c events = (c', Done <$> results)
      /\ resolved <$> (Done <$> results)
         = (fun k : nat => Some (Common.MkID (Common.ulid k))) <$> ids
      /\ length ids = length events
      /\ lockFree c'
      /\ length (messageCh c') <= length (messageCh c) + length events
      /\ issued c <= issued c'
      /\ Forall (fun k : nat => issued c <= k < issued c') ids
      /\ NoDup ids
      /\ (forall key : string,
             (forall ev : MessageEvent,
                 ev ∈ events -> Timestamp ev <> key) ->
             threadMap c' !! key = threadMap c !! key)
      /\ (forall (i : nat) (ev : MessageEvent) (k : nat),
             events !! i = Some ev -> ids !! i = Some k ->
             (forall (j : nat) (ev' : MessageEvent),
                 i < j -> events !! j = Some ev' ->
                 Timestamp ev' <> Timestamp ev) ->
             threadMap c' !! Timestamp ev
             = Some (Common.MkID (Common.ulid k))).
Proof.
  induction events as [|ev events IH]; intros c Hfree Hroots.
  - exists c, [], []. simpl.
    split; [reflexivity | ]. split; [reflexivity | ].
    split; [reflexivity | ]. split; [exact Hfree | ].
    split; [lia | ]. split; [lia | ].
    split; [constructor | ]. split; [constructor | ].
    split; [reflexivity | ].
    intros i ev k Hev. now rewrite lookup_nil in Hev.
  - apply Forall_cons in Hroots as [(Hts & name & Hacc) Hroots].
    destruct (root_call c ev name Hfree Hacc Hts)
      as (c1 & r & Hrun & Hres & Hmap & Hfree1 & Hissued & Hch).
    destruct (IH c1 Hfree1 Hroots)
      as (c' & results & ids & Hloop & Hresolved & Hlen & Hfree' & Hch'
          & Hissued' & Hids & Hnodup & Hframe & Hreg).
    exists c', (r :: results), (issued c :: ids).
    split; [simpl; now rewrite Hrun, Hloop | ].
    split; [rewrite !fmap_cons, Hres, Hresolved; reflexivity | ].
    split; [simpl; now rewrite Hlen | ].
    split; [exact Hfree' | ].
    split; [simpl; lia | ].
    split; [lia | ].
    split.
    { constructor; [lia | ].
      eapply Forall_impl; [exact Hids | ]. simpl. intros k Hk. lia. }
    split.
    { constructor; [ | exact Hnodup].
      intros Hin. rewrite Forall_forall in Hids.
      specialize (Hids _ Hin). lia. }
    split.
    { intros key Hkey. rewrite Hframe, Hmap.
      - apply lookup_insert_ne. apply Hkey. left.
      - intros ev' Hev'. apply Hkey. now right. }
    intros [|i] ev0 k Hev0 Hk Hlater; simpl in Hev0, Hk.
    + injection Hev0 as <-. injection Hk as <-.
      rewrite Hframe, Hmap; [apply lookup_insert_eq | ].
      intros ev' Hev'. apply list_elem_of_lookup_1 in Hev' as [j Hj].
      apply (Hlater (S j) ev'); [lia | exact Hj].
    + apply (Hreg i ev0 k Hev0 Hk).
      intros j ev' Hij Hj. apply (Hlater (S j) ev'); [lia | exact Hj].
Qed.

(** C1, as the code has it.  The loop hands messages that are in no thread
    to [processMessageEvent] one after the other, on a client whose lock is
    free and whose channel has room for them.  Every call returns and has
    resolved its event to a ThreadId that the call itself has generated;
    no two of the events are resolved to the same ThreadId, be their
    timestamps different or equal; and the timestamp of an event is in the
    map under the ThreadId of that event, unless a later event has the
    same timestamp and has registered it again.  The generator is taken to
    give a new identifier at each of these calls, none of which overlaps
    another. *)
Theorem roots_resolve_fresh (c : Client) (events : list MessageEvent) :
  lockFree c ->
  Forall (fun ev : MessageEvent =>
            ThreadTimestamp ev = ""
            /\ exists name : string, accepted ev name) events ->
  length (messageCh c) + length events <= channelCapacity ->
  exists (c' : Client) (results : list result) (tids : list Common.ID),
    handleEvents c events = (c', Done <$> results)
    /\ resolved <$> (Done <$> results) = Some <$> tids
    /\ length tids = length events
    /\ NoDup tids
    /\ Forall (fun tid : Common.ID =>
                 exists k : nat,
                   issued c <= k < issued c'
                   /\ tid = Common.MkID (Common.ulid k)) tids
    /\ (forall (i : nat) (ev : MessageEvent) (tid : Common.ID),
           events !! i = Some ev -> tids !! i = Some tid ->
           (forall (j : nat) (ev' : MessageEvent),
               i < j -> events !! j = Some ev' ->
               Timestamp ev' <> Timestamp ev) ->
           threadMap c' !! Timestamp ev = Some tid)
    /\ lockFree c'
    /\ length (messageCh c') <= channelCapacity.
Proof.
  intros Hfree Hroots Hroom.
  destruct (roots_sequence events c Hfree Hroots)
    as (c' & results & ids & Hloop & Hresolved & Hlen & Hfree' & Hch
        & _ & Hids & Hnodup & _ & Hreg).
  exists c', results,
         ((fun k : nat => Common.MkID (Common.ulid k)) <$> ids).
  split; [exact Hloop | ].
  split; [rewrite Hresolved, <- list_fmap_compose; reflexivity | ].
  split; [now rewrite length_fmap | ].
  split.
  { apply NoDup_fmap_2_strong; [ | exact Hnodup].
    intros k k' _ _ [= Hk]. now apply SlackFacts.ulid_inj. }
  split.
  { apply Forall_fmap. eapply Forall_impl; [exact Hids | ].
    simpl. intros k Hk. now exists k. }
  split.
  { intros i ev tid Hev Htid Hlater.
    rewrite list_lookup_fmap in Htid.
    destruct (ids !! i) as [k | ] eqn:Hk; [ | discriminate].
    injection Htid as <-. exact (Hreg i ev k Hev Hk Hlater). }
  split; [exact Hfree' | lia].
Qed.

End Process.
End EventLoopFacts.

(** ** The other value objects *)

Module ValuesFacts.
Import Domain Library Values.

Lemma ReferenceType_IsValid_iff (rt : ReferenceType) :
  ReferenceType_IsValid rt = true <->
  rt ∈ [ReferenceTypeMessage; ReferenceTypeDocument; ReferenceTypeUnknown].
Proof.
  unfold ReferenceType_IsValid, validReferenceTypes.
  rewrite !lookup_insert, lookup_empty.
  repeat (case_decide;
          [subst; simpl; split;
           [intros _; rewrite !elem_of_cons; tauto | reflexivity] | ]).
  simpl. split; [discriminate | ].
  intros Hin. rewrite !elem_of_cons, elem_of_nil in Hin. intuition congruence.
Qed.

(** *** Trimming the ASCII white space twice *)

Lemma trimRight_keeps (a : ascii) (s : string) :
  asciiSpace a = false -> trimRight (String a s) = String a (trimRight s).
Proof. intros Ha. simpl. rewrite Ha. now destruct (trimRight s). Qed.

Lemma trimRight_cons (a : ascii) (s : string) :
  trimRight (String a s)
  = match trimRight s with
    | EmptyString => if asciiSpace a then EmptyString else String a EmptyString
    | String _ _ => String a (trimRight s)
    end.
Proof. simpl. now destruct (trimRight s). Qed.

Lemma trimRight_idem (s : string) : trimRight (trimRight s) = trimRight s.
Proof.
  induction s as [|a s IH]; [reflexivity | ].
  rewrite (trimRight_cons a s).
  destruct (trimRight s) as [|b u] eqn:Hs.
  - destruct (asciiSpace a) eqn:Ha; [reflexivity | ].
    rewrite trimRight_cons. simpl. now rewrite Ha.
  - rewrite trimRight_cons, IH. reflexivity.
Qed.

Lemma trimLeft_start (s : string) :
  trimLeft s = "" \/ exists (a : ascii) (t : string),
      trimLeft s = String a t /\ asciiSpace a = false.
Proof.
  induction s as [|a s IH]; [now left | ].
  simpl. destruct (asciiSpace a) eqn:Ha; [exact IH | ].
  right. now exists a, s.
Qed.

Lemma asciiTrimSpace_idem (s : string) :
  asciiTrimSpace (asciiTrimSpace s) = asciiTrimSpace s.
Proof.
  unfold asciiTrimSpace.
  destruct (trimLeft_start s) as [-> | (a & t & -> & Ha)]; [reflexivity | ].
  rewrite (trimRight_keeps a t Ha). simpl trimLeft. rewrite Ha.
  rewrite <- (trimRight_keeps a t Ha). apply trimRight_idem.
Qed.

Lemma trimLeft_length (s : string) :
  String.length (trimLeft s) <= String.length s.
Proof.
  induction s as [|a s IH]; simpl; [lia | ].
  destruct (asciiSpace a); simpl; lia.
Qed.

Lemma trimRight_length (s : string) :
  String.length (trimRight s) <= String.length s.
Proof.
  induction s as [|a s IH]; [simpl; lia | ].
  rewrite trimRight_cons.
  destruct (trimRight s) as [|b u]; [destruct (asciiSpace a) | ];
    simpl in *; lia.
Qed.

Lemma asciiTrimSpace_length (s : string) :
  String.length (asciiTrimSpace s) <= String.length s.
Proof.
  unfold asciiTrimSpace.
  pose proof (trimRight_length (trimLeft s)). pose proof (trimLeft_length s).
  lia.
Qed.

Lemma isASCII_trimLeft (s : string) :
  isASCII s = true -> isASCII (trimLeft s) = true.
Proof.
  induction s as [|a s IH]; [reflexivity | ].
  intros Hs. simpl. destruct (asciiSpace a); [ | exact Hs].
  simpl in Hs. apply andb_true_iff in Hs as [_ Hs]. now apply IH.
Qed.

Lemma isASCII_trimRight (s : string) :
  isASCII s = true -> isASCII (trimRight s) = true.
Proof.
  induction s as [|a s IH]; [reflexivity | ].
  intros Hs. simpl in Hs. apply andb_true_iff in Hs as [Ha Hs].
  rewrite trimRight_cons. specialize (IH Hs).
  destruct (trimRight s) as [|b u];
    [destruct (asciiSpace a); [reflexivity | ] | ];
    simpl; rewrite Ha; [reflexivity | exact IH].
Qed.

Lemma isASCII_asciiTrimSpace (s : string) :
  isASCII s = true -> isASCII (asciiTrimSpace s) = true.
Proof.
  intros Hs. unfold asciiTrimSpace.
  now apply isASCII_trimRight, isASCII_trimLeft.
Qed.

(** *** A content made from the text of a content *)

Section Content.
Variable TrimSpace : string -> string.

(** What is known of the library: trimming makes no string longer. *)
Hypothesis TrimSpace_shrinks :
  forall s : string, String.length (TrimSpace s) <= String.length s.

(** The text of a constructed content gives the same content back exactly
    when trimming leaves that text as it is; it does when the trimmed
    input had at most [MaxContentLength] bytes, for a [TrimSpace] that
    changes no trimmed string.  (A text cut at [MaxContentLength] bytes
    can end in white space.) *)
Theorem content_reconstruction (input : string) (c : MessageContent) :
  NewMessageContent TrimSpace input = inr c ->
  (NewMessageContent TrimSpace (text c) = inr c
   <-> TrimSpace (text c) = text c)
  /\ (TrimSpace (TrimSpace input) = TrimSpace input ->
      String.length (TrimSpace input) <= MaxContentLength ->
      NewMessageContent TrimSpace (text c) = inr c).
Proof.
  intros Hc.
  assert (Hbounds : 1 <= String.length (text c) <= MaxContentLength).
  { revert Hc. unfold NewMessageContent.
    destruct (decide (TrimSpace input = "")) as [ | Hne]; [discriminate | ].
    intros [= <-]. cbn [text].
    apply DomainFacts.length_nonempty in Hne.
    assert (Hcap : 1 <= MaxContentLength)
      by (apply Nat.leb_le; vm_compute; reflexivity).
    generalize dependent MaxContentLength. intros cap Hcap.
    destruct (Nat.ltb cap (String.length (TrimSpace input))) eqn:Hlen.
    - rewrite DomainFacts.substring_length. apply Nat.ltb_lt in Hlen. lia.
    - apply Nat.ltb_ge in Hlen. lia. }
  assert (Hiff : NewMessageContent TrimSpace (text c) = inr c
                 <-> TrimSpace (text c) = text c).
  { destruct c as [t]. cbn [text] in *. unfold NewMessageContent.
    pose proof (TrimSpace_shrinks t) as Hshrink.
    destruct Hbounds as [Hlo Hhi]. split.
    - destruct (decide (TrimSpace t = "")); [discriminate | ].
      assert (Hno : Nat.ltb MaxContentLength (String.length (TrimSpace t))
                    = false) by (apply Nat.ltb_ge; lia).
      rewrite Hno. now intros [= ->].
    - intros Heq. rewrite Heq.
      destruct (decide (t = "")) as [-> | ]; [simpl in Hlo; lia | ].
      assert (Hno : Nat.ltb MaxContentLength (String.length t) = false)
        by (apply Nat.ltb_ge; lia).
      now rewrite Hno. }
  split; [exact Hiff | ].
  intros Hidem Hshort. apply Hiff.
  revert Hc. unfold NewMessageContent.
  destruct (decide (TrimSpace input = "")); [discriminate | ].
  assert (Hno : Nat.ltb MaxContentLength (String.length (TrimSpace input))
                = false) by (apply Nat.ltb_ge; lia).
  rewrite Hno. intros [= <-]. exact Hidem.
Qed.

End Content.

(** *** Categories, message types and references *)

Section Normalised.
Variable TrimSpace : string -> string.
Variable ToLower : string -> string.

Abbreviation NewCategory := (NewCategory TrimSpace ToLower).
Abbreviation NewMessageType := (NewMessageType TrimSpace ToLower).
Abbreviation NewReference := (NewReference TrimSpace).
Abbreviation ParseReference := (ParseReference TrimSpace ToLower).

(** What the constructors of references give: a valid type and a value
    that is the trimmed input and is not empty.  A text without a colon is
    no reference. *)
Theorem references_wellformed (rt : ReferenceType) (value input : string)
    (r : Reference) :
  (NewReference rt value = inr r ->
   ReferenceType_IsValid (refType r) = true
   /\ refType r = rt /\ refValue r = TrimSpace value /\ refValue r <> "")
  /\ (ParseReference input = inr r ->
      ReferenceType_IsValid (refType r) = true /\ refValue r <> ""
      /\ exists t v : string,
          cutColon input = Some (t, v)
          /\ refType r = ToLower (TrimSpace t)
          /\ refValue r = TrimSpace v)
  /\ (cutColon input = None ->
      ParseReference input = inl (ErrInvalidReference "invalid format")).
Proof.
  assert (Hnew : forall (rt0 : ReferenceType) (v0 : string),
             NewReference rt0 v0 = inr r ->
             ReferenceType_IsValid (refType r) = true
             /\ refType r = rt0 /\ refValue r = TrimSpace v0
             /\ refValue r <> "").
  { intros rt0 v0. unfold Values.NewReference.
    destruct (ReferenceType_IsValid rt0) eqn:Hv; simpl; [ | discriminate].
    destruct (decide (TrimSpace v0 = "")); [discriminate | ].
    intros [= <-]. simpl. auto. }
  split; [apply Hnew | ]. split.
  - unfold Values.ParseReference, SplitN_colon_2.
    destruct (cutColon input) as [[t v] | ]; [ | discriminate].
    destruct (ReferenceType_IsValid (ToLower (TrimSpace t))); simpl;
      [ | discriminate].
    intros Hr. destruct (Hnew _ _ Hr) as (Hv & Ht & Hval & Hne).
    split; [exact Hv | ]. split; [exact Hne | ]. now exists t, v.
  - intros Hcut. unfold Values.ParseReference, SplitN_colon_2.
    now rewrite Hcut.
Qed.

(** What is known of the library on strings of ASCII bytes, and that
    trimming a trimmed string changes nothing. *)
Hypothesis TrimSpace_ascii :
  forall s : string, isASCII s = true -> TrimSpace s = asciiTrimSpace s.
Hypothesis ToLower_ascii :
  forall s : string, isASCII s = true -> ToLower s = asciiLower s.
Hypothesis TrimSpace_idem :
  forall s : string, TrimSpace (TrimSpace s) = TrimSpace s.

Lemma normalised_constant (s : string) :
  isASCII s = true -> isASCII (asciiTrimSpace s) = true ->
  asciiLower (asciiTrimSpace s) = s ->
  ToLower (TrimSpace s) = s.
Proof.
  intros Hs Ht Heq. rewrite (TrimSpace_ascii s Hs).
  now rewrite (ToLower_ascii _ Ht).
Qed.

Lemma normalise_ascii (input : string) :
  isASCII input = true ->
  ToLower (TrimSpace input) = asciiLower (asciiTrimSpace input).
Proof.
  intros Hin. rewrite (TrimSpace_ascii input Hin).
  apply ToLower_ascii. now apply isASCII_asciiTrimSpace.
Qed.

(** On an input of ASCII bytes, [NewCategory] gives a category with no
    error exactly when the input, with the white space around it taken off
    and its letters in lower case, is one of the seven categories, and it
    gives that one; on any other input it gives the unknown category with
    [ErrInvalidCategory].  The same holds of [NewMessageType] and the four
    message types. *)
Theorem constructors_accept (input : string) (c : Category)
    (t : MessageType) :
  isASCII input = true ->
  ((NewCategory input = (c, None)
    <-> c ∈ [CategoryOperations; CategoryDevelopment; CategoryProduct;
             CategoryQualityAssurance; CategoryDataAnalysis; CategoryOther;
             CategoryUnknown]
        /\ asciiLower (asciiTrimSpace input) = c)
   /\ (snd (NewCategory input) = None
       \/ NewCategory input = (CategoryUnknown, Some ErrInvalidCategory)))
  /\ ((NewMessageType input = (t, None)
       <-> t ∈ [MessageTypeIdea; MessageTypeDecision; MessageTypeStatus;
                MessageTypeUnknown]
           /\ asciiLower (asciiTrimSpace input) = t)
      /\ (snd (NewMessageType input) = None
          \/ NewMessageType input
             = (MessageTypeUnknown, Some ErrInvalidMessageType))).
Proof.
  intros Hin. unfold Values.NewCategory, Values.NewMessageType.
  rewrite (normalise_ascii input Hin).
  set (n := asciiLower (asciiTrimSpace input)). split.
  - destruct (Category_IsValid n) eqn:Hv; simpl.
    + split; [ | now left]. split.
      * intros [= <-]. split; [ | reflexivity].
        now apply DomainFacts.Category_IsValid_iff.
      * now intros [_ <-].
    + split; [ | now right]. split; [discriminate | ].
      intros [Hc <-]. apply DomainFacts.Category_IsValid_iff in Hc.
      congruence.
  - destruct (MessageType_IsValid n) eqn:Hv; simpl.
    + split; [ | now left]. split.
      * intros [= <-]. split; [ | reflexivity].
        now apply DomainFacts.MessageType_IsValid_iff.
      * now intros [_ <-].
    + split; [ | now right]. split; [discriminate | ].
      intros [Ht <-]. apply DomainFacts.MessageType_IsValid_iff in Ht.
      congruence.
Qed.

(** The text of a valid category, and of a valid message type, is read
    back as that category, and type, with no error. *)
Theorem constructors_round_trip (c : Category) (t : MessageType) :
  Category_IsValid c = true -> MessageType_IsValid t = true ->
  NewCategory c = (c, None) /\ NewMessageType t = (t, None).
Proof.
  intros Hc Ht. split.
  - unfold Values.NewCategory.
    assert (Hn : ToLower (TrimSpace c) = c).
    { apply DomainFacts.Category_IsValid_iff in Hc.
      rewrite !elem_of_cons, elem_of_nil in Hc.
      destruct Hc as [-> | [-> | [-> | [-> | [-> | [-> | [-> | []]]]]]]];
        now apply normalised_constant. }
    now rewrite Hn, Hc.
  - unfold Values.NewMessageType.
    assert (Hn : ToLower (TrimSpace t) = t).
    { apply DomainFacts.MessageType_IsValid_iff in Ht.
      rewrite !elem_of_cons, elem_of_nil in Ht.
      destruct Ht as [-> | [-> | [-> | [-> | []]]]];
        now apply normalised_constant. }
    now rewrite Hn, Ht.
Qed.

(** A reference made by [NewReference] is read back from its text by
    [ParseReference]. *)
Theorem ParseReference_String (rt : ReferenceType) (value : string)
    (r : Reference) :
  NewReference rt value = inr r ->
  ParseReference (Reference_String r) = inr r.
Proof.
  unfold Values.NewReference.
  destruct (ReferenceType_IsValid rt) eqn:Hv; simpl; [ | discriminate].
  destruct (decide (TrimSpace value = "")) as [ | Hne]; [discriminate | ].
  intros [= <-]. unfold Values.ParseReference, Reference_String. simpl.
  assert (Hcases : cutColon (rt +:+ ":" +:+ TrimSpace value)
                   = Some (rt, TrimSpace value)
                   /\ ToLower (TrimSpace rt) = rt).
  { apply ReferenceType_IsValid_iff in Hv.
    rewrite !elem_of_cons, elem_of_nil in Hv.
    destruct Hv as [-> | [-> | [-> | []]]];
      (split; [reflexivity | now apply normalised_constant]). }
  destruct Hcases as [Hcut Hn].
  unfold SplitN_colon_2. rewrite Hcut, Hn, Hv. simpl.
  unfold Values.NewReference. rewrite Hv. simpl.
  rewrite TrimSpace_idem.
  now destruct (decide (TrimSpace value = "")).
Qed.

End Normalised.
End ValuesFacts.

(** ** The Ollama provider *)

Module OllamaFacts.
Import Domain Library Values Services Ollama.

Section Provider.
Variable TrimSpace : string -> string.
Variable ToLower : string -> string.
Variable GenerateChatCompletion : list ChatMessage -> error + string.
Variable Unmarshal_Analysis : string -> option Analysis.
Variable Unmarshal_References : string -> option (list referenceData).
Variable Sscanf_f : string -> option float.
Variable analyzeMessageSystemPrompt : string.
Variable detectReferencesSystemPrompt : string.

Abbreviation parseAnalysisLine := (parseAnalysisLine TrimSpace ToLower Sscanf_f).
Abbreviation parseAnalysisFromText :=
  (parseAnalysisFromText TrimSpace ToLower Sscanf_f).
Abbreviation AnalyzeMessage :=
  (AnalyzeMessage TrimSpace ToLower GenerateChatCompletion Unmarshal_Analysis
                  Sscanf_f analyzeMessageSystemPrompt).
Abbreviation convertReference := (convertReference TrimSpace ToLower).
Abbreviation parseReferenceLine := (parseReferenceLine TrimSpace ToLower).
Abbreviation parseReferencesFromText :=
  (parseReferencesFromText TrimSpace ToLower).
Abbreviation DetectReferences :=
  (DetectReferences TrimSpace ToLower GenerateChatCompletion
                    Unmarshal_References detectReferencesSystemPrompt).

(** *** The analysis *)

(** What follows the decoding of the answer: a type or a category that
    the domain refuses becomes the unknown one, so that only the confidence
    can make the construction fail. *)
Lemma validated_analysis (analysis : Analysis) :
  match NewMessageAnalysisResult
          (match NewMessageType TrimSpace ToLower (an_Type analysis) with
           | (_, Some _) => MessageTypeUnknown
           | (msgType, None) => msgType
           end)
          (match NewCategory TrimSpace ToLower (an_Category analysis) with
           | (_, Some _) => CategoryUnknown
           | (category, None) => category
           end)
          [] (an_ConfidenceScore analysis) (an_SuggestedTags analysis) with
  | inl err => err = ErrInvalidConfidenceScore
  | inr result =>
      MessageType_IsValid (ar_messageType result) = true
      /\ Category_IsValid (ar_category result) = true
      /\ ar_references result = []
      /\ ar_confidenceScore result = an_ConfidenceScore analysis
      /\ ar_suggestedTags result = an_SuggestedTags analysis
      /\ (ar_confidenceScore result <? 0)%float = false
      /\ (1 <? ar_confidenceScore result)%float = false
  end.
Proof.
  assert (Ht : MessageType_IsValid
                 (match NewMessageType TrimSpace ToLower (an_Type analysis)
                  with
                  | (_, Some _) => MessageTypeUnknown
                  | (msgType, None) => msgType
                  end) = true).
  { unfold NewMessageType.
    now destruct (MessageType_IsValid (ToLower (TrimSpace (an_Type analysis))))
      eqn:Hv. }
  assert (Hc : Category_IsValid
                 (match NewCategory TrimSpace ToLower (an_Category analysis)
                  with
                  | (_, Some _) => CategoryUnknown
                  | (category, None) => category
                  end) = true).
  { unfold NewCategory.
    now destruct (Category_IsValid
                    (ToLower (TrimSpace (an_Category analysis)))) eqn:Hv. }
  unfold NewMessageAnalysisResult. rewrite Ht, Hc.
  destruct (an_ConfidenceScore analysis <? 0)%float eqn:Hlo;
    [reflexivity | ].
  destruct (1 <? an_ConfidenceScore analysis)%float eqn:Hhi;
    [reflexivity | ].
  simpl. now repeat split.
Qed.

(** How [AnalyzeMessage] ends.  It fails on a nil context, on a content
    that is blank, when the request to the model fails, and when the
    confidence is refused by the constructor of the result; it never fails
    for the type or the category of the answer, nor in the text fallback.
    A result has a valid type, a valid category, no references, and a
    confidence that is neither below 0 nor above 1. *)
Theorem AnalyzeMessage_outcomes (ctx : Ctx) (content : string) :
  match AnalyzeMessage ctx content with
  | inl e =>
      (ctx = NilCtx /\ e = ErrorNew "context cannot be nil")
      \/ (TrimSpace content = "" /\ e = ErrorNew "content cannot be empty")
      \/ (exists err : error,
             GenerateChatCompletion
               [MkChatMessage "system" analyzeMessageSystemPrompt;
                MkChatMessage "user" content] = inl err
             /\ e = Errorf "failed to generate chat completion" err)
      \/ e = Errorf "failed to create message analysis result"
                    ErrInvalidConfidenceScore
  | inr result =>
      MessageType_IsValid (ar_messageType result) = true
      /\ Category_IsValid (ar_category result) = true
      /\ ar_references result = []
      /\ (ar_confidenceScore result <? 0)%float = false
      /\ (1 <? ar_confidenceScore result)%float = false
  end.
Proof.
  unfold Ollama.AnalyzeMessage. destruct ctx; [left; now split | ].
  destruct (decide (TrimSpace content = "")) as [Hblank | _];
    [right; left; now split | ].
  cbv zeta.
  destruct (GenerateChatCompletion _) as [err | response] eqn:Hcall;
    [right; right; left; now exists err | ].
  assert (Hparsed : exists analysis : Analysis,
             match Unmarshal_Analysis response with
             | Some analysis => inr analysis
             | None =>
                 match parseAnalysisFromText response with
                 | inl err => inl (Errorf "failed to parse analysis" err)
                 | inr analysis => inr analysis
                 end
             end = inr analysis).
  { destruct (Unmarshal_Analysis response) as [a | ]; [now exists a | ].
    unfold Ollama.parseAnalysisFromText. eauto. }
  destruct Hparsed as [analysis ->].
  pose proof (validated_analysis analysis) as Hv.
  destruct (NewMessageAnalysisResult _ _ _ _ _) as [err | result].
  - subst err. right. right. now right.
  - destruct Hv as (Ht & Hc & Hr & _ & _ & Hlo & Hhi). now repeat split.
Qed.

(** *** The text fallback *)

Lemma unrecognised_lines (lines : list string) :
  Forall (fun line : string =>
            HasPrefix (ToLower (TrimSpace line)) "type:" = false
            /\ HasPrefix (ToLower (TrimSpace line)) "category:" = false
            /\ HasPrefix (ToLower (TrimSpace line)) "confidence:" = false
            /\ HasPrefix (ToLower (TrimSpace line)) "tags:" = false) lines ->
  forall analysis : Analysis,
    fold_left parseAnalysisLine lines analysis = analysis.
Proof.
  induction 1 as [|line lines (Ht & Hc & Hs & Hg) _ IH]; intros analysis;
    [reflexivity | ].
  simpl. rewrite <- (IH analysis) at 2. f_equal.
  unfold Ollama.parseAnalysisLine. now rewrite Ht, Hc, Hs, Hg.
Qed.

(** The confidence that is no number: both comparisons of the constructor
    are false on it, and it is not in the interval. *)
Lemma nan_compares :
  (nan <? 0)%float = false /\ (1 <? nan)%float = false
  /\ Observe.inUnitInterval nan = false.
Proof. repeat split; reflexivity. Qed.

(** When the answer of the model is no JSON and the text fallback reads
    the confidence NaN from it, [AnalyzeMessage] returns a result with that
    confidence, which does not lie between 0 and 1. *)
Theorem nan_confidence_passes (content response : string)
    (analysis : Analysis) :
  TrimSpace content <> "" ->
  GenerateChatCompletion [MkChatMessage "system" analyzeMessageSystemPrompt;
                          MkChatMessage "user" content] = inr response ->
  Unmarshal_Analysis response = None ->
  parseAnalysisFromText response = inr analysis ->
  an_ConfidenceScore analysis = nan ->
  exists result : MessageAnalysisResult,
    AnalyzeMessage LiveCtx content = inr result
    /\ ar_confidenceScore result = nan
    /\ Observe.inUnitInterval (ar_confidenceScore result) = false.
Proof.
  intros Hcontent Hcall Hjson Htext Hnan.
  unfold Ollama.AnalyzeMessage.
  destruct (decide (TrimSpace content = "")); [contradiction | ].
  cbv zeta. rewrite Hcall, Hjson, Htext.
  pose proof (validated_analysis analysis) as Hv.
  destruct (NewMessageAnalysisResult _ _ _ _ _) as [err | result] eqn:Hnew.
  - exfalso. subst err. revert Hnew. unfold NewMessageAnalysisResult.
    rewrite Hnan. destruct nan_compares as (Hlo & Hhi & _).
    rewrite Hlo, Hhi. simpl. destruct (negb _ || negb _); discriminate.
  - destruct Hv as (_ & _ & _ & Hscore & _).
    exists result. split; [reflexivity | ]. rewrite Hscore, Hnan.
    split; [reflexivity | apply nan_compares].
Qed.

(** *** The references *)

Lemma NewReference_inr (refType : ReferenceType) (value : string)
    (ref : Reference) :
  NewReference TrimSpace refType value = inr ref ->
  ReferenceType_IsValid (Domain.refType ref) = true
  /\ Domain.refType ref = refType /\ refValue ref <> "".
Proof.
  unfold NewReference.
  destruct (ReferenceType_IsValid refType) eqn:Hv; simpl; [ | discriminate].
  destruct (decide (TrimSpace value = "")); [discriminate | ].
  intros [= <-]. simpl. auto.
Qed.

Lemma convertReference_wellformed (referencesData : list referenceData) :
  forall references : list (option Reference),
    Forall (fun o : option Reference =>
              exists ref : Reference,
                o = Some ref
                /\ ReferenceType_IsValid (refType ref) = true
                /\ refValue ref <> "") references ->
    Forall (fun o : option Reference =>
              exists ref : Reference,
                o = Some ref
                /\ ReferenceType_IsValid (refType ref) = true
                /\ refValue ref <> "")
           (fold_left convertReference referencesData references).
Proof.
  induction referencesData as [|d referencesData IH]; intros references Hall;
    [exact Hall | ].
  simpl. apply IH. unfold Ollama.convertReference.
  destruct (negb (ReferenceType_IsValid (ToLower (rd_Type d))));
    [exact Hall | ].
  destruct (NewReference TrimSpace (ToLower (rd_Type d)) (rd_Value d))
    as [err | ref] eqn:Hnew; [exact Hall | ].
  apply NewReference_inr in Hnew as (Hv & _ & Hne).
  apply Forall_app. split; [exact Hall | ].
  constructor; [now exists ref | constructor].
Qed.

Lemma parseReferenceLine_wellformed (lines : list string) :
  forall references : list (option Reference),
    Forall (fun o : option Reference =>
              exists ref : Reference,
                o = Some ref
                /\ (refType ref = ReferenceTypeMessage
                    \/ refType ref = ReferenceTypeDocument)
                /\ refValue ref <> "") references ->
    Forall (fun o : option Reference =>
              exists ref : Reference,
                o = Some ref
                /\ (refType ref = ReferenceTypeMessage
                    \/ refType ref = ReferenceTypeDocument)
                /\ refValue ref <> "")
           (fold_left parseReferenceLine lines references).
Proof.
  induction lines as [|line lines IH]; intros references Hall; [exact Hall | ].
  simpl. apply IH. unfold Ollama.parseReferenceLine. cbv zeta.
  destruct (Contains_colon (TrimSpace line)); [ | exact Hall].
  destruct (SplitN_colon_2 (TrimSpace line)) as [|t [|v [|x parts]]];
    try exact Hall.
  destruct (decide (TrimSpace (ToLower t) = "message")).
  - destruct (NewReference TrimSpace ReferenceTypeMessage (TrimSpace v))
      as [err | ref] eqn:Hnew; [exact Hall | ].
    apply NewReference_inr in Hnew as (_ & Ht & Hne).
    apply Forall_app. split; [exact Hall | ].
    constructor; [exists ref; auto | constructor].
  - destruct (decide (TrimSpace (ToLower t) = "document")); [ | exact Hall].
    destruct (NewReference TrimSpace ReferenceTypeDocument (TrimSpace v))
      as [err | ref] eqn:Hnew; [exact Hall | ].
    apply NewReference_inr in Hnew as (_ & Ht & Hne).
    apply Forall_app. split; [exact Hall | ].
    constructor; [exists ref; auto | constructor].
Qed.

(** How [DetectReferences] ends.  It fails on a nil context, on a content
    that is blank and when the request to the model fails, and for nothing
    else: data that make no reference are left out.  Every reference it
    returns is a pointer that is not nil, to a reference of a valid type
    with a value that is not empty; the text fallback gives references to
    messages and to documents only. *)
Theorem DetectReferences_wellformed (ctx : Ctx) (content : string) :
  match DetectReferences ctx content with
  | inl e =>
      (ctx = NilCtx /\ e = ErrorNew "context cannot be nil")
      \/ (TrimSpace content = "" /\ e = ErrorNew "content cannot be empty")
      \/ (exists err : error,
             GenerateChatCompletion
               [MkChatMessage "system" detectReferencesSystemPrompt;
                MkChatMessage "user" content] = inl err
             /\ e = Errorf "failed to generate chat completion" err)
  | inr references =>
      Forall (fun o : option Reference =>
                exists ref : Reference,
                  o = Some ref
                  /\ ReferenceType_IsValid (refType ref) = true
                  /\ refValue ref <> "") references
  end
  /\ forall response : string,
      exists references : list (option Reference),
        parseReferencesFromText response = inr references
        /\ Forall (fun o : option Reference =>
                     exists ref : Reference,
                       o = Some ref
                       /\ (refType ref = ReferenceTypeMessage
                           \/ refType ref = ReferenceTypeDocument)
                       /\ refValue ref <> "") references.
Proof.
  assert (Htext : forall response : string,
             exists references : list (option Reference),
               parseReferencesFromText response = inr references
               /\ Forall (fun o : option Reference =>
                            exists ref : Reference,
                              o = Some ref
                              /\ (refType ref = ReferenceTypeMessage
                                  \/ refType ref = ReferenceTypeDocument)
                              /\ refValue ref <> "") references).
  { intros response. eexists. split; [reflexivity | ].
    apply parseReferenceLine_wellformed. constructor. }
  split; [ | exact Htext].
  unfold Ollama.DetectReferences. destruct ctx; [left; now split | ].
  destruct (decide (TrimSpace content = "")) as [Hblank | _];
    [right; left; now split | ].
  cbv zeta.
  destruct (GenerateChatCompletion _) as [err | response] eqn:Hcall;
    [right; right; now exists err | ].
  destruct (Unmarshal_References response) as [referencesData | ].
  - apply convertReference_wellformed. constructor.
  - destruct (Htext response) as (references & -> & Hall).
    eapply Forall_impl; [exact Hall | ].
    intros o (ref & -> & Ht & Hne). exists ref.
    split; [reflexivity | ]. split; [ | exact Hne].
    destruct Ht as [-> | ->]; reflexivity.
Qed.

(** *** An answer with no recognised line *)

(** What is known of the library on strings of ASCII bytes. *)
Hypothesis TrimSpace_ascii :
  forall s : string, isASCII s = true -> TrimSpace s = asciiTrimSpace s.
Hypothesis ToLower_ascii :
  forall s : string, isASCII s = true -> ToLower s = asciiLower s.

(** When the answer of the model is no JSON and none of its lines starts
    with one of the four keys, the analysis is the default one: the unknown
    type, the unknown category, the confidence 0.5, no tags. *)
Theorem unrecognised_answer (content response : string) :
  TrimSpace content <> "" ->
  GenerateChatCompletion [MkChatMessage "system" analyzeMessageSystemPrompt;
                          MkChatMessage "user" content] = inr response ->
  Unmarshal_Analysis response = None ->
  Forall (fun line : string =>
            HasPrefix (ToLower (TrimSpace line)) "type:" = false
            /\ HasPrefix (ToLower (TrimSpace line)) "category:" = false
            /\ HasPrefix (ToLower (TrimSpace line)) "confidence:" = false
            /\ HasPrefix (ToLower (TrimSpace line)) "tags:" = false)
         (Split "010"%char response) ->
  AnalyzeMessage LiveCtx content
  = inr (MkMessageAnalysisResult MessageTypeUnknown CategoryUnknown []
                                 defaultConfidence []).
Proof.
  intros Hcontent Hcall Hjson Hlines.
  unfold Ollama.AnalyzeMessage.
  destruct (decide (TrimSpace content = "")); [contradiction | ].
  cbv zeta. rewrite Hcall, Hjson. unfold Ollama.parseAnalysisFromText.
  cbv zeta. rewrite (unrecognised_lines _ Hlines). cbn [an_Type an_Category
    an_ConfidenceScore an_SuggestedTags].
  assert (Hn : ToLower (TrimSpace "unknown") = "unknown").
  { rewrite (TrimSpace_ascii "unknown" eq_refl).
    exact (ToLower_ascii "unknown" eq_refl). }
  unfold NewMessageType, NewCategory.
  change MessageTypeUnknown with "unknown".
  change CategoryUnknown with "unknown". rewrite Hn. reflexivity.
Qed.

End Provider.
End OllamaFacts.

(** ** The further properties on concrete cases *)

Module PipelineScenarios.
Import Domain Services Scenario Cases PipelineFacts.

(** An analysis with a nil reference among its references. *)
Lemma constructed_analysis_merge_witness :
  let a := MkMessageAnalysisResult MessageTypeDecision CategoryOperations
                                   linked confident ["deploys"] in
  NewMessageAnalysisResult MessageTypeDecision CategoryOperations linked
                           confident ["deploys"] = inr a
  /\ category (updateMessageWithAnalysis (someMessage []) a)
     = CategoryOperations
  /\ Category_IsValid (category (updateMessageWithAnalysis (someMessage []) a))
     = true
  /\ references (updateMessageWithAnalysis (someMessage []) a)
     = references (someMessage []) ++ Observe.nonNil linked.
Proof.
  assert (Ha : NewMessageAnalysisResult MessageTypeDecision CategoryOperations
                 linked confident ["deploys"]
               = inr (MkMessageAnalysisResult MessageTypeDecision
                        CategoryOperations linked confident ["deploys"]))
    by (vm_compute; reflexivity).
  split; [exact Ha | ].
  exact (constructed_analysis_merge MessageTypeDecision CategoryOperations
           linked confident ["deploys"] _ (someMessage []) Ha).
Defined.

End PipelineScenarios.

Module CorrelatorScenarios.
Import Domain Slack Threads Correlation Cases CorrelatorFacts.

(** A reply to the thread that the client has seen. *)
Lemma free_lock_returns_witness :
  (lockFree seen /\ length (messageCh seen) < EventLoop.channelCapacity)
  /\ exists (c' : Client) (r : result),
      process seen reply = (c', Done r)
      /\ length (messageCh c') <= EventLoop.channelCapacity
      /\ writer c' = false
      /\ (readers c' = 0
          \/ (readers c' = 1
              /\ exists tid : Common.ID,
                  ThreadTimestamp reply <> ""
                  /\ threadMap seen !! ThreadTimestamp reply = Some tid
                  /\ resolved (Done r) = Some tid)).
Proof.
  assert (Hfree : lockFree seen) by (split; reflexivity).
  assert (Hroom : length (messageCh seen) < EventLoop.channelCapacity)
    by (vm_compute; lia).
  split; [exact (conj Hfree Hroom) | ].
  exact (free_lock_returns asciiTrimSpace userInfo information ticks
           seen reply Hfree Hroom).
Defined.

(** The first message of ["T1"] and then the reply, on a new client. *)
Lemma root_then_reply_witness :
  (lockFree (NewClient 0)
   /\ accepted userInfo root "U1" /\ accepted userInfo reply "U2"
   /\ ThreadTimestamp root = "" /\ Timestamp root <> ""
   /\ ThreadTimestamp reply = Timestamp root)
  /\ resolved (snd (process (NewClient 0) root)) = Some (Common.MkID "0")
  /\ resolved (snd (process (fst (process (NewClient 0) root)) reply))
     = Some (Common.MkID "0")
  /\ threadMap (fst (process (fst (process (NewClient 0) root)) reply))
       !! Timestamp root
     = Some (Common.MkID "0").
Proof.
  assert (Hfree : lockFree (NewClient 0)) by (split; reflexivity).
  assert (Hroot : accepted userInfo root "U1")
    by (repeat split; discriminate).
  assert (Hreply : accepted userInfo reply "U2")
    by (repeat split; discriminate).
  assert (Hne : Timestamp root <> "") by discriminate.
  split;
    [exact (conj Hfree (conj Hroot (conj Hreply
              (conj eq_refl (conj Hne eq_refl))))) | ].
  exact (root_then_reply asciiTrimSpace userInfo information ticks
           (NewClient 0) root reply "U1" "U2"
           Hfree Hroot Hreply eq_refl Hne eq_refl).
Defined.

(** The reply to the thread that the client has seen, and then a message
    in no thread. *)
Lemma read_lock_leaks_witness :
  (lockFree seen
   /\ accepted userInfo reply "U2" /\ ThreadTimestamp reply <> ""
   /\ threadMap seen !! ThreadTimestamp reply = Some (Common.MkID "0")
   /\ accepted userInfo next "U3" /\ ThreadTimestamp next = "")
  /\ readers (fst (process seen reply)) = 1
  /\ (exists tid' : Common.ID,
         snd (process (fst (process seen reply)) next) = AtLock "U3" tid')
  /\ step asciiTrimSpace userInfo information ticks
          (fst (process (fst (process seen reply)) next)) next
          (snd (process (fst (process seen reply)) next)) = None
  /\ resolved (snd (process (fst (process seen reply)) next)) = None
  /\ threadMap (fst (process (fst (process seen reply)) next))
     = threadMap seen
  /\ messageCh (fst (process (fst (process seen reply)) next))
     = messageCh (fst (process seen reply)).
Proof.
  assert (Hfree : lockFree seen) by (split; reflexivity).
  assert (Hreply : accepted userInfo reply "U2")
    by (repeat split; discriminate).
  assert (Hts : ThreadTimestamp reply <> "") by discriminate.
  assert (Hmap : threadMap seen !! ThreadTimestamp reply
                 = Some (Common.MkID "0")) by reflexivity.
  assert (Hnext : accepted userInfo next "U3")
    by (repeat split; discriminate).
  split;
    [exact (conj Hfree (conj Hreply (conj Hts (conj Hmap
              (conj Hnext eq_refl))))) | ].
  exact (read_lock_leaks asciiTrimSpace userInfo information ticks
           seen reply next "U2" "U3" (Common.MkID "0")
           Hfree Hreply Hts Hmap Hnext (or_introl eq_refl)).
Defined.

(** The legacy type ["information"] is no valid message type. *)
Lemma legacy_type_silences_witness :
  MessageType_IsValid information = false
  /\ messageCh (client (interleave (replicate 8 0 ++ replicate 8 1)
                                   (NewClient 0) [root; reply]))
     = messageCh (client (spawn (NewClient 0) [root; reply])).
Proof.
  assert (Hinv : MessageType_IsValid information = false)
    by (vm_compute; reflexivity).
  split; [exact Hinv | ].
  exact (legacy_type_silences asciiTrimSpace userInfo information ticks
           (replicate 8 0 ++ replicate 8 1)
           (spawn (NewClient 0) [root; reply]) Hinv).
Defined.


End CorrelatorScenarios.

Module ValuesScenarios.
Import Domain Library Values Scenario Cases ValuesFacts.

(** With the ASCII functions for those of the library. *)
Lemma content_reconstruction_witness :
  NewMessageContent asciiTrimSpace "  valid message  "
  = inr (MkMessageContent "valid message")
  /\ (NewMessageContent asciiTrimSpace "valid message"
      = inr (MkMessageContent "valid message")
      <-> asciiTrimSpace "valid message" = "valid message")
  /\ (asciiTrimSpace (asciiTrimSpace "  valid message  ")
      = asciiTrimSpace "  valid message  " ->
      String.length (asciiTrimSpace "  valid message  ") <= MaxContentLength ->
      NewMessageContent asciiTrimSpace "valid message"
      = inr (MkMessageContent "valid message")).
Proof.
  assert (Hc : NewMessageContent asciiTrimSpace "  valid message  "
               = inr (MkMessageContent "valid message"))
    by (vm_compute; reflexivity).
  split; [exact Hc | ].
  exact (content_reconstruction asciiTrimSpace asciiTrimSpace_length
           "  valid message  " (MkMessageContent "valid message") Hc).
Defined.

(** A text that is cut at a blank: the content made from it ends in the
    blank, and its text gives a shorter content. *)
Example truncated_content_differs :
  exists c c' : MessageContent,
    NewMessageContent asciiTrimSpace longText = inr c
    /\ NewMessageContent asciiTrimSpace (text c) = inr c'
    /\ String.length (text c) = MaxContentLength
    /\ String.length (text c') = pred MaxContentLength.
Proof.
  exists (MkMessageContent (repeatByte "a" (pred MaxContentLength) +:+ " ")),
         (MkMessageContent (repeatByte "a" (pred MaxContentLength))).
  repeat split; vm_compute; reflexivity.
Qed.

(** Capital letters and blanks around the name of a category. *)
Lemma constructors_accept_witness :
  isASCII "  Quality_Assurance " = true
  /\ ((NewCategory asciiTrimSpace asciiLower "  Quality_Assurance "
       = (CategoryQualityAssurance, None)
       <-> CategoryQualityAssurance
             ∈ [CategoryOperations; CategoryDevelopment; CategoryProduct;
                CategoryQualityAssurance; CategoryDataAnalysis;
                CategoryOther; CategoryUnknown]
           /\ asciiLower (asciiTrimSpace "  Quality_Assurance ")
              = CategoryQualityAssurance)
      /\ (snd (NewCategory asciiTrimSpace asciiLower "  Quality_Assurance ")
          = None
          \/ NewCategory asciiTrimSpace asciiLower "  Quality_Assurance "
             = (CategoryUnknown, Some ErrInvalidCategory)))
  /\ ((NewMessageType asciiTrimSpace asciiLower "  Quality_Assurance "
       = (MessageTypeUnknown, None)
       <-> MessageTypeUnknown
             ∈ [MessageTypeIdea; MessageTypeDecision; MessageTypeStatus;
                MessageTypeUnknown]
           /\ asciiLower (asciiTrimSpace "  Quality_Assurance ")
              = MessageTypeUnknown)
      /\ (snd (NewMessageType asciiTrimSpace asciiLower
                              "  Quality_Assurance ") = None
          \/ NewMessageType asciiTrimSpace asciiLower "  Quality_Assurance "
             = (MessageTypeUnknown, Some ErrInvalidMessageType))).
Proof.
  assert (Hin : isASCII "  Quality_Assurance " = true) by reflexivity.
  split; [exact Hin | ].
  exact (constructors_accept asciiTrimSpace asciiLower
           (fun s _ => eq_refl) (fun s _ => eq_refl)
           "  Quality_Assurance " CategoryQualityAssurance
           MessageTypeUnknown Hin).
Defined.

Lemma constructors_round_trip_witness :
  (Category_IsValid CategoryQualityAssurance = true
   /\ MessageType_IsValid MessageTypeDecision = true)
  /\ NewCategory asciiTrimSpace asciiLower CategoryQualityAssurance
     = (CategoryQualityAssurance, None)
  /\ NewMessageType asciiTrimSpace asciiLower MessageTypeDecision
     = (MessageTypeDecision, None).
Proof.
  assert (Hc : Category_IsValid CategoryQualityAssurance = true)
    by (vm_compute; reflexivity).
  assert (Ht : MessageType_IsValid MessageTypeDecision = true)
    by (vm_compute; reflexivity).
  split; [split; assumption | ].
  exact (constructors_round_trip asciiTrimSpace asciiLower
           (fun s _ => eq_refl) (fun s _ => eq_refl)
           CategoryQualityAssurance MessageTypeDecision Hc Ht).
Defined.

(** A reference to a document whose path has a colon and blanks around. *)
Lemma ParseReference_String_witness :
  NewReference asciiTrimSpace ReferenceTypeDocument "  docs/a:b.md "
  = inr (MkReference ReferenceTypeDocument "docs/a:b.md")
  /\ ParseReference asciiTrimSpace asciiLower
       (Reference_String (MkReference ReferenceTypeDocument "docs/a:b.md"))
     = inr (MkReference ReferenceTypeDocument "docs/a:b.md").
Proof.
  assert (Hr : NewReference asciiTrimSpace ReferenceTypeDocument
                 "  docs/a:b.md "
               = inr (MkReference ReferenceTypeDocument "docs/a:b.md"))
    by (vm_compute; reflexivity).
  split; [exact Hr | ].
  exact (ParseReference_String asciiTrimSpace asciiLower
           (fun s _ => eq_refl) (fun s _ => eq_refl) asciiTrimSpace_idem
           ReferenceTypeDocument "  docs/a:b.md "
           (MkReference ReferenceTypeDocument "docs/a:b.md") Hr).
Defined.

End ValuesScenarios.

Module OllamaScenarios.
Import Domain Library Values Services Scenario Ollama Cases OllamaFacts.

(** An answer in plain text whose confidence line reads NaN. *)
Lemma nan_confidence_passes_witness :
  (asciiTrimSpace "Let's switch to blue-green deploys" <> ""
   /\ completion nanAnswer
        [MkChatMessage "system" "analyze";
         MkChatMessage "user" "Let's switch to blue-green deploys"]
      = inr nanAnswer
   /\ noJSON (A := Analysis) nanAnswer = None
   /\ parseAnalysisFromText asciiTrimSpace asciiLower scan nanAnswer
      = inr (MkAnalysis MessageTypeDecision CategoryUnknown nan []))
  /\ exists result : MessageAnalysisResult,
      AnalyzeMessage asciiTrimSpace asciiLower (completion nanAnswer) noJSON
                     scan "analyze" LiveCtx
                     "Let's switch to blue-green deploys"
      = inr result
      /\ ar_confidenceScore result = nan
      /\ Observe.inUnitInterval (ar_confidenceScore result) = false.
Proof.
  assert (Hcontent : asciiTrimSpace "Let's switch to blue-green deploys"
                     <> "") by (vm_compute; discriminate).
  assert (Htext : parseAnalysisFromText asciiTrimSpace asciiLower scan
                    nanAnswer
                  = inr (MkAnalysis MessageTypeDecision CategoryUnknown nan
                                    [])) by (vm_compute; reflexivity).
  split; [exact (conj Hcontent (conj eq_refl (conj eq_refl Htext))) | ].
  exact (nan_confidence_passes asciiTrimSpace asciiLower
           (completion nanAnswer) noJSON scan "analyze"
           "Let's switch to blue-green deploys" nanAnswer
           (MkAnalysis MessageTypeDecision CategoryUnknown nan [])
           Hcontent eq_refl eq_refl Htext eq_refl).
Defined.

(** An answer in plain text with none of the four keys. *)
Lemma unrecognised_answer_witness :
  (asciiTrimSpace "Let's switch to blue-green deploys" <> ""
   /\ completion vagueAnswer
        [MkChatMessage "system" "analyze";
         MkChatMessage "user" "Let's switch to blue-green deploys"]
      = inr vagueAnswer
   /\ noJSON (A := Analysis) vagueAnswer = None
   /\ Forall (fun line : string =>
                HasPrefix (asciiLower (asciiTrimSpace line)) "type:" = false
                /\ HasPrefix (asciiLower (asciiTrimSpace line)) "category:"
                   = false
                /\ HasPrefix (asciiLower (asciiTrimSpace line)) "confidence:"
                   = false
                /\ HasPrefix (asciiLower (asciiTrimSpace line)) "tags:"
                   = false)
             (Split "010"%char vagueAnswer))
  /\ AnalyzeMessage asciiTrimSpace asciiLower (completion vagueAnswer) noJSON
                    scan "analyze" LiveCtx
                    "Let's switch to blue-green deploys"
     = inr (MkMessageAnalysisResult MessageTypeUnknown CategoryUnknown []
                                    defaultConfidence []).
Proof.
  assert (Hcontent : asciiTrimSpace "Let's switch to blue-green deploys"
                     <> "") by (vm_compute; discriminate).
  assert (Hlines :
            Forall (fun line : string =>
                      HasPrefix (asciiLower (asciiTrimSpace line)) "type:"
                      = false
                      /\ HasPrefix (asciiLower (asciiTrimSpace line))
                                   "category:" = false
                      /\ HasPrefix (asciiLower (asciiTrimSpace line))
                                   "confidence:" = false
                      /\ HasPrefix (asciiLower (asciiTrimSpace line)) "tags:"
                         = false)
                   (Split "010"%char vagueAnswer))
    by (repeat constructor).
  split; [exact (conj Hcontent (conj eq_refl (conj eq_refl Hlines))) | ].
  exact (unrecognised_answer asciiTrimSpace asciiLower
           (completion vagueAnswer) noJSON scan "analyze"
           (fun s _ => eq_refl) (fun s _ => eq_refl)
           "Let's switch to blue-green deploys" vagueAnswer
           Hcontent eq_refl eq_refl Hlines).
Defined.

End OllamaScenarios.

Module EventLoopScenarios.
Import Domain Slack Threads Correlation EventLoop Cases EventLoopFacts.

(** C1, refuted.  The loop receives twice an event with the conversation
    marker ["T1"] and no parent.  The first is resolved to the identifier
    0, the second to the identifier 1, and the map keeps the second. *)
Lemma same_marker_resolved_twice :
  let loop := handleEvents asciiTrimSpace userInfo information ticks
                           (NewClient 0) [root; root] in
  (resolved <$> snd loop
   = [Some (Common.MkID "0"); Some (Common.MkID "1")])
  /\ Common.MkID "0" <> Common.MkID "1"
  /\ threadMap (fst loop) !! "T1" = Some (Common.MkID "1").
Proof.
  split; [vm_compute; reflexivity | ].
  split; [discriminate | vm_compute; reflexivity].
Qed.

(** The same two events, and a third one with a marker of its own. *)
Lemma roots_resolve_fresh_witness :
  let events := [root; root; next] in
  (lockFree (NewClient 0)
   /\ Forall (fun ev : MessageEvent =>
                ThreadTimestamp ev = ""
                /\ exists name : string, accepted userInfo ev name) events
   /\ length (messageCh (NewClient 0)) + length events <= channelCapacity)
  /\ exists (c' : Client) (results : list result) (tids : list Common.ID),
      handleEvents asciiTrimSpace userInfo information ticks (NewClient 0)
                   events
      = (c', Done <$> results)
      /\ resolved <$> (Done <$> results) = Some <$> tids
      /\ length tids = length events
      /\ NoDup tids
      /\ Forall (fun tid : Common.ID =>
                   exists k : nat,
                     issued (NewClient 0) <= k < issued c'
                     /\ tid = Common.MkID (Common.ulid k)) tids
      /\ (forall (i : nat) (ev : MessageEvent) (tid : Common.ID),
             events !! i = Some ev -> tids !! i = Some tid ->
             (forall (j : nat) (ev' : MessageEvent),
                 i < j -> events !! j = Some ev' ->
                 Timestamp ev' <> Timestamp ev) ->
             threadMap c' !! Timestamp ev = Some tid)
      /\ lockFree c'
      /\ length (messageCh c') <= channelCapacity.
Proof.
  assert (Hfree : lockFree (NewClient 0)) by (split; reflexivity).
  assert (Hroot : forall user ts : string,
             user <> "" ->
             ThreadTimestamp (event user ts "") = ""
             /\ exists name : string,
                 accepted userInfo (event user ts "") name)
    by (intros user ts Huser; split; [reflexivity | ];
        exists user; repeat split; exact Huser).
  assert (Hroots : Forall (fun ev : MessageEvent =>
                             ThreadTimestamp ev = ""
                             /\ exists name : string,
                                 accepted userInfo ev name)
                          [root; root; next])
    by (repeat constructor; apply Hroot; discriminate).
  assert (Hroom : length (messageCh (NewClient 0))
                  + length [root; root; next] <= channelCapacity)
    by (vm_compute; lia).
  split; [exact (conj Hfree (conj Hroots Hroom)) | ].
  exact (roots_resolve_fresh asciiTrimSpace userInfo information ticks
           (NewClient 0) [root; root; next] Hfree Hroots Hroom).
Defined.

End EventLoopScenarios.
